(** * ACUTE: a checkpoint offload fabric for distributed training

    A shallow embedding of [ACUTE/ACUTE.py] and the properties its
    specification states about it.  Python integers are [Z], [bytes] are
    [list byte], [str] is [string], dictionaries keyed by strings are
    [gmap string _], and a call that can raise returns a [result].  What
    the machine can hold is a parameter: a list whose length is a
    configuration value is built only within [Py.list_limit]. *)

From Stdlib Require Import ZArith Lia Bool Ascii DecimalString DecimalZ DecimalPos.
From stdpp Require Import base option list strings gmap sorting.

Local Open Scope Z_scope.

(** ** Python prelude *)

Module Py.

(** The exceptions the modelled code can raise. *)
Inductive exn : Type :=
  | ValueError (msg : string)
  | AssertionError (msg : string)
  | KeyError (key : string)
  | IndexError
  | AttributeError
  | TypeError
  | UnpicklingError
  | ZeroDivisionError
  | OverflowError
  | MemoryError
  | SystemExit.

Inductive result (A : Type) : Type :=
  | Ok (a : A)
  | Raise (e : exn).
Arguments Ok {A} a.
Arguments Raise {A} e.

Definition bind {A B : Type} (r : result A) (k : A -> result B) : result B :=
  match r with
  | Ok a => k a
  | Raise e => Raise e
  end.

Definition is_ok {A : Type} (r : result A) : bool :=
  match r with Ok _ => true | Raise _ => false end.

(** [f"{z}"] for an integer [z]: its decimal numeral. *)
Definition str_of_int (z : Z) : string := NilZero.string_of_int (Z.to_int z).

(** [int(s)] for a string [s]: an optional sign followed by decimal
    digits.  (Python also accepts blanks around the numeral and single
    underscores between digits; the program never produces such strings,
    and the model reports them as [ValueError].) *)
Definition int_of_str (s : string) : result Z :=
  let parsed :=
    match s with
    | String a s' =>
        if Ascii.eqb a "+"%char then Decimal.Pos <$> NilZero.uint_of_string s'
        else NilZero.int_of_string s
    | EmptyString => None
    end in
  match parsed with
  | Some d => Ok (Z.of_int d)
  | None => Raise (ValueError ("invalid literal for int() with base 10: " +:+ s))
  end.

(** The values a configuration record holds. *)
Inductive pyval : Type :=
  | VNone
  | VBool (b : bool)
  | VInt (z : Z)
  | VStr (s : string).

(** [bool(v)], as [if v:] tests it. *)
Definition truthy (v : pyval) : bool :=
  match v with
  | VNone => false
  | VBool b => b
  | VInt z => negb (z =? 0)
  | VStr s => negb (String.eqb s "")
  end.

(** The integer an arithmetic operator or a comparison with an [int] sees
    ([bool] is a subtype of [int]). *)
Definition as_int (v : pyval) : result Z :=
  match v with
  | VInt z => Ok z
  | VBool b => Ok (Z.b2z b)
  | _ => Raise TypeError
  end.

(** [d[key]] on a dictionary. *)
Definition dict_get {V : Type} (d : gmap string V) (key : string) : result V :=
  match d !! key with
  | Some v => Ok v
  | None => Raise (KeyError key)
  end.

(** [l[i]] on a list: a negative index counts from the end. *)
Definition getitem {A : Type} (l : list A) (i : Z) : result A :=
  let j := if i <? 0 then i + Z.of_nat (length l) else i in
  if j <? 0 then Raise IndexError
  else match l !! Z.to_nat j with
       | Some x => Ok x
       | None => Raise IndexError
       end.

(** [l[i] = x] on a list. *)
Definition setitem {A : Type} (l : list A) (i : Z) (x : A) : result (list A) :=
  let j := if i <? 0 then i + Z.of_nat (length l) else i in
  if (j <? 0) || (Z.of_nat (length l) <=? j) then Raise IndexError
  else Ok (<[Z.to_nat j := x]> l).

(** [l.index(x)] on a list of integers: the first position holding [x]. *)
Fixpoint list_index (l : list Z) (x : Z) : result Z :=
  match l with
  | [] => Raise (ValueError (str_of_int x +:+ " is not in list"))
  | y :: l' =>
      if y =? x then Ok 0
      else match list_index l' x with
           | Ok i => Ok (i + 1)
           | Raise e => Raise e
           end
  end.

(** *** Binary64 floats, as far as [int / int] and [int(float)] need them *)

(** A finite double: [(-1)^f_neg * f_mant * 2^f_exp]. *)
Record float64 : Type := Float64 { f_neg : bool; f_mant : Z; f_exp : Z }.

(** [a / b] for [0 <= a], [0 < b], rounded to the nearest integer, ties to
    the even one. *)
Definition rne_div (a b : Z) : Z :=
  let q := a / b in
  let r := a mod b in
  if 2 * r <? b then q
  else if b <? 2 * r then q + 1
  else if Z.even q then q else q + 1.

(** [floor (log2 (a / b))] for [0 < a], [0 < b]. *)
Definition ratio_log2 (a b : Z) : Z :=
  let k := Z.log2 a - Z.log2 b in
  if b * 2 ^ Z.max 0 k <=? a * 2 ^ Z.max 0 (- k) then k else k - 1.

(** The double nearest to [a / b] for [0 <= a], [0 < b]: 53 significant
    bits, exponent no smaller than [-1074], [None] beyond the largest
    double.  CPython's [long_true_divide] rounds the exact quotient once,
    to nearest, ties to even. *)
Definition round_ratio (a b : Z) : option (Z * Z) :=
  if a =? 0 then Some (0, 0)
  else
    let e := Z.max (ratio_log2 a b - 52) (-1074) in
    let m := rne_div (a * 2 ^ Z.max 0 (- e)) (b * 2 ^ Z.max 0 e) in
    if (971 <? e) || ((e =? 971) && (2 ^ 53 <=? m)) then None
    else Some (m, e).

(** [a / b] on integers (true division). *)
Definition truediv (a b : Z) : result float64 :=
  if b =? 0 then Raise ZeroDivisionError
  else
    match round_ratio (Z.abs a) (Z.abs b) with
    | None => Raise OverflowError
    | Some (m, e) => Ok (Float64 (xorb (a <? 0) (b <? 0)) m e)
    end.

(** [int(x)] on a finite float: truncation toward zero. *)
Definition int_of_float (x : float64) : Z :=
  let mag :=
    if 0 <=? f_exp x then f_mant x * 2 ^ f_exp x
    else f_mant x / 2 ^ (- f_exp x) in
  if f_neg x then - mag else mag.

(** [a % b] on integers: the sign of the result follows the divisor. *)
Definition mod_ (a b : Z) : result Z :=
  if b =? 0 then Raise ZeroDivisionError else Ok (a mod b).

(** *** Slices *)

(** One bound of a slice of a sequence of length [len]: a negative index
    counts from the end, and the result is clamped to [0, len]. *)
Definition slice_index (len i : Z) : Z :=
  if i <? 0 then Z.max 0 (i + len) else Z.min i len.

(** [l[lo:hi]]. *)
Definition slice {A : Type} (l : list A) (lo hi : Z) : list A :=
  let len := Z.of_nat (length l) in
  let lo' := slice_index len lo in
  let hi' := slice_index len hi in
  take (Z.to_nat (hi' - lo')) (drop (Z.to_nat lo') l).

(** *** [range] *)

(** The number of elements of [range(lo, hi, step)] for [step <> 0]. *)
Definition range_len (lo hi step : Z) : Z :=
  if 0 <? step then
    if lo <? hi then 1 + (hi - 1 - lo) / step else 0
  else
    if hi <? lo then 1 + (lo - 1 - hi) / (- step) else 0.

(** [range(lo, hi, step)]: the values a loop over it takes, in order.
    A [range] object holds its three bounds only; no list is built. *)
Definition range (lo hi step : Z) : result (list Z) :=
  if step =? 0 then Raise (ValueError "range() arg 3 must not be zero")
  else Ok ((fun i => lo + Z.of_nat i * step)
             <$> seq 0 (Z.to_nat (range_len lo hi step))).

(** *** Lists whose length is a configuration value *)

(** [sys.maxsize]: the largest [Py_ssize_t] of a 64-bit build. *)
Definition maxsize : Z := 2 ^ 63 - 1.

(** The machine the process runs on, as far as the modelled code depends
    on it: the process gets every list of at most [list_capacity] items it
    asks for, and none that is longer. *)
Class Machine : Type := BuildMachine { list_capacity : N }.

(** The longest list the interpreter hands out: CPython itself refuses an
    item array of more than [maxsize / 8] pointers, whatever the machine. *)
Definition list_limit {machine : Machine} : Z :=
  Z.min (Z.of_N list_capacity) (maxsize / 8).

(** Asking for a list of [n] items ([n <= 0]: the empty list). *)
Definition list_build {machine : Machine} (n : Z) : result unit :=
  if list_limit <? n then Raise MemoryError else Ok tt.

(** A list comprehension that yields the items [l]. *)
Definition list_alloc {machine : Machine} {A : Type} (l : list A) : result (list A) :=
  bind (list_build (Z.of_nat (length l))) (fun _ => Ok l).

(** [list(range(lo, hi, step))].  [list] asks the range for its length
    first, which raises [OverflowError] when it exceeds [sys.maxsize]. *)
Definition list_range {machine : Machine} (lo hi step : Z) : result (list Z) :=
  if step =? 0 then Raise (ValueError "range() arg 3 must not be zero")
  else if maxsize <? range_len lo hi step then Raise OverflowError
  else bind (list_build (range_len lo hi step)) (fun _ => range lo hi step).

(** [[x] * n]: a count beyond [sys.maxsize] is no index
    ([OverflowError]); a negative count gives the empty list. *)
Definition list_repeat {machine : Machine} {A : Type} (x : A) (n : Z)
    : result (list A) :=
  if maxsize <? n then Raise OverflowError
  else bind (list_build n) (fun _ => Ok (replicate (Z.to_nat n) x)).

End Py.

#[global] Instance result_ret : MRet Py.result := @Py.Ok.
#[global] Instance result_bind : MBind Py.result :=
  fun A B k r => Py.bind r k.

Abbreviation bytes := (list Byte.byte).

(** ** The MPI wrapper: role election *)

Module MPI.

(** The fields of an [MPI] object the modelled methods use.  [rank] and
    [size] come from the communicator; [sharding_rank_list] is [None] until
    [make_sharding_rank] has run. *)
Record MPI : Type := Build {
  rank : Z;
  size : Z;
  sharding_rank_list : option (list Z);
}.

(** The loop of [make_sharding_rank]: scan the world ranks [ranks] in
    order and keep those whose gathered local rank is 0. *)
Fixpoint scan_local_ranks (localRankList : list Z) (ranks : list Z)
    (sharding_rank_list : list Z) : Py.result (list Z) :=
  match ranks with
  | [] => Py.Ok sharding_rank_list
  | i :: ranks' =>
      x ← Py.getitem localRankList i;
      scan_local_ranks localRankList ranks'
        (if x =? 0 then sharding_rank_list ++ [i] else sharding_rank_list)
  end.

(** [MPI.make_sharding_rank].  [environ] is [os.environ]; [all_gather] is
    the collective: it maps this process's contribution to the gathered
    vector.  Returns the updated object and the number of shard leaders. *)
Definition make_sharding_rank (self : MPI) (environ : gmap string string)
    (all_gather : Z -> list Z) : Py.result (MPI * Z) :=
  v ← Py.dict_get environ "OMPI_COMM_WORLD_LOCAL_RANK";
  my_local_rank ← Py.int_of_str v;
  let localRankList := all_gather my_local_rank in
  ranks ← Py.range 0 (size self - 1) 1;
  sharding_rank_list ← scan_local_ranks localRankList ranks [];
  Py.Ok (Build (rank self) (size self) (Some sharding_rank_list),
         Z.of_nat (length sharding_rank_list)).

(** [MPI.set_environ]: the outcome and [os.environ] as the call leaves
    it.  An assignment to [os.environ] accepts strings only. *)
Definition set_environ (self : MPI) (environ : gmap string string)
    (training_master_address training_master_port : Py.pyval)
    : Py.result unit * gmap string string :=
  match Py.dict_get environ "OMPI_COMM_WORLD_LOCAL_RANK" with
  | Py.Raise e => (Py.Raise e, environ)
  | Py.Ok v =>
      let environ := <["LOCAL_RANK" := v]> environ in
      let environ := <["RANK" := Py.str_of_int (rank self)]> environ in
      let environ := <["WORLD_SIZE" := Py.str_of_int (size self - 1)]> environ in
      match training_master_address, training_master_port with
      | Py.VStr addr, Py.VStr port =>
          let environ := <["MASTER_ADDR" := addr]> environ in
          let environ := <["MASTER_PORT" := port]> environ in
          match Py.dict_get environ "LOCAL_RANK" ≫= Py.int_of_str with
          | Py.Raise e => (Py.Raise e, environ)
          | Py.Ok local_rank =>
              if local_rank =? 0 then
                match sharding_rank_list self with
                | None => (Py.Raise Py.AttributeError, environ)
                | Some l =>
                    match Py.list_index l (rank self) with
                    | Py.Raise e => (Py.Raise e, environ)
                    | Py.Ok i =>
                        (Py.Ok (), <["SHARD_RANK" := Py.str_of_int i]> environ)
                    end
                end
              else (Py.Ok (), <["SHARD_RANK" := "-1"]> environ)
          end
      | Py.VStr addr, _ => (Py.Raise Py.TypeError, <["MASTER_ADDR" := addr]> environ)
      | _, _ => (Py.Raise Py.TypeError, environ)
      end
  end.

(** The environment [set_environ] leaves, up to [SHARD_RANK], when the
    launcher's local rank is the string [s]. *)
Definition published (self : MPI) (environ : gmap string string)
    (s addr port : string) : gmap string string :=
  <["MASTER_PORT" := port]> (<["MASTER_ADDR" := addr]>
    (<["WORLD_SIZE" := Py.str_of_int (size self - 1)]>
      (<["RANK" := Py.str_of_int (rank self)]>
        (<["LOCAL_RANK" := s]> environ)))).

End MPI.

(** ** The training node: Copier and Sender *)

Module TRAIN.

Section WithSerializer.

(** The user's snapshot objects and [torch.save] into a [BytesIO], read
    back with [getvalue()]. *)
Context {snapshot : Type}.
Variable torch_save : snapshot -> bytes.

(** Where the Copier's worker thread stands inside one iteration of
    [__method]; the constructors carry the thread's local variables. *)
Inductive copier_pc : Type :=
  | AtWait                           (* while self.__buffer is None *)
  | AtClear (byteBuffer : bytes)     (* torch.save done; next: self.__buffer = None *)
  | AtRelease (byteBuffer : bytes)   (* next: with lock: __copy_completed = True *)
  | AtShard (dump : bytes).          (* next: compute_shard, slice, enqueue *)

(** A [__CopierClass] object.  [is_copy_complete_attr] is the attribute
    [self.__is_copy_complete], which [__init__] does not create;
    [iterations] counts what is left of [range(save_count)]. *)
Record CopierClass : Type := BuildCopier {
  save_count : Z;
  shard_rank : Z;
  shard_size : Z;
  copy_completed : bool;
  is_copy_complete_attr : option bool;
  buffer : option snapshot;
  iterations : nat;
  pc : copier_pc;
}.

(** [__CopierClass.__init__]. *)
Definition CopierClass_init (save_count shard_rank shard_size : Z) : CopierClass :=
  BuildCopier save_count shard_rank shard_size true None None
    (Z.to_nat save_count) AtWait.

(** The locals [q] and [r] of [compute_shard]: [int(key_len /
    compute_node_len)] and [int(key_len % compute_node_len)]. *)
Definition compute_shard_q_r (key_len compute_node_len : Z) : Py.result (Z * Z) :=
  x ← Py.truediv key_len compute_node_len;
  r ← Py.mod_ key_len compute_node_len;
  Py.Ok (Py.int_of_float x, r).

(** [compute_shard], the closure inside [__method]. *)
Definition compute_shard (self : CopierClass) (dump : bytes) : Py.result (Z * Z) :=
  let key_len := Z.of_nat (length dump) in
  let compute_node_len := shard_size self in
  '(q, r) ← compute_shard_q_r key_len compute_node_len;
  let rank := shard_rank self in
  if rank + 1 <=? r then
    Py.Ok (rank * (q + 1), (rank + 1) * (q + 1) - 1)
  else
    Py.Ok (rank * q + r, (rank + 1) * q + r - 1).

(** What [__method] enqueues for a dump: the shard's slice, or an empty
    chunk when the range is empty. *)
Definition shard_chunk (self : CopierClass) (dump : bytes) : Py.result bytes :=
  '(left_, right_) ← compute_shard self dump;
  Py.Ok (if left_ <=? right_ then Py.slice dump left_ (right_ + 1) else []).

Definition with_pc (self : CopierClass) (n : nat) (p : copier_pc) : CopierClass :=
  BuildCopier (save_count self) (shard_rank self) (shard_size self)
    (copy_completed self) (is_copy_complete_attr self) (buffer self) n p.

(** One step of the worker thread [__method].  [queue] is the Sender's
    queue, which [sender_enqueue] appends to.  [None]: the thread cannot
    move (it polls an empty buffer, or its loop has ended).  The [with
    self.__copy_lock] block is one step. *)
Definition method_step (self : CopierClass) (queue : list bytes)
    : option (Py.result (CopierClass * list bytes)) :=
  match iterations self with
  | O => None
  | S n =>
      match pc self with
      | AtWait =>
          match buffer self with
          | None => None
          | Some obj => Some (Py.Ok (with_pc self (S n) (AtClear (torch_save obj)), queue))
          end
      | AtClear byteBuffer =>
          Some (Py.Ok (BuildCopier (save_count self) (shard_rank self) (shard_size self)
                      (copy_completed self) (is_copy_complete_attr self) None
                      (S n) (AtRelease byteBuffer), queue))
      | AtRelease byteBuffer =>
          Some (Py.Ok (BuildCopier (save_count self) (shard_rank self) (shard_size self)
                      true (is_copy_complete_attr self) (buffer self)
                      (S n) (AtShard byteBuffer), queue))
      | AtShard dump =>
          Some (chunk ← shard_chunk self dump;
                Py.Ok (with_pc self n AtWait, queue ++ [chunk]))
      end
  end.

(** [is_copy_complete]. *)
Definition is_copy_complete (self : CopierClass) : bool := copy_completed self.

(** [wait_copy_complete] returns once the flag reads true; [false] here
    means the caller is still polling. *)
Definition wait_copy_complete (self : CopierClass) : bool := copy_completed self.

(** [request]: [None] while the caller is still inside
    [wait_copy_complete]; otherwise the object after the locked block. *)
Definition request (self : CopierClass) (obj : snapshot) : option CopierClass :=
  if wait_copy_complete self then
    Some (if is_copy_complete self then
            BuildCopier (save_count self) (shard_rank self) (shard_size self)
              (copy_completed self) (Some false) (Some obj)
              (iterations self) (pc self)
          else self)
  else None.

(** A [__SenderClass] object: its queue and what is left of its loop. *)
Record SenderClass : Type := BuildSender {
  queue : list bytes;
  sender_iterations : nat;
}.

(** One step of the Sender's [__method]: pop a chunk and send it to rank
    [size - 1] with tag 0.  Returns the message [(dest, tag, data)]. *)
Definition sender_step (comm : MPI.MPI) (self : SenderClass)
    : option (SenderClass * (Z * Z * bytes)) :=
  match sender_iterations self, queue self with
  | S n, data :: rest => Some (BuildSender rest n, (MPI.size comm - 1, 0, data))
  | _, _ => None
  end.

(** A [TRAIN] node. *)
Record TRAIN : Type := Build {
  comm : MPI.MPI;
  Sender : SenderClass;
  Copier : CopierClass;
  is_running : bool;
}.

(** [TRAIN.__init__]. *)
Definition init (comm : MPI.MPI) (save_count shard_rank shard_size : Z) : TRAIN :=
  Build comm (BuildSender [] (Z.to_nat save_count))
    (CopierClass_init save_count shard_rank shard_size) false.

Inductive thread : Type := SenderThread | CopierThread.

(** [TRAIN.start]: the node and the threads it starts. *)
Definition start (self : TRAIN) : Py.result (TRAIN * list thread) :=
  if is_running self then Py.Raise (Py.AssertionError "This train node already started.")
  else
    let self' := Build (comm self) (Sender self) (Copier self) true in
    let c := Copier self in
    if (0 <=? shard_rank c) && (shard_rank c <? shard_size c)
    then Py.Ok (self', [SenderThread; CopierThread])
    else Py.Ok (self', []).

(** [TRAIN.save]: [None] while the caller polls inside [request]. *)
Definition save (self : TRAIN) (obj : snapshot) : option (Py.result TRAIN) :=
  if negb (is_running self) then
    Some (Py.Raise (Py.AssertionError
      "You have not started the module yet. Please start the module first using init_ACUTE() or start()."))
  else if 0 <=? shard_rank (Copier self) then
    match request (Copier self) obj with
    | Some c => Some (Py.Ok (Build (comm self) (Sender self) c (is_running self)))
    | None => None
    end
  else Some (Py.Ok self).

(** The states a Copier and its Sender's queue can be in: the trainer
    thread calls [request] and the worker thread runs [__method], in any
    interleaving. *)
Inductive reachable (save_count shard_rank shard_size : Z)
    : CopierClass -> list bytes -> Prop :=
  | reachable_init :
      reachable save_count shard_rank shard_size
        (CopierClass_init save_count shard_rank shard_size) []
  | reachable_request self queue obj self' :
      reachable save_count shard_rank shard_size self queue ->
      request self obj = Some self' ->
      reachable save_count shard_rank shard_size self' queue
  | reachable_method self queue self' queue' :
      reachable save_count shard_rank shard_size self queue ->
      method_step self queue = Some (Py.Ok (self', queue')) ->
      reachable save_count shard_rank shard_size self' queue'.

(** [k] steps of the worker thread [__method], stopping early if it
    cannot move or raises. *)
Fixpoint method_steps (k : nat) (self : CopierClass) (queue : list bytes)
    : option (Py.result (CopierClass * list bytes)) :=
  match k with
  | O => Some (Py.Ok (self, queue))
  | S k' =>
      match method_step self queue with
      | Some (Py.Ok (self', queue')) => method_steps k' self' queue'
      | other => other
      end
  end.

End WithSerializer.

(** [k] steps of the Sender's thread: the Sender they leave and the
    messages sent, in order; the thread stops when it cannot move. *)
Fixpoint sender_steps (comm : MPI.MPI) (k : nat) (self : SenderClass)
    : SenderClass * list (Z * Z * bytes) :=
  match k with
  | O => (self, [])
  | S k' =>
      match sender_step comm self with
      | Some (self', msg) =>
          let '(self'', msgs) := sender_steps comm k' self' in (self'', msg :: msgs)
      | None => (self, [])
      end
  end.

End TRAIN.

(** ** The remote node: ring buffer, Flusher and Master *)

Module REMOTE.

(** [datetime.now()], as far as [strftime] reads it. *)
Record datetime : Type := BuildDatetime {
  year : Z; month : Z; day : Z; hour : Z; minute : Z; second : Z;
}.

(** A two-digit field of [strftime] ([%m], [%d], [%H], [%M], [%S]). *)
Definition pad2 (z : Z) : string :=
  if z <? 10 then "0" +:+ Py.str_of_int z else Py.str_of_int z.

(** [now.strftime("%Y-%m-%d-%H%M%S")]. *)
Definition strftime (now : datetime) : string :=
  Py.str_of_int (year now) +:+ "-" +:+ pad2 (month now) +:+ "-" +:+ pad2 (day now)
    +:+ "-" +:+ pad2 (hour now) +:+ pad2 (minute now) +:+ pad2 (second now).

(** The ranges Python's [datetime] keeps its fields in. *)
Definition valid_datetime (now : datetime) : Prop :=
  1 <= year now <= 9999 /\ 1 <= month now <= 12 /\ 1 <= day now <= 31 /\
  0 <= hour now <= 23 /\ 0 <= minute now <= 59 /\ 0 <= second now <= 59.

(** [str(v)]. *)
Definition str (v : Py.pyval) : string :=
  match v with
  | Py.VNone => "None"
  | Py.VBool true => "True"
  | Py.VBool false => "False"
  | Py.VInt z => Py.str_of_int z
  | Py.VStr s => s
  end.

(** [a + b] where [a] is a string. *)
Definition str_add (a : string) (b : Py.pyval) : Py.result string :=
  match b with
  | Py.VStr s => Py.Ok (a +:+ s)
  | _ => Py.Raise Py.TypeError
  end.

(** A cell of the remote buffer: the [0] the constructor puts there, or
    the chunk a Receiver has stored. *)
Inductive cell : Type :=
  | CellInit
  | CellBytes (b : bytes).

(** [b''.join(cells)]. *)
Fixpoint join (cells : list cell) : Py.result bytes :=
  match cells with
  | [] => Py.Ok []
  | CellInit :: _ => Py.Raise Py.TypeError
  | CellBytes b :: rest => tail ← join rest; Py.Ok (b ++ tail)
  end.

(** Where the Flusher's worker thread stands inside one iteration of
    [__method], with its local variables. *)
Inductive flusher_pc : Type :=
  | AtGet                                            (* self.__queue.get() *)
  | AtJoin (remote_buffer_index : Z)                 (* b''.join(...) *)
  | AtClearDirty (remote_buffer_index : Z) (entire_recv_data : bytes)
  | AtFileName (entire_recv_data : bytes)            (* self.__get_file_name() *)
  | AtWrite (entire_recv_data : bytes) (file_path_name : string).

(** A [REMOTE] node with its Flusher; [files] is what has been written and
    synced to disk. *)
Record REMOTE : Type := Build {
  comm : MPI.MPI;
  save_count : Z;
  remote_buffer_size : Z;
  SHARD_SIZE : Z;
  model_name : Py.pyval;
  file_name_include_datetime : Py.pyval;
  file_save_in_dictionary : Py.pyval;
  is_running : bool;
  dirty_bits : list Z;
  remote_buffer : list (list cell);
  remote_buffer_index : Z;
  flusher_queue : list Z;
  flusher_iterations : nat;
  flusher_at : flusher_pc;
  files : gmap string bytes;
}.

(** [REMOTE.__init__]. *)
Definition init (comm : MPI.MPI) (save_count remote_buffer_size shard_size : Z)
    (model_name file_name_include_datetime file_save_in_dictionary : Py.pyval)
    : REMOTE :=
  Build comm save_count remote_buffer_size shard_size
    model_name file_name_include_datetime file_save_in_dictionary
    false
    (replicate (Z.to_nat remote_buffer_size) 0)
    (replicate (Z.to_nat remote_buffer_size) (replicate (Z.to_nat shard_size) CellInit))
    0 [] (Z.to_nat save_count) AtGet ∅.

(** [REMOTE(...)]: the call of the constructor, with the lists it
    builds: [[0] * remote_buffer_size], then the rows of the remote buffer
    and the list of Receivers, [shard_size] items each. *)
Definition new {machine : Py.Machine} (comm : MPI.MPI)
    (save_count remote_buffer_size shard_size : Z)
    (model_name file_name_include_datetime file_save_in_dictionary : Py.pyval)
    : Py.result REMOTE :=
  _ ← Py.list_repeat 0 remote_buffer_size;
  _ ← Py.list_build shard_size;
  Py.Ok (init comm save_count remote_buffer_size shard_size
           model_name file_name_include_datetime file_save_in_dictionary).

Definition with_dirty_bits (self : REMOTE) (bits : list Z) : REMOTE :=
  Build (comm self) (save_count self) (remote_buffer_size self) (SHARD_SIZE self)
    (model_name self) (file_name_include_datetime self) (file_save_in_dictionary self)
    (is_running self) bits (remote_buffer self) (remote_buffer_index self)
    (flusher_queue self) (flusher_iterations self) (flusher_at self) (files self).

Definition with_flusher (self : REMOTE) (q : list Z) (n : nat) (p : flusher_pc)
    (fs : gmap string bytes) : REMOTE :=
  Build (comm self) (save_count self) (remote_buffer_size self) (SHARD_SIZE self)
    (model_name self) (file_name_include_datetime self) (file_save_in_dictionary self)
    (is_running self) (dirty_bits self) (remote_buffer self) (remote_buffer_index self)
    q n p fs.

(** [__set_dirty_bit] and [__clear_dirty_bit]. *)
Definition set_dirty_bit (self : REMOTE) (index : Z) : Py.result REMOTE :=
  bits ← Py.setitem (dirty_bits self) index 1;
  Py.Ok (with_dirty_bits self bits).

Definition clear_dirty_bit (self : REMOTE) (index : Z) : Py.result REMOTE :=
  bits ← Py.setitem (dirty_bits self) index 0;
  Py.Ok (with_dirty_bits self bits).

(** [__get_file_name_and_path]; [now] is what [datetime.now()] returns. *)
Definition get_file_name_and_path (self : REMOTE) (now : datetime) : Py.result string :=
  let fileName := "./" +:+ str (model_name self) in
  fileName ←
    (if Py.truthy (file_save_in_dictionary self) then
       prefix ← str_add "./" (model_name self);
       Py.Ok (prefix +:+ "/" +:+ fileName)
     else Py.Ok fileName);
  let fileName :=
    if Py.truthy (file_name_include_datetime self)
    then fileName +:+ "_" +:+ strftime now
    else fileName in
  Py.Ok (fileName +:+ ".pt.tar").

(** One step of the Flusher's worker thread [__method].  [None]: the
    thread cannot move (empty queue, or its loop has ended). *)
Definition flusher_step (now : datetime) (self : REMOTE) : option (Py.result REMOTE) :=
  match flusher_iterations self with
  | O => None
  | S n =>
      match flusher_at self with
      | AtGet =>
          match flusher_queue self with
          | [] => None
          | i :: rest => Some (Py.Ok (with_flusher self rest (S n) (AtJoin i) (files self)))
          end
      | AtJoin i =>
          Some (slot ← Py.getitem (remote_buffer self) i;
                entire_recv_data ← join slot;
                Py.Ok (with_flusher self (flusher_queue self) (S n)
                         (AtClearDirty i entire_recv_data) (files self)))
      | AtClearDirty i entire_recv_data =>
          Some (self' ← clear_dirty_bit self i;
                Py.Ok (with_flusher self' (flusher_queue self') (S n)
                         (AtFileName entire_recv_data) (files self')))
      | AtFileName entire_recv_data =>
          Some (file_path_name ← get_file_name_and_path self now;
                Py.Ok (with_flusher self (flusher_queue self) (S n)
                         (AtWrite entire_recv_data file_path_name) (files self)))
      | AtWrite entire_recv_data file_path_name =>
          Some (Py.Ok (with_flusher self (flusher_queue self) n AtGet
                         (<[file_path_name := entire_recv_data]> (files self))))
      end
  end.

(** [k] steps of the Flusher's thread, stopping early if it cannot move or
    raises. *)
Fixpoint flusher_steps (now : datetime) (k : nat) (self : REMOTE)
    : option (Py.result REMOTE) :=
  match k with
  | O => Some (Py.Ok self)
  | S k' =>
      match flusher_step now self with
      | Some (Py.Ok self') => flusher_steps now k' self'
      | other => other
      end
  end.

(** The Receivers of one cycle: Receiver [rank] stores its chunk at
    [remote_buffer[index][rank]]. *)
Fixpoint store_chunks (slot : list cell) (rank : Z) (chunks : list bytes)
    : Py.result (list cell) :=
  match chunks with
  | [] => Py.Ok slot
  | c :: rest =>
      slot' ← Py.setitem slot rank (CellBytes c);
      store_chunks slot' (rank + 1) rest
  end.

(** One iteration of the Master's loop in [start], with the chunks the
    Receivers get from the shard leaders.  [None]: the Master spins in
    [__wait_dirty_bit]. *)
Definition master_cycle (chunks : list bytes) (self : REMOTE) : option (Py.result REMOTE) :=
  let target_buffer_index := remote_buffer_index self in
  match Py.getitem (dirty_bits self) target_buffer_index with
  | Py.Raise e => Some (Py.Raise e)
  | Py.Ok bit =>
      if negb (bit =? 0) then None
      else Some (
        self1 ← set_dirty_bit self target_buffer_index;
        slot ← Py.getitem (remote_buffer self1) target_buffer_index;
        slot' ← store_chunks slot 0 chunks;
        buf ← Py.setitem (remote_buffer self1) target_buffer_index slot';
        next ← Py.mod_ (remote_buffer_index self1 + 1) (remote_buffer_size self1);
        Py.Ok (Build (comm self1) (save_count self1) (remote_buffer_size self1)
                 (SHARD_SIZE self1) (model_name self1)
                 (file_name_include_datetime self1) (file_save_in_dictionary self1)
                 (is_running self1) (dirty_bits self1) buf next
                 (flusher_queue self1 ++ [target_buffer_index])
                 (flusher_iterations self1) (flusher_at self1) (files self1)))
  end.

(** The Master's loop [for _ in range(self.__save_count)] in [start] with
    [iterations] iterations still to run, fed the chunk lists [cycles] that
    the Receivers get in the cycles to come, while no other thread moves.
    It gives the node and the iterations left once the loop has ended or the
    chunk lists are used up; [None]: the Master spins in [__wait_dirty_bit]. *)
Fixpoint master_loop (iterations : nat) (cycles : list (list bytes)) (self : REMOTE)
    : option (Py.result (REMOTE * nat)) :=
  match iterations, cycles with
  | O, _ => Some (Py.Ok (self, O))
  | S n, [] => Some (Py.Ok (self, S n))
  | S n, chunks :: rest =>
      match master_cycle chunks self with
      | Some (Py.Ok self') => master_loop n rest self'
      | Some (Py.Raise e) => Some (Py.Raise e)
      | None => None
      end
  end.

(** The Master's loop from its first iteration: [range(self.__save_count)]
    has [save_count] iterations, none for a negative count. *)
Definition master_cycles (cycles : list (list bytes)) (self : REMOTE)
    : option (Py.result (REMOTE * nat)) :=
  master_loop (Z.to_nat (save_count self)) cycles self.

End REMOTE.

(** ** Save count and bootstrap *)

(** [calculate_save_count]. *)
Definition calculate_save_count {machine : Py.Machine}
    (start_epoch total_epochs save_period : Z) : Py.result Z :=
  save_points ← Py.list_range 1 (total_epochs + 1) save_period;
  kept ← Py.list_alloc (filter (fun point => start_epoch <= point) save_points);
  let save_counts := Z.of_nat (length kept) in
  Py.Ok save_counts.

Module Init.

(** A file [torch.load] can be pointed at: a pickled dictionary, or
    something it cannot unpickle. *)
Inductive file : Type :=
  | Snapshot (d : gmap string Py.pyval)
  | Garbage.

(** What [init_ACUTE] reads from outside the process: the files on disk,
    the communicator's rank and size, and the all-gather collective. *)
Record world : Type := BuildWorld {
  fs : gmap string file;
  mpi_rank : Z;
  mpi_size : Z;
  all_gather : Z -> list Z;
}.

(** What [init_ACUTE] does besides computing, in program order. *)
Inductive event : Type :=
  | TorchLoad (path : string)
  | MPICreate
  | AllGather
  | InitProcessGroup (rank world_size : Z)
  | SetDevice (local_rank : Z)
  | TrainNode (save_count shard_rank shard_size : Z)            (* TRAIN(...) *)
  | RemoteNode (save_count remote_buffer_size shard_size : Z)   (* REMOTE(...) *)
  | Makedirs (path : string)
  | ThreadStart (name : string)
  | MasterLoop (save_count : Z)
  | Exit.

(** The mutable state [init_ACUTE] works on: the caller's [args.__dict__]
    (which [vars(args)] returns, not a copy), [os.environ], and the events
    so far. *)
Record state : Type := BuildState {
  args_dict : gmap string Py.pyval;
  environ : gmap string string;
  trace : list event;
}.

(** Does the event construct a node, start a thread or run the Master? *)
Definition constructs_or_starts (ev : event) : bool :=
  match ev with
  | TrainNode _ _ _ | RemoteNode _ _ _ | ThreadStart _ | MasterLoop _ => true
  | _ => false
  end.

(** The save counts of the nodes built in a run of events. *)
Definition node_save_counts (evs : list event) : list Z :=
  omap (fun ev => match ev with
                  | TrainNode c _ _ | RemoteNode c _ _ => Some c
                  | _ => None
                  end) evs.

Definition emit (st : state) (evs : list event) : state :=
  BuildState (args_dict st) (environ st) (trace st ++ evs).

(** The loop over [overrides] that rejects unknown keys. *)
Fixpoint check_keys (valid_keys : gset string) (overrides : list (string * Py.pyval))
    : Py.result unit :=
  match overrides with
  | [] => Py.Ok ()
  | (key, _) :: rest =>
      if decide (key ∈ valid_keys) then check_keys valid_keys rest
      else Py.Raise (Py.ValueError ("Unexpected key: " +:+ key))
  end.

(** [d.update(overrides)]. *)
Definition dict_update (d : gmap string Py.pyval) (overrides : list (string * Py.pyval))
    : gmap string Py.pyval :=
  foldl (fun d kv => <[kv.1 := kv.2]> d) d overrides.

(** The options [init_ACUTE] reads from [args_dict]. *)
Record config : Type := BuildConfig {
  training_master_address : Py.pyval;
  training_master_port : Py.pyval;
  total_epochs : Py.pyval;
  save_period : Py.pyval;
  starting_epoch : Py.pyval;
  remote_buffer_size : Py.pyval;
  shard_size : Py.pyval;
  file_name_include_datetime : Py.pyval;
  file_save_in_dictionary : Py.pyval;
  model_name : Py.pyval;
  snapshot_path : Py.pyval;
}.

(** The eleven subscriptions of [args_dict], in program order. *)
Definition read_config (args_dict : gmap string Py.pyval) : Py.result config :=
  training_master_address ← Py.dict_get args_dict "training_master_addr";
  training_master_port ← Py.dict_get args_dict "training_master_port";
  total_epochs ← Py.dict_get args_dict "total_epochs";
  save_period ← Py.dict_get args_dict "save_period";
  starting_epoch ← Py.dict_get args_dict "starting_epoch";
  remote_buffer_size ← Py.dict_get args_dict "remote_buffer_size";
  shard_size ← Py.dict_get args_dict "shard_size";
  file_name_include_datetime ← Py.dict_get args_dict "file_name_include_datetime";
  file_save_in_dictionary ← Py.dict_get args_dict "file_save_in_dictionary";
  model_name ← Py.dict_get args_dict "model_name";
  snapshot_path ← Py.dict_get args_dict "snapshot_path";
  Py.Ok (BuildConfig training_master_address training_master_port total_epochs
           save_period starting_epoch remote_buffer_size shard_size
           file_name_include_datetime file_save_in_dictionary model_name
           snapshot_path).

(** [snapshot['epoch'] + 1]. *)
Definition next_epoch (snapshot : gmap string Py.pyval) : Py.result Z :=
  epoch ← Py.dict_get snapshot "epoch";
  e ← Py.as_int epoch;
  Py.Ok (e + 1).

(** The [if snapshot_path:] block: the starting epoch to use and the
    events of the block. *)
Definition resume_epoch (w : world) (cfg : config) : Py.result Py.pyval * list event :=
  if Py.truthy (snapshot_path cfg) then
    match snapshot_path cfg with
    | Py.VStr path =>
        match fs w !! path with
        | None =>
            (Py.Raise (Py.AssertionError
               ("can't open file '" +:+ path +:+ "': No such file or directory")), [])
        | Some Garbage => (Py.Raise Py.UnpicklingError, [TorchLoad path])
        | Some (Snapshot snapshot) =>
            (e ← next_epoch snapshot; Py.Ok (Py.VInt e), [TorchLoad path])
        end
    | _ => (Py.Raise Py.TypeError, [])
    end
  else (Py.Ok (starting_epoch cfg), []).

(** The names of the threads [REMOTE.start] starts. *)
Definition remote_threads (shard_size : Z) : list event :=
  ThreadStart "Flusher"
  :: ((fun r => ThreadStart ("Receiver" +:+ Py.str_of_int (Z.of_nat r)))
        <$> seq 0 (Z.to_nat shard_size)).

Section WithSnapshot.

Context {snapshot : Type} {machine : Py.Machine}.

(** What [init_ACUTE] returns. *)
Definition nodes : Type :=
  MPI.MPI * option (@TRAIN.TRAIN snapshot) * option REMOTE.REMOTE.

(** [__init_remote_node] followed by [remote_node.start()] and
    [sys.exit()].  [start] makes the directory, starts the Flusher and the
    Receivers and runs the Master's loop.  The first iteration of the loop,
    if there is one, reads [self.__dirty_bits[index]] at the constructor's
    index, which fails on a ring without slots; on a ring with slots every
    later index is one of the ring.  The loop itself, run to its end with
    the trainers' checkpoints, is the [MasterLoop] event. *)
Definition init_remote_node (w : world) (st : state) (communicator : MPI.MPI)
    (save_count remote_buffer_size shard_size : Z) (cfg : config)
    : Py.result nodes * state :=
  match REMOTE.new communicator save_count remote_buffer_size shard_size
          (model_name cfg) (file_name_include_datetime cfg)
          (file_save_in_dictionary cfg) with
  | Py.Raise e => (Py.Raise e, st)
  | Py.Ok remote_node =>
  let st := emit st [RemoteNode save_count remote_buffer_size shard_size] in
  let mkdir :=
    if Py.truthy (file_save_in_dictionary cfg) then
      dir ← REMOTE.str_add "./" (model_name cfg);
      Py.Ok (if decide (is_Some (fs w !! dir)) then [] else [Makedirs dir])
    else Py.Ok [] in
  match mkdir with
  | Py.Raise e => (Py.Raise e, st)
  | Py.Ok evs =>
      let st := emit st (evs ++ remote_threads shard_size) in
      let first_wait :=
        if 1 <=? save_count then
          Py.getitem (REMOTE.dirty_bits remote_node)
            (REMOTE.remote_buffer_index remote_node)
        else Py.Ok 0 in
      match first_wait with
      | Py.Raise e => (Py.Raise e, st)
      | Py.Ok _ => (Py.Raise Py.SystemExit, emit st [MasterLoop save_count; Exit])
      end
  end
  end.

Definition thread_name (t : TRAIN.thread) : string :=
  match t with
  | TRAIN.SenderThread => "Sender"
  | TRAIN.CopierThread => "Copier"
  end.

(** [__init_train_node], and [train_node.start()] when asked for. *)
Definition init_train_node (st : state) (communicator : MPI.MPI)
    (save_count shard_size : Z) (cfg : config) (train_node_auto_start : bool)
    : Py.result nodes * state :=
  let '(r, env) := MPI.set_environ communicator (environ st)
                     (training_master_address cfg) (training_master_port cfg) in
  let st := BuildState (args_dict st) env (trace st) in
  match r with
  | Py.Raise e => (Py.Raise e, st)
  | Py.Ok _ =>
      let parsed :=
        rank ← Py.dict_get env "RANK" ≫= Py.int_of_str;
        world_size ← Py.dict_get env "WORLD_SIZE" ≫= Py.int_of_str;
        local_rank ← Py.dict_get env "LOCAL_RANK" ≫= Py.int_of_str;
        shard_rank ← Py.dict_get env "SHARD_RANK" ≫= Py.int_of_str;
        Py.Ok (rank, world_size, local_rank, shard_rank) in
      match parsed with
      | Py.Raise e => (Py.Raise e, st)
      | Py.Ok (rank, world_size, local_rank, shard_rank) =>
          let st := emit st [InitProcessGroup rank world_size;
                             SetDevice local_rank;
                             TrainNode save_count shard_rank shard_size] in
          let train_node := TRAIN.init communicator save_count shard_rank shard_size in
          if train_node_auto_start then
            match TRAIN.start train_node with
            | Py.Raise e => (Py.Raise e, st)
            | Py.Ok (train_node, threads) =>
                (Py.Ok (communicator, Some train_node, None),
                 emit st (ThreadStart ∘ thread_name <$> threads))
            end
          else (Py.Ok (communicator, Some train_node, None), st)
      end
  end.

(** [init_ACUTE(args, train_node_auto_start, **overrides)] in world [w],
    from state [st] (whose [args_dict] is [vars(args)]): the outcome and
    the state the call leaves.  The warning it prints is not modelled.
    Options are used at the types their use requires; a value of another
    type raises [TypeError] there. *)
Definition init_ACUTE (w : world) (st : state) (train_node_auto_start : bool)
    (overrides : list (string * Py.pyval)) : Py.result nodes * state :=
  let valid_keys := dom (args_dict st) in
  match check_keys valid_keys overrides with
  | Py.Raise e => (Py.Raise e, st)
  | Py.Ok _ =>
  let st := BuildState (dict_update (args_dict st) overrides) (environ st) (trace st) in
  match read_config (args_dict st) with
  | Py.Raise e => (Py.Raise e, st)
  | Py.Ok cfg =>
  let '(r, evs) := resume_epoch w cfg in
  let st := emit st evs in
  match r with
  | Py.Raise e => (Py.Raise e, st)
  | Py.Ok starting_epoch =>
  let st := emit st [MPICreate] in
  let communicator := MPI.Build (mpi_rank w) (mpi_size w) None in
  match MPI.make_sharding_rank communicator (environ st) (all_gather w) with
  | Py.Raise e => (Py.Raise e, st)
  | Py.Ok (communicator, max_shard_size) =>
  let st := emit st [AllGather] in
  match Py.as_int (shard_size cfg) with
  | Py.Raise e => (Py.Raise e, st)
  | Py.Ok shard_size =>
  if negb (shard_size <=? max_shard_size) then
    (Py.Raise (Py.AssertionError
       ("The shard size is too large. (input: " +:+ Py.str_of_int shard_size
        +:+ ", max: " +:+ Py.str_of_int max_shard_size +:+ ")")), st)
  else
  match (start ← Py.as_int starting_epoch;
         total ← Py.as_int (total_epochs cfg);
         period ← Py.as_int (save_period cfg);
         calculate_save_count start total period) with
  | Py.Raise e => (Py.Raise e, st)
  | Py.Ok save_count =>
  if MPI.rank communicator =? MPI.size communicator - 1 then
    match Py.as_int (remote_buffer_size cfg) with
    | Py.Raise e => (Py.Raise e, st)
    | Py.Ok remote_buffer_size =>
        init_remote_node w st communicator save_count remote_buffer_size shard_size cfg
    end
  else
    init_train_node st communicator save_count shard_size cfg train_node_auto_start
  end end end end end end.

End WithSnapshot.

End Init.

(** ** The specification's formulas, for comparison with the code *)

Module Spec.

(** Section 3, shard range: with [q = n / S] (integer) and [rem = n mod S],
    shard [r] owns [[lo, hi)]. *)
Definition lo (n S r : Z) : Z :=
  if r <? n mod S then r * (n / S + 1) else r * (n / S) + n mod S.

Definition hi (n S r : Z) : Z :=
  if r <? n mod S then (r + 1) * (n / S + 1) else (r + 1) * (n / S) + n mod S.

(** Section 3, save count: [e] is one of the save points [1, 1+P, 1+2P, ...]
    that is at most [E_total] and at least [E_start]. *)
Definition counted_save_point (E_start E_total P e : Z) : Prop :=
  (exists k, 0 <= k /\ e = 1 + k * P) /\ e <= E_total /\ E_start <= e.

(** Section 3, file name: [./[<model>/]<model>[_YYYY-MM-DD-HHMMSS].pt.tar]. *)
Definition file_name (model : string) (include_datetime in_directory : bool)
    (now : REMOTE.datetime) : string :=
  "./" +:+ (if in_directory then model +:+ "/" else "") +:+ model
    +:+ (if include_datetime then "_" +:+ REMOTE.strftime now else "")
    +:+ ".pt.tar".

(** Section 4.7: the shard leaders are the world ranks below the remote
    sink's whose gathered local rank is 0, in rank order. *)
Definition shard_leaders (gathered : list Z) (world_size : Z) : list Z :=
  filter (fun i => gathered !! Z.to_nat i = Some 0) (seqZ 0 (world_size - 1)).

(** Section 6: a configuration record whose options have the types the
    table of recognized options gives them ([snapshot_path] is optional). *)
Record typed_config : Type := BuildTyped {
  training_master_addr : string;
  training_master_port : string;
  total_epochs : Z;
  save_period : Z;
  starting_epoch : Z;
  remote_buffer_size : Z;
  shard_size : Z;
  file_name_include_datetime : bool;
  file_save_in_dictionary : bool;
  model_name : string;
  snapshot_path : option string;
}.

(** Section 7: the call fails before any node is built or thread started:
    it raises, and what it has done since [st] builds and starts nothing. *)
Definition fails_before_start {nodes : Type} (st : Init.state)
    (out : Py.result nodes * Init.state) : Prop :=
  exists e evs, out.1 = Py.Raise e /\ Init.trace out.2 = Init.trace st ++ evs /\
    Forall (fun ev => Init.constructs_or_starts ev = false) evs.

Definition to_config (t : typed_config) : Init.config :=
  Init.BuildConfig
    (Py.VStr (training_master_addr t)) (Py.VStr (training_master_port t))
    (Py.VInt (total_epochs t)) (Py.VInt (save_period t))
    (Py.VInt (starting_epoch t)) (Py.VInt (remote_buffer_size t))
    (Py.VInt (shard_size t))
    (Py.VBool (file_name_include_datetime t))
    (Py.VBool (file_save_in_dictionary t))
    (Py.VStr (model_name t))
    (match snapshot_path t with Some p => Py.VStr p | None => Py.VNone end).

End Spec.

(** ** Concrete nodes used in examples *)

Module Examples.

(** A machine with room for lists of [2^32] items. *)
Definition machine : Py.Machine := Py.BuildMachine (2 ^ 32)%N.

(** A remote node with one slot and one shard, for the model ["model"]. *)
Definition remote (in_dictionary dated : bool) : REMOTE.REMOTE :=
  REMOTE.init (MPI.Build 1 2 (Some [0])) 1 1 1
    (Py.VStr "model") (Py.VBool dated) (Py.VBool in_dictionary).

Definition now : REMOTE.datetime := REMOTE.BuildDatetime 2024 3 2 9 5 7.

(** The same node after the Master's first cycle: slot 0 is claimed,
    holds the chunk [01 02], and is queued for the Flusher. *)
Definition remote_handed_over : REMOTE.REMOTE :=
  match REMOTE.master_cycle [[Byte.x01; Byte.x02]] (remote false false) with
  | Some (Py.Ok self) => self
  | _ => remote false false
  end.

(** A three-process launch: two trainers on two hosts and the remote
    sink, with a snapshot of epoch 5 on disk. *)
Definition args : gmap string Py.pyval :=
  list_to_map [
    ("training_master_addr", Py.VStr "10.0.0.1");
    ("training_master_port", Py.VStr "29500");
    ("total_epochs", Py.VInt 10);
    ("save_period", Py.VInt 2);
    ("starting_epoch", Py.VInt 1);
    ("remote_buffer_size", Py.VInt 2);
    ("shard_size", Py.VInt 2);
    ("file_name_include_datetime", Py.VBool false);
    ("file_save_in_dictionary", Py.VBool false);
    ("model_name", Py.VStr "model");
    ("snapshot_path", Py.VStr "ckpt.pt")].

Definition config (shard_size : Z) : Spec.typed_config :=
  Spec.BuildTyped "10.0.0.1" "29500" 10 2 1 2 shard_size false false "model"
    (Some "ckpt.pt").

Definition world (rank : Z) : Init.world :=
  Init.BuildWorld {[ "ckpt.pt" := Init.Snapshot {[ "epoch" := Py.VInt 5 ]} ]}
    rank 3 (fun _ => [0; 0; 0]).

Definition state : Init.state :=
  Init.BuildState args {[ "OMPI_COMM_WORLD_LOCAL_RANK" := "0" ]} [].

End Examples.

(** * Properties *)


Section TrueDivision.

Lemma rne_div_range (a b : Z) :
  0 < b -> a / b <= Py.rne_div a b <= a / b + 1.
Proof.
  intros Hb. unfold Py.rne_div.
  repeat case_match; lia.
Qed.

Lemma rne_div_down (a b : Z) :
  2 * (a mod b) < b -> Py.rne_div a b = a / b.
Proof.
  intros H. unfold Py.rne_div.
  destruct (Z.ltb_spec (2 * (a mod b)) b); [done | lia].
Qed.

Lemma rne_div_one (a : Z) : Py.rne_div a 1 = a.
Proof.
  rewrite rne_div_down; rewrite ?Z.mod_1_r, ?Z.div_1_r; lia.
Qed.

(** Rounding [a * T / b] to an integer and then dividing by [T] does not
    reach the next multiple of [T] as long as [b < 2 * T]. *)
Lemma rne_div_scaled_floor (a b T : Z) :
  0 <= a -> 0 < b -> 2 <= T -> b < 2 * T ->
  Py.rne_div (a * T) b / T = a / b.
Proof.
  intros Ha Hb HT HbT.
  set (q0 := a / b). set (r0 := a mod b).
  assert (Hab : a = b * q0 + r0) by (apply Z.div_mod; lia).
  assert (Hr0 : 0 <= r0 < b) by (apply Z.mod_pos_bound; lia).
  set (Q' := (r0 * T) / b). set (R := (r0 * T) mod b).
  assert (HQR : r0 * T = b * Q' + R) by (apply Z.div_mod; lia).
  assert (HR : 0 <= R < b) by (apply Z.mod_pos_bound; lia).
  assert (HQ' : 0 <= Q' <= T - 1) by (split; nia).
  assert (HdivA : (a * T) / b = q0 * T + Q').
  { symmetry. apply Z.div_unique with (r := R); [lia | nia]. }
  assert (HmodA : (a * T) mod b = R).
  { symmetry. apply Z.mod_unique with (q := q0 * T + Q'); [lia | nia]. }
  assert (Hm : q0 * T <= Py.rne_div (a * T) b < (q0 + 1) * T).
  { destruct (Z.eq_dec Q' (T - 1)) as [Heq | Hne].
    - rewrite rne_div_down; rewrite ?HmodA, ?HdivA; nia.
    - pose proof (rne_div_range (a * T) b Hb) as Hrange.
      rewrite HdivA in Hrange. nia. }
  symmetry. apply Z.div_unique with (r := Py.rne_div (a * T) b - q0 * T); lia.
Qed.


Lemma pow2_pos (n : Z) : 0 <= n -> 0 < 2 ^ n.
Proof. intros. apply Z.pow_pos_nonneg; lia. Qed.

Lemma pow2_split (n m : Z) : 0 <= n -> 0 <= m -> 2 ^ (n + m) = 2 ^ n * 2 ^ m.
Proof. intros. apply Z.pow_add_r; lia. Qed.

(** [ratio_log2 a b] is the [L] with [b * 2^L <= a < b * 2^(L+1)], each
    inequality cleared of negative exponents. *)
Lemma ratio_log2_spec (a b : Z) :
  0 < a -> 0 < b ->
  let L := Py.ratio_log2 a b in
  b * 2 ^ Z.max 0 L <= a * 2 ^ Z.max 0 (- L) /\
  a * 2 ^ Z.max 0 (- (L + 1)) < b * 2 ^ Z.max 0 (L + 1).
Proof.
  intros Ha Hb.
  destruct (Z.log2_spec a Ha) as [Ha1 Ha2].
  destruct (Z.log2_spec b Hb) as [Hb1 Hb2].
  pose proof (Z.log2_nonneg a) as Hla. pose proof (Z.log2_nonneg b) as Hlb.
  set (la := Z.log2 a) in *. set (lb := Z.log2 b) in *.
  unfold Z.succ in *.
  assert (Hlow : b * 2 ^ Z.max 0 (la - lb - 1)
                 <= a * 2 ^ Z.max 0 (- (la - lb - 1))).
  { destruct (Z.le_gt_cases 0 (la - lb - 1)) as [Hk | Hk].
    - rewrite (Z.max_r 0 (la - lb - 1)), (Z.max_l 0 (- (la - lb - 1))) by lia.
      replace la with ((lb + 1) + (la - lb - 1)) in Ha1 at 1 by lia.
      rewrite pow2_split in Ha1 by lia.
      pose proof (pow2_pos (la - lb - 1) Hk). nia.
    - rewrite (Z.max_l 0 (la - lb - 1)), (Z.max_r 0 (- (la - lb - 1))) by lia.
      replace (lb + 1) with (la + - (la - lb - 1)) in Hb2 by lia.
      rewrite pow2_split in Hb2 by lia.
      pose proof (pow2_pos (- (la - lb - 1))). nia. }
  assert (Hhigh : a * 2 ^ Z.max 0 (- (la - lb + 1))
                  < b * 2 ^ Z.max 0 (la - lb + 1)).
  { destruct (Z.le_gt_cases 0 (la - lb + 1)) as [Hk | Hk].
    - rewrite (Z.max_r 0 (la - lb + 1)), (Z.max_l 0 (- (la - lb + 1))) by lia.
      replace (la + 1) with (lb + (la - lb + 1)) in Ha2 by lia.
      rewrite pow2_split in Ha2 by lia.
      pose proof (pow2_pos (la - lb + 1) Hk). nia.
    - rewrite (Z.max_l 0 (la - lb + 1)), (Z.max_r 0 (- (la - lb + 1))) by lia.
      replace lb with ((la + 1) + - (la - lb + 1)) in Hb1 at 1 by lia.
      rewrite pow2_split in Hb1 by lia.
      pose proof (pow2_pos (- (la - lb + 1))). nia. }
  unfold Py.ratio_log2. fold la lb. cbv zeta.
  destruct (Z.leb_spec (b * 2 ^ Z.max 0 (la - lb)) (a * 2 ^ Z.max 0 (- (la - lb))))
    as [Ht | Ht].
  - split; [exact Ht | exact Hhigh].
  - split; [exact Hlow |].
    replace (la - lb - 1 + 1) with (la - lb) by lia. exact Ht.
Qed.

(** Below [2^53] the double nearest to [a / b] truncates to the integer
    quotient. *)
Lemma round_ratio_floor (a b : Z) :
  0 <= a < 2 ^ 53 -> 0 < b ->
  exists m e, Py.round_ratio a b = Some (m, e) /\
    (if 0 <=? e then m * 2 ^ e else m / 2 ^ (- e)) = a / b.
Proof.
  intros [Ha0 Ha] Hb. unfold Py.round_ratio.
  destruct (Z.eqb_spec a 0) as [-> | Hne].
  { exists 0, 0. split; [done |]. simpl. by rewrite Z.div_0_l by lia. }
  assert (Hapos : 0 < a) by lia.
  destruct (ratio_log2_spec a b Hapos Hb) as [HL1 HL2].
  set (L := Py.ratio_log2 a b) in *. cbv zeta.
  set (e := Z.max (L - 52) (-1074)).
  destruct (Z.le_gt_cases 0 e) as [He | He].
  - (* the quotient has 53 bits: [b = 1] and nothing is rounded *)
    assert (HL : 52 <= L) by lia.
    rewrite (Z.max_r 0 L), (Z.max_l 0 (- L)), Z.pow_0_r, Z.mul_1_r in HL1 by lia.
    assert (H52 : 2 ^ L = 2 ^ 52 * 2 ^ (L - 52)).
    { rewrite <- pow2_split by lia. f_equal; lia. }
    pose proof (pow2_pos (L - 52)) as Hp.
    assert (Hb1 : b = 1) by nia. subst b.
    assert (HLe : L = 52).
    { destruct (Z.eq_dec L 52) as [|Hn]; [done | exfalso].
      assert (2 ^ 1 <= 2 ^ (L - 52)) by (apply Z.pow_le_mono_r; lia).
      change (2 ^ 1) with 2 in *. nia. }
    assert (He0 : e = 0) by lia. rewrite He0. simpl Z.max.
    change (2 ^ 0) with 1. rewrite !Z.mul_1_r, rne_div_one.
    exists a, 0. split.
    + destruct (Z.leb_spec (2 ^ 53) a); [lia | done].
    + simpl. rewrite Z.div_1_r. lia.
  - (* a fraction is rounded away *)
    rewrite (Z.max_l 0 e), (Z.max_r 0 (- e)), Z.pow_0_r, Z.mul_1_r by lia.
    exists (Py.rne_div (a * 2 ^ (- e)) b), e. split.
    + destruct (Z.ltb_spec 971 e); [lia |].
      destruct (Z.eqb_spec e 971); [lia | done].
    + destruct (Z.leb_spec 0 e); [lia |].
      assert (HT : 2 <= 2 ^ (- e)).
      { change 2 with (2 ^ 1) at 1. apply Z.pow_le_mono_r; lia. }
      destruct (Z.le_gt_cases (-1074) (L - 52)) as [Hnorm | Hsub].
      * (* normal range *)
        apply rne_div_scaled_floor; [lia | lia | lia |].
        assert (Hee : e = L - 52) by lia.
        replace (2 * 2 ^ (- e)) with (2 ^ (53 - L)).
        2:{ replace (53 - L) with (1 + - e) by lia.
            rewrite pow2_split by lia. reflexivity. }
        destruct (Z.le_gt_cases 0 L) as [HL | HL].
        -- rewrite (Z.max_r 0 L), (Z.max_l 0 (- L)), Z.pow_0_r, Z.mul_1_r in HL1 by lia.
           assert (H53 : 2 ^ 53 = 2 ^ L * 2 ^ (53 - L)).
           { rewrite <- pow2_split by lia. f_equal; lia. }
           pose proof (pow2_pos L HL). pose proof (pow2_pos (53 - L)). nia.
        -- rewrite (Z.max_l 0 L), (Z.max_r 0 (- L)), Z.pow_0_r, Z.mul_1_r in HL1 by lia.
           assert (H53 : 2 ^ (53 - L) = 2 ^ 53 * 2 ^ (- L)).
           { rewrite <- pow2_split by lia. f_equal; lia. }
           pose proof (pow2_pos (- L)). nia.
      * (* subnormal range: the quotient is below 1 *)
        assert (Hee : e = -1074) by lia. rewrite Hee. change (- (-1074)) with 1074.
        rewrite (Z.max_r 0 (- (L + 1))), (Z.max_l 0 (L + 1)), Z.pow_0_r, Z.mul_1_r
          in HL2 by lia.
        assert (Hpow : 2 ^ 1022 <= 2 ^ (- (L + 1))) by (apply Z.pow_le_mono_r; lia).
        assert (Hab : a * 2 ^ 1022 < b) by nia.
        assert (H1074 : (2 ^ 1074 : Z) = 2 ^ 1022 * 2 ^ 52) by (rewrite <- pow2_split; done).
        assert (H1022 : 0 < 2 ^ 1022) by (apply pow2_pos; lia).
        rewrite (Z.div_small a b) by nia.
        apply Z.div_small.
        pose proof (rne_div_range (a * 2 ^ 1074) b Hb) as Hr.
        assert (Hq : (a * 2 ^ 1074) / b < 2 ^ 52).
        { apply Z.div_lt_upper_bound; [lia |]. rewrite H1074. 
          assert (0 < 2 ^ 52) by (apply pow2_pos; lia). nia. }
        assert (0 <= (a * 2 ^ 1074) / b) by (apply Z.div_pos; nia).
        assert ((2 ^ 52 : Z) < 2 ^ 1022) by (apply Z.pow_lt_mono_r; lia).
        assert ((2 ^ 1022 : Z) < 2 ^ 1074) by (apply Z.pow_lt_mono_r; lia).
        lia.
Qed.

(** [int(n / S)] is the integer quotient for [0 <= n < 2^53] and [S >= 1]. *)
Lemma truediv_floor (n S : Z) :
  0 <= n < 2 ^ 53 -> 1 <= S ->
  exists x, Py.truediv n S = Py.Ok x /\ Py.int_of_float x = n / S.
Proof.
  intros Hn HS. unfold Py.truediv.
  destruct (Z.eqb_spec S 0); [lia |].
  rewrite (Z.abs_eq n), (Z.abs_eq S) by lia.
  destruct (round_ratio_floor n S) as (m & e & -> & Hme); [lia | lia |].
  eexists. split; [done |].
  unfold Py.int_of_float. simpl.
  destruct (Z.ltb_spec n 0); [lia |]. destruct (Z.ltb_spec S 0); [lia |].
  simpl. exact Hme.
Qed.

End TrueDivision.


(** ** Shard ranges *)

Section Shards.

Context {snapshot : Type}.
Implicit Types (self : @TRAIN.CopierClass snapshot) (dump : bytes).

(** [r] is the exact remainder whatever the length. *)
Lemma compute_shard_q_r_remainder (n S q r : Z) :
  TRAIN.compute_shard_q_r n S = Py.Ok (q, r) -> r = n mod S.
Proof.
  unfold TRAIN.compute_shard_q_r, Py.mod_.
  destruct (Py.truediv n S); simpl; [| done].
  destruct (S =? 0); simpl; congruence.
Qed.

(** Below [2^53] the locals [q] and [r] are the integer quotient and
    remainder. *)
Lemma compute_shard_q_r_exact (n S : Z) :
  0 <= n < 2 ^ 53 -> 1 <= S ->
  TRAIN.compute_shard_q_r n S = Py.Ok (n / S, n mod S).
Proof.
  intros Hn HS. unfold TRAIN.compute_shard_q_r, Py.mod_.
  destruct (truediv_floor n S Hn HS) as (x & -> & Hx). simpl.
  destruct (Z.eqb_spec S 0); [lia |]. simpl. by rewrite Hx.
Qed.

(** Below [2^53] [compute_shard] returns the range of the specification's
    formula, with an inclusive right end. *)
Lemma compute_shard_spec self dump :
  let n := Z.of_nat (length dump) in
  n < 2 ^ 53 -> 1 <= TRAIN.shard_size self ->
  TRAIN.compute_shard self dump
  = Py.Ok (Spec.lo n (TRAIN.shard_size self) (TRAIN.shard_rank self),
           Spec.hi n (TRAIN.shard_size self) (TRAIN.shard_rank self) - 1).
Proof.
  intros n Hn HS. unfold TRAIN.compute_shard. fold n.
  rewrite compute_shard_q_r_exact by lia. simpl.
  unfold Spec.lo, Spec.hi.
  destruct (Z.leb_spec (TRAIN.shard_rank self + 1) (n mod TRAIN.shard_size self));
    destruct (Z.ltb_spec (TRAIN.shard_rank self) (n mod TRAIN.shard_size self));
    try lia; done.
Qed.

(** The ranges of the formula are contiguous, start at 0 and end at [n]. *)
Lemma spec_lo_0 (n S : Z) : 0 <= n -> 1 <= S -> Spec.lo n S 0 = 0.
Proof.
  intros Hn HS. unfold Spec.lo.
  pose proof (Z.mod_pos_bound n S ltac:(lia)).
  destruct (Z.ltb_spec 0 (n mod S)); lia.
Qed.

Lemma spec_hi_last (n S : Z) : 0 <= n -> 1 <= S -> Spec.hi n S (S - 1) = n.
Proof.
  intros Hn HS. unfold Spec.hi.
  pose proof (Z.mod_pos_bound n S ltac:(lia)).
  pose proof (Z.div_mod n S ltac:(lia)).
  destruct (Z.ltb_spec (S - 1) (n mod S)); [lia | nia].
Qed.

Lemma spec_hi_lo_succ (n S r : Z) : Spec.hi n S r = Spec.lo n S (r + 1).
Proof.
  unfold Spec.hi, Spec.lo.
  destruct (Z.ltb_spec r (n mod S)); destruct (Z.ltb_spec (r + 1) (n mod S));
    try lia; nia.
Qed.

Lemma spec_lo_le_hi (n S r : Z) :
  0 <= n -> 1 <= S -> 0 <= r -> Spec.lo n S r <= Spec.hi n S r.
Proof.
  intros Hn HS Hr. unfold Spec.hi, Spec.lo.
  pose proof (Z.div_pos n S ltac:(lia) ltac:(lia)).
  destruct (Z.ltb_spec r (n mod S)); nia.
Qed.

Lemma spec_lo_mono (n S r r' : Z) :
  0 <= n -> 1 <= S -> 0 <= r <= r' -> Spec.lo n S r <= Spec.lo n S r'.
Proof.
  intros Hn HS [Hr Hrr'].
  replace r' with (r + Z.of_nat (Z.to_nat (r' - r))) by lia.
  induction (Z.to_nat (r' - r)) as [|k IH].
  - replace (r + Z.of_nat 0) with r by lia. lia.
  - etrans; [exact IH |].
    rewrite Nat2Z.inj_succ.
    replace (r + Z.succ (Z.of_nat k)) with (r + Z.of_nat k + 1) by lia.
    rewrite <- spec_hi_lo_succ. apply spec_lo_le_hi; lia.
Qed.

Lemma spec_hi_le_n (n S r : Z) :
  0 <= n -> 1 <= S -> 0 <= r < S -> Spec.hi n S r <= n.
Proof.
  intros Hn HS Hr.
  rewrite spec_hi_lo_succ.
  destruct (Z.eq_dec (r + 1) S) as [-> | Hne].
  - rewrite <- (spec_hi_last n S) at 2 by lia.
    rewrite (spec_hi_lo_succ n S (S - 1)). replace (S - 1 + 1) with S by lia. lia.
  - rewrite <- (spec_hi_last n S) at 2 by lia.
    rewrite (spec_hi_lo_succ n S (S - 1)). apply spec_lo_mono; lia.
Qed.

Lemma spec_lo_nonneg (n S r : Z) :
  0 <= n -> 1 <= S -> 0 <= r -> 0 <= Spec.lo n S r.
Proof.
  intros Hn HS Hr. rewrite <- (spec_lo_0 n S) at 1 by lia.
  apply spec_lo_mono; lia.
Qed.

(** Below [2^53] the chunk a shard leader enqueues is the slice
    [dump[lo:hi]] of the formula; an empty range gives the empty chunk. *)
Lemma shard_chunk_spec self dump :
  let n := Z.of_nat (length dump) in
  let S := TRAIN.shard_size self in
  let r := TRAIN.shard_rank self in
  n < 2 ^ 53 -> 1 <= S -> 0 <= r < S ->
  TRAIN.shard_chunk self dump
  = Py.Ok (take (Z.to_nat (Spec.hi n S r - Spec.lo n S r))
             (drop (Z.to_nat (Spec.lo n S r)) dump)).
Proof.
  intros n S r Hn HS Hr. unfold TRAIN.shard_chunk.
  rewrite compute_shard_spec by done. fold n S r. simpl.
  pose proof (spec_lo_nonneg n S r ltac:(lia) HS ltac:(lia)) as Hlo.
  pose proof (spec_lo_le_hi n S r ltac:(lia) HS ltac:(lia)) as Hle.
  pose proof (spec_hi_le_n n S r ltac:(lia) HS Hr) as Hhi.
  f_equal.
  destruct (Z.leb_spec (Spec.lo n S r) (Spec.hi n S r - 1)) as [Hne | Hempty].
  - unfold Py.slice, Py.slice_index. fold n.
    destruct (Z.ltb_spec (Spec.lo n S r) 0); [lia |].
    destruct (Z.ltb_spec (Spec.hi n S r - 1 + 1) 0); [lia |].
    rewrite !Z.min_l by lia. do 2 f_equal. lia.
  - replace (Spec.hi n S r - Spec.lo n S r) with 0 by lia. done.
Qed.

(** The slices of the formula, in shard order, rebuild the dump. *)
Lemma spec_slices_prefix (dump : bytes) (S : Z) (k : nat) :
  let n := Z.of_nat (length dump) in
  1 <= S -> Z.of_nat k <= S ->
  concat ((fun r : nat =>
             take (Z.to_nat (Spec.hi n S (Z.of_nat r) - Spec.lo n S (Z.of_nat r)))
               (drop (Z.to_nat (Spec.lo n S (Z.of_nat r))) dump)) <$> seq 0 k)
  = take (Z.to_nat (Spec.lo n S (Z.of_nat k))) dump.
Proof.
  intros n HS. induction k as [|k IH]; intros Hk.
  - simpl. rewrite spec_lo_0 by lia. done.
  - rewrite seq_S, fmap_app, concat_app, IH by lia. simpl.
    rewrite app_nil_r, take_take_drop. f_equal.
    pose proof (spec_lo_nonneg n S (Z.of_nat k) ltac:(lia) HS ltac:(lia)).
    pose proof (spec_lo_le_hi n S (Z.of_nat k) ltac:(lia) HS ltac:(lia)).
    rewrite Nat2Z.inj_succ. unfold Z.succ. rewrite <- spec_hi_lo_succ. lia.
Qed.

(** Below [2^53], the chunks the [S] shard leaders enqueue for one dump,
    concatenated in shard order, are the dump. *)
Lemma shard_chunks_reassemble (copier : Z -> @TRAIN.CopierClass snapshot)
    (S : Z) dump (chunks : list bytes) :
  Z.of_nat (length dump) < 2 ^ 53 -> 1 <= S ->
  (forall r, TRAIN.shard_size (copier r) = S /\ TRAIN.shard_rank (copier r) = r) ->
  Forall2 (fun (r : nat) c => TRAIN.shard_chunk (copier (Z.of_nat r)) dump = Py.Ok c)
    (seq 0 (Z.to_nat S)) chunks ->
  concat chunks = dump.
Proof.
  intros Hn HS Hcopier Hall.
  set (n := Z.of_nat (length dump)) in *.
  assert (Hchunks : chunks =
    (fun r : nat =>
       take (Z.to_nat (Spec.hi n S (Z.of_nat r) - Spec.lo n S (Z.of_nat r)))
         (drop (Z.to_nat (Spec.lo n S (Z.of_nat r))) dump)) <$> seq 0 (Z.to_nat S)).
  { assert (Hin : Forall (fun r : nat => Z.of_nat r < S) (seq 0 (Z.to_nat S))).
    { apply Forall_forall. intros r Hr%elem_of_seq. lia. }
    induction Hall as [|r c rs cs Hc _ IH]; [done |].
    apply Forall_cons in Hin as [Hr Hrs]. simpl. f_equal; [| by apply IH].
    destruct (Hcopier (Z.of_nat r)) as [HSr Hrr].
    rewrite shard_chunk_spec in Hc; rewrite ?HSr, ?Hrr in *; try lia.
    fold n in Hc. congruence. }
  subst n. rewrite Hchunks, spec_slices_prefix by lia.
  rewrite Z2Nat.id by lia.
  replace (Spec.lo (Z.of_nat (length dump)) S S)
    with (Spec.hi (Z.of_nat (length dump)) S (S - 1))
    by (rewrite spec_hi_lo_succ; f_equal; lia).
  rewrite spec_hi_last by lia.
  apply take_ge. lia.
Qed.

End Shards.


Section LargeDumps.

Context {snapshot : Type}.
Implicit Types (self : @TRAIN.CopierClass snapshot) (dump : bytes).

(** One byte past [2^53] the double nearest to the quotient is [2^53]. *)
Lemma compute_shard_q_r_past_2_53 :
  TRAIN.compute_shard_q_r (2 ^ 53 + 1) 1 = Py.Ok (2 ^ 53, 0).
Proof. by vm_compute. Qed.

(** C8 (the code departs from the claim): for a dump of [2^53 + 1] bytes
    and one shard, [compute_shard] computes [q = 2^53], one less than the
    integer quotient [2^53 + 1]: the true division rounds to a double
    before [int] truncates.  The remainder [r = 0] is exact. *)
Theorem compute_shard_q_r_inexact :
  TRAIN.compute_shard_q_r (2 ^ 53 + 1) 1 = Py.Ok (2 ^ 53, 0) /\
  (2 ^ 53 + 1) / 1 = 2 ^ 53 + 1 /\ (2 ^ 53 + 1) mod 1 = 0.
Proof. split; [exact compute_shard_q_r_past_2_53 | split; by vm_compute]. Qed.

(** C1 (the code departs from the claim): for a dump of [2^53 + 1] bytes
    and a single shard, [compute_shard] returns the range [0 .. 2^53 - 1],
    and the chunk the shard leader enqueues has [2^53] bytes: the last byte
    of the dump is in no shard's range. *)
Theorem compute_shard_drops_last_byte self dump :
  TRAIN.shard_size self = 1 -> TRAIN.shard_rank self = 0 ->
  Z.of_nat (length dump) = 2 ^ 53 + 1 ->
  TRAIN.compute_shard self dump = Py.Ok (0, 2 ^ 53 - 1) /\
  exists chunk, TRAIN.shard_chunk self dump = Py.Ok chunk /\
    Z.of_nat (length chunk) = 2 ^ 53 /\ chunk <> dump.
Proof.
  intros HS Hr Hlen.
  assert (Hrange : TRAIN.compute_shard self dump = Py.Ok (0, 2 ^ 53 - 1)).
  { unfold TRAIN.compute_shard. rewrite HS, Hr, Hlen.
    rewrite compute_shard_q_r_past_2_53. done. }
  split; [exact Hrange |].
  unfold TRAIN.shard_chunk. rewrite Hrange.
  eexists. split; [reflexivity |].
  assert (Hchunk : Z.of_nat (length (Py.slice dump 0 (2 ^ 53 - 1 + 1))) = 2 ^ 53).
  { unfold Py.slice, Py.slice_index. rewrite Hlen.
    change (0 <? 0) with false. change (2 ^ 53 - 1 + 1 <? 0) with false.
    cbv iota. rewrite length_take, length_drop.
    rewrite Z.min_l, Z.min_l by lia.
    change (Z.to_nat 0) with 0%nat. lia. }
  change (0 <=? 2 ^ 53 - 1) with true. cbv iota.
  split; [exact Hchunk |].
  intros Heq. rewrite Heq in Hchunk. lia.
Qed.

End LargeDumps.

Lemma compute_shard_drops_last_byte_witness :
  let self := TRAIN.CopierClass_init (snapshot := unit) 1 0 1 in
  let dump := replicate (Z.to_nat (2 ^ 53 + 1)) Byte.x00 in
  TRAIN.compute_shard self dump = Py.Ok (0, 2 ^ 53 - 1) /\
  exists chunk, TRAIN.shard_chunk self dump = Py.Ok chunk /\
    Z.of_nat (length chunk) = 2 ^ 53 /\ chunk <> dump.
Proof.
  intros self dump.
  apply (compute_shard_drops_last_byte self dump); [reflexivity | reflexivity |].
  unfold dump. rewrite length_replicate. apply Z2Nat.id. lia.
Defined.


(** ** Save count *)

Section SaveCount.

Context {machine : Py.Machine}.

(** [range(lo, hi, step)] for a positive step: who is in it. *)
Lemma range_pos_step (lo hi step : Z) :
  1 <= step ->
  exists l, Py.range lo hi step = Py.Ok l /\ NoDup l /\
    forall e, e ∈ l <-> (exists k, 0 <= k /\ e = lo + k * step) /\ e < hi.
Proof.
  intros Hstep. unfold Py.range.
  destruct (Z.eqb_spec step 0); [lia |].
  eexists. split; [reflexivity |]. split.
  - apply NoDup_fmap_2; [| apply NoDup_seq].
    intros i j Hij. nia.
  - intros e. rewrite list_elem_of_fmap. unfold Py.range_len.
    destruct (Z.ltb_spec 0 step); [| lia].
    split.
    + intros (i & -> & Hi%elem_of_seq). split; [exists (Z.of_nat i); lia |].
      destruct (Z.ltb_spec lo hi) as [Hlt | Hge]; [| simpl in Hi; lia].
      assert (Z.of_nat i <= (hi - 1 - lo) / step) by lia.
      assert (step * ((hi - 1 - lo) / step) <= hi - 1 - lo)
        by (apply Z.mul_div_le; lia).
      nia.
    + intros ((k & Hk & ->) & Hlt). exists (Z.to_nat k). split; [lia |].
      apply elem_of_seq. split; [lia |]. simpl.
      destruct (Z.ltb_spec lo hi); [| nia].
      assert (k <= (hi - 1 - lo) / step) by (apply Z.div_le_lower_bound; nia).
      lia.
Qed.

Lemma range_len_nonneg (lo hi step : Z) : 0 <= Py.range_len lo hi step.
Proof.
  unfold Py.range_len.
  destruct (Z.ltb_spec 0 step).
  - destruct (Z.ltb_spec lo hi); [| lia].
    assert (0 <= (hi - 1 - lo) / step) by (apply Z.div_pos; lia). lia.
  - destruct (Z.ltb_spec hi lo); [| lia].
    destruct (Z.eq_dec step 0) as [-> | Hne].
    + change (- 0) with 0. rewrite Z.div_0_r. lia.
    + assert (0 <= (lo - 1 - hi) / - step) by (apply Z.div_pos; lia). lia.
Qed.

(** The length of a range is [range_len]. *)
Lemma range_length (lo hi step : Z) (l : list Z) :
  Py.range lo hi step = Py.Ok l -> Z.of_nat (length l) = Py.range_len lo hi step.
Proof.
  unfold Py.range. destruct (step =? 0); [done |]. intros [= <-].
  rewrite length_fmap, length_seq. pose proof (range_len_nonneg lo hi step). lia.
Qed.

Lemma list_limit_range : 0 <= Py.list_limit <= Py.maxsize / 8.
Proof. unfold Py.list_limit. change (Py.maxsize / 8) with (2 ^ 60 - 1). lia. Qed.

Lemma list_build_fits (n : Z) : n <= Py.list_limit -> Py.list_build n = Py.Ok tt.
Proof. intros Hn. unfold Py.list_build. by destruct (Z.ltb_spec Py.list_limit n); [lia |]. Qed.

Lemma list_alloc_fits {A : Type} (l : list A) :
  Z.of_nat (length l) <= Py.list_limit -> Py.list_alloc l = Py.Ok l.
Proof. intros Hl. unfold Py.list_alloc. by rewrite list_build_fits. Qed.

(** [list(range(...))]: the three ways it ends for a nonzero step. *)
Lemma list_range_cases (lo hi step : Z) :
  step <> 0 ->
  let n := Py.range_len lo hi step in
  (n <= Py.list_limit -> Py.list_range lo hi step = Py.range lo hi step) /\
  (Py.list_limit < n <= Py.maxsize ->
   Py.list_range lo hi step = Py.Raise Py.MemoryError) /\
  (Py.maxsize < n -> Py.list_range lo hi step = Py.Raise Py.OverflowError).
Proof.
  intros Hstep n. unfold Py.list_range, Py.list_build. fold n.
  destruct (Z.eqb_spec step 0); [done |].
  pose proof list_limit_range as Hlimit.
  assert (Hmax : Py.maxsize / 8 < Py.maxsize) by done.
  destruct (Z.ltb_spec Py.maxsize n), (Z.ltb_spec Py.list_limit n);
    repeat split; intros; try lia; done.
Qed.

(** A list that was built is within the limit. *)
Lemma list_range_Ok (lo hi step : Z) (l : list Z) :
  Py.list_range lo hi step = Py.Ok l ->
  Py.range lo hi step = Py.Ok l /\ Z.of_nat (length l) <= Py.list_limit.
Proof.
  unfold Py.list_range, Py.list_build.
  destruct (Z.eqb_spec step 0); [done |].
  destruct (Z.ltb_spec Py.maxsize (Py.range_len lo hi step)); [done |].
  destruct (Z.ltb_spec Py.list_limit (Py.range_len lo hi step)); [done |].
  cbn. intros Hrange. split; [done |]. by rewrite (range_length _ _ _ _ Hrange).
Qed.

(** What [calculate_save_count] returns, when it returns, is the number of
    range elements from the start epoch on. *)
Lemma calculate_save_count_Ok (E_start E_total P c : Z) :
  calculate_save_count E_start E_total P = Py.Ok c ->
  exists l, Py.range 1 (E_total + 1) P = Py.Ok l /\
    c = Z.of_nat (length (filter (fun point => E_start <= point) l)).
Proof.
  unfold calculate_save_count.
  destruct (Py.list_range 1 (E_total + 1) P) as [l |] eqn:Hl; [| done].
  apply list_range_Ok in Hl as [Hrange Hlen]. cbn.
  rewrite list_alloc_fits by (pose proof (length_filter (fun point => E_start <= point) l); lia).
  cbn. intros [= <-]. by exists l.
Qed.

(** It returns when the save points fit in a list. *)
Lemma calculate_save_count_fits (E_start E_total P : Z) (l : list Z) :
  Py.range 1 (E_total + 1) P = Py.Ok l ->
  Py.range_len 1 (E_total + 1) P <= Py.list_limit ->
  calculate_save_count E_start E_total P
  = Py.Ok (Z.of_nat (length (filter (fun point => E_start <= point) l))).
Proof.
  intros Hrange Hfits. unfold calculate_save_count.
  assert (HP : P <> 0).
  { intros ->. unfold Py.range in Hrange. done. }
  rewrite (proj1 (list_range_cases 1 (E_total + 1) P HP) Hfits), Hrange. cbn.
  rewrite list_alloc_fits; [done |].
  pose proof (length_filter (fun point => E_start <= point) l).
  pose proof (range_length _ _ _ _ Hrange). lia.
Qed.

(** For a positive period the count, whenever there is one, is the number
    of save points [1 + k*P] between the start epoch and the total; and
    there is one when the save points up to the total fit in a list. *)
Lemma calculate_save_count_cardinal (E_start E_total P : Z) :
  1 <= P ->
  exists pts, NoDup pts /\
    (forall e, e ∈ pts <-> Spec.counted_save_point E_start E_total P e) /\
    (forall c, calculate_save_count E_start E_total P = Py.Ok c ->
       c = Z.of_nat (length pts)) /\
    (Py.range_len 1 (E_total + 1) P <= Py.list_limit ->
     calculate_save_count E_start E_total P = Py.Ok (Z.of_nat (length pts))).
Proof.
  intros HP.
  destruct (range_pos_step 1 (E_total + 1) P HP) as (l & Hrange & Hnd & Hl).
  exists (filter (fun point => E_start <= point) l).
  split; [by apply NoDup_filter |]. split; [| split].
  - intros e. rewrite list_elem_of_filter, Hl. unfold Spec.counted_save_point.
    intuition lia.
  - intros c (l' & Hrange' & ->)%calculate_save_count_Ok. congruence.
  - intros Hfits. by apply calculate_save_count_fits.
Qed.



End SaveCount.



Example save_count_resume :
  calculate_save_count (machine := Examples.machine) 6 10 2 = Py.Ok 2.
Proof. reflexivity. Qed.


(** ** Role election *)

Section RoleElection.

Lemma bind_Ok {A B : Type} (a : A) (k : A -> Py.result B) :
  (Py.Ok a ≫= k) = k a.
Proof. reflexivity. Qed.

Lemma range_0_n (n : Z) : Py.range 0 n 1 = Py.Ok (seqZ 0 n).
Proof.
  unfold Py.range, Py.range_len, seqZ. simpl. f_equal.
  destruct (Z.ltb_spec 0 n).
  - rewrite Z.div_1_r. replace (1 + (n - 1 - 0)) with n by lia.
    apply list_fmap_ext. intros _ i _. lia.
  - replace (Z.to_nat n) with 0%nat by lia. done.
Qed.

Lemma getitem_lookup {A : Type} (l : list A) (i : Z) (x : A) :
  0 <= i -> l !! Z.to_nat i = Some x -> Py.getitem l i = Py.Ok x.
Proof.
  intros Hi Hx. unfold Py.getitem.
  destruct (Z.ltb_spec i 0); [lia |]. simpl.
  destruct (Z.ltb_spec i 0); [lia |]. by rewrite Hx.
Qed.

(** The scan keeps, in the order scanned, the ranks whose gathered local
    rank is 0. *)
Lemma scan_local_ranks_filter (gathered ranks acc : list Z) :
  Forall (fun i => 0 <= i < Z.of_nat (length gathered)) ranks ->
  MPI.scan_local_ranks gathered ranks acc
  = Py.Ok (acc ++ filter (fun i => gathered !! Z.to_nat i = Some 0) ranks).
Proof.
  intros Hall. revert acc.
  induction Hall as [|i ranks Hi _ IH]; intros acc; simpl.
  - by rewrite app_nil_r.
  - destruct (lookup_lt_is_Some_2 gathered (Z.to_nat i)) as [x Hx]; [lia |].
    rewrite (getitem_lookup gathered i x) by (done || lia). simpl.
    rewrite IH, filter_cons, Hx.
    destruct (Z.eqb_spec x 0) as [-> | Hne].
    + rewrite decide_True by done. by rewrite <- app_assoc.
    + rewrite decide_False by congruence. done.
Qed.

Lemma seqZ_sorted (m n : Z) : StronglySorted Z.lt (seqZ m n).
Proof.
  destruct (Z.le_gt_cases n 0) as [Hn | Hn].
  { rewrite seqZ_nil by done. constructor. }
  replace n with (Z.of_nat (Z.to_nat n)) by lia.
  induction (Z.to_nat n) as [|k IH]; [constructor |].
  rewrite seqZ_S. apply StronglySorted_app_2; [| done | repeat constructor].
  intros x y Hx%elem_of_seqZ Hy%list_elem_of_singleton. lia.
Qed.

Lemma filter_sorted (P : Z -> Prop) `{!forall x, Decision (P x)} (l : list Z) :
  StronglySorted Z.lt l -> StronglySorted Z.lt (filter P l).
Proof.
  induction 1 as [|x l Hl IH Hx]; [constructor |].
  rewrite filter_cons. case_decide; [| done].
  constructor; [done |].
  apply Forall_forall. intros y [_ Hy]%list_elem_of_filter.
  rewrite Forall_forall in Hx. auto.
Qed.

(** [int] reads back what [f"{z}"] wrote. *)
Lemma int_of_str_of_int (z : Z) : Py.int_of_str (Py.str_of_int z) = Py.Ok z.
Proof.
  unfold Py.int_of_str, Py.str_of_int.
  assert (Hparse : NilZero.int_of_string (NilZero.string_of_int (Z.to_int z))
                   = Some (Z.to_int z)).
  { apply NilZero.isi; destruct z; simpl; try discriminate;
      intros [= H]; by apply Unsigned.to_uint_nonnil in H. }
  destruct (NilZero.string_of_int (Z.to_int z)) as [|a s'] eqn:Hs.
  { simpl in Hparse. discriminate. }
  destruct (Ascii.eqb_spec a "+"%char) as [-> | _].
  - exfalso. revert Hparse. unfold NilZero.int_of_string. simpl.
    destruct (NilEmpty.uint_of_string s'); discriminate.
  - rewrite Hparse. by rewrite DecimalZ.of_to.
Qed.

(** [l.index(x)] finds a position of [x] when there is one. *)
Lemma list_index_elem_of (l : list Z) (x : Z) :
  x ∈ l ->
  exists p, Py.list_index l x = Py.Ok p /\ 0 <= p /\ l !! Z.to_nat p = Some x.
Proof.
  induction l as [|y l IH]; [by intros ?%elem_of_nil |].
  intros Hin. simpl. destruct (Z.eqb_spec y x) as [-> | Hne].
  - exists 0. done.
  - apply elem_of_cons in Hin as [-> | Hin]; [done |].
    destruct (IH Hin) as (p & -> & Hp & Hl). exists (p + 1).
    split; [done |]. split; [lia |].
    replace (Z.to_nat (p + 1)) with (S (Z.to_nat p)) by lia. done.
Qed.

(** What [make_sharding_rank] computes for a gathered vector of [size]
    entries. *)
Lemma make_sharding_rank_eq (self : MPI.MPI) (environ : gmap string string)
    (all_gather : Z -> list Z) (s : string) (lr : Z) :
  environ !! "OMPI_COMM_WORLD_LOCAL_RANK" = Some s ->
  Py.int_of_str s = Py.Ok lr ->
  Z.of_nat (length (all_gather lr)) = MPI.size self ->
  let leaders :=
    filter (fun i => all_gather lr !! Z.to_nat i = Some 0)
      (seqZ 0 (MPI.size self - 1)) in
  MPI.make_sharding_rank self environ all_gather
  = Py.Ok (MPI.Build (MPI.rank self) (MPI.size self) (Some leaders),
           Z.of_nat (length leaders)).
Proof.
  intros Henv Hparse Hlen leaders.
  unfold MPI.make_sharding_rank, Py.dict_get.
  rewrite Henv, bind_Ok, Hparse, bind_Ok, range_0_n, bind_Ok.
  rewrite scan_local_ranks_filter by (apply Forall_seqZ; lia).
  done.
Qed.

(** What [set_environ] publishes once the leaders are known: [p] is the
    shard rank written to [SHARD_RANK]. *)
Lemma set_environ_eq (self : MPI.MPI) (leaders : list Z)
    (environ : gmap string string) (s : string) (lr : Z) (addr port : string) :
  MPI.sharding_rank_list self = Some leaders ->
  environ !! "OMPI_COMM_WORLD_LOCAL_RANK" = Some s ->
  Py.int_of_str s = Py.Ok lr ->
  (lr = 0 -> MPI.rank self ∈ leaders) ->
  exists p,
    MPI.set_environ self environ (Py.VStr addr) (Py.VStr port)
      = (Py.Ok (), <["SHARD_RANK" := Py.str_of_int p]>
                     (MPI.published self environ s addr port)) /\
    if decide (lr = 0)
    then 0 <= p /\ leaders !! Z.to_nat p = Some (MPI.rank self)
    else p = -1.
Proof.
  intros Hl Henv Hparse Hin.
  unfold MPI.set_environ, Py.dict_get, MPI.published. rewrite Henv, Hl.
  rewrite lookup_insert_ne, lookup_insert_ne, lookup_insert_ne,
    lookup_insert_ne, lookup_insert_eq by done.
  rewrite bind_Ok, Hparse.
  destruct (decide (lr = 0)) as [-> | Hne].
  - destruct (list_index_elem_of leaders (MPI.rank self)) as (p & Hp & Hp0 & Hlp);
      [by apply Hin |].
    rewrite Z.eqb_refl, Hp. by exists p.
  - rewrite (proj2 (Z.eqb_neq lr 0)) by done. by exists (-1).
Qed.

(** C7: for a gathered vector of [size] local ranks, [make_sharding_rank]
    stores the world ranks in [[0, size - 1)] whose local rank is 0, in
    ascending order, and returns their number; [set_environ], called by a
    trainer, then publishes [WORLD_SIZE = size - 1] and [SHARD_RANK]: the
    caller's position in that list when its local rank is 0, and [-1]
    otherwise. *)
Theorem shard_leaders_and_environ (self : MPI.MPI) (environ : gmap string string)
    (all_gather : Z -> list Z) (s : string) (lr : Z) (gathered : list Z)
    (addr port : string) :
  environ !! "OMPI_COMM_WORLD_LOCAL_RANK" = Some s ->
  Py.int_of_str s = Py.Ok lr ->
  all_gather lr = gathered ->
  Z.of_nat (length gathered) = MPI.size self ->
  let leaders :=
    filter (fun i => gathered !! Z.to_nat i = Some 0) (seqZ 0 (MPI.size self - 1)) in
  let self' := MPI.Build (MPI.rank self) (MPI.size self) (Some leaders) in
  MPI.make_sharding_rank self environ all_gather
    = Py.Ok (self', Z.of_nat (length leaders)) /\
  StronglySorted Z.lt leaders /\
  (forall i, i ∈ leaders <->
     0 <= i < MPI.size self - 1 /\ gathered !! Z.to_nat i = Some 0) /\
  (0 <= MPI.rank self < MPI.size self - 1 ->
   gathered !! Z.to_nat (MPI.rank self) = Some lr ->
   exists environ',
     MPI.set_environ self' environ (Py.VStr addr) (Py.VStr port)
       = (Py.Ok (), environ') /\
     environ' !! "WORLD_SIZE" = Some (Py.str_of_int (MPI.size self - 1)) /\
     if decide (lr = 0) then
       exists p, 0 <= p /\ leaders !! Z.to_nat p = Some (MPI.rank self) /\
         environ' !! "SHARD_RANK" = Some (Py.str_of_int p)
     else environ' !! "SHARD_RANK" = Some "-1").
Proof.
  intros Henv Hparse <- Hlen leaders self'.
  assert (Hmem : forall i, i ∈ leaders <->
     0 <= i < MPI.size self - 1 /\ all_gather lr !! Z.to_nat i = Some 0).
  { intros i. unfold leaders. rewrite list_elem_of_filter, elem_of_seqZ.
    intuition lia. }
  split; [| split; [| split]].
  - by apply (make_sharding_rank_eq self environ all_gather s lr).
  - apply filter_sorted, seqZ_sorted.
  - exact Hmem.
  - intros Hrank Hown.
    destruct (set_environ_eq self' leaders environ s lr addr port)
      as (p & Hset & Hp); [done | done | done | |].
    { intros ->. by apply Hmem. }
    rewrite Hset. eexists. split; [reflexivity |].
    split; [unfold MPI.published; by simplify_map_eq |].
    destruct (decide (lr = 0)) as [-> | Hne].
    + destruct Hp as [Hp0 Hp]. exists p. by simplify_map_eq.
    + subst p. by simplify_map_eq.
Qed.

End RoleElection.

Lemma shard_leaders_and_environ_witness :
  let self := MPI.Build 2 5 None in
  let environ : gmap string string := {[ "OMPI_COMM_WORLD_LOCAL_RANK" := "0" ]} in
  let leaders := [0; 2; 3] in
  let self' := MPI.Build 2 5 (Some leaders) in
  MPI.make_sharding_rank self environ (fun _ => [0; 1; 0; 0; 0]) = Py.Ok (self', 3) /\
  exists environ',
    MPI.set_environ self' environ (Py.VStr "10.0.0.1") (Py.VStr "29500")
      = (Py.Ok (), environ') /\
    environ' !! "WORLD_SIZE" = Some "4" /\
    environ' !! "SHARD_RANK" = Some "1".
Proof.
  intros self environ leaders self'.
  destruct (shard_leaders_and_environ self environ (fun _ => [0; 1; 0; 0; 0])
              "0" 0 [0; 1; 0; 0; 0] "10.0.0.1" "29500")
    as (Hmake & _ & _ & Hset); [reflexivity | reflexivity | reflexivity | reflexivity |].
  split; [exact Hmake |].
  destruct Hset as (environ' & Hcall & Hws & p & Hp0 & Hp & Hsr);
    [simpl; lia | reflexivity |].
  exists environ'. split; [exact Hcall |]. split; [exact Hws |].
  assert (p = 1) as ->.
  { change (filter _ _) with [0; 2; 3] in Hp. simpl in Hp.
    destruct (Z.to_nat p) as [|[|[|k]]] eqn:Hk; simpl in Hp; try discriminate; lia. }
  exact Hsr.
Defined.



(** ** Checkpoint file names *)

Section FileNames.

Implicit Types (self : REMOTE.REMOTE) (now : REMOTE.datetime).

Lemma append_assoc (a b c : string) : (a +:+ b) +:+ c = a +:+ b +:+ c.
Proof.
  induction a as [|x a IH]; [done |].
  change (String x ((a +:+ b) +:+ c) = String x (a +:+ b +:+ c)).
  by rewrite IH.
Qed.

(** The name [__get_file_name_and_path] builds for a string model name. *)
Lemma get_file_name_and_path_eq self now (m : string) :
  REMOTE.model_name self = Py.VStr m ->
  REMOTE.get_file_name_and_path self now
  = Py.Ok ("./" +:+
           (if Py.truthy (REMOTE.file_save_in_dictionary self) then m +:+ "/./" else "")
           +:+ m +:+
           (if Py.truthy (REMOTE.file_name_include_datetime self)
            then "_" +:+ REMOTE.strftime now else "")
           +:+ ".pt.tar").
Proof.
  intros Hm. unfold REMOTE.get_file_name_and_path. rewrite Hm. simpl.
  destruct (Py.truthy (REMOTE.file_save_in_dictionary self));
    destruct (Py.truthy (REMOTE.file_name_include_datetime self)); simpl;
    rewrite ?append_assoc; done.
Qed.

(** C5, as the code has it: the name is ["./" + m + suffix + ".pt.tar"]
    without the directory flag, as the specification says, and
    ["./" + m + "/./" + m + suffix + ".pt.tar"] with it: the same file under
    [./m/], spelled with one more ["./"]. *)
Theorem file_name_and_path self now (m : string) :
  REMOTE.model_name self = Py.VStr m ->
  let dated := Py.truthy (REMOTE.file_name_include_datetime self) in
  let suffix := if dated then "_" +:+ REMOTE.strftime now else "" in
  REMOTE.get_file_name_and_path self now
  = Py.Ok (if Py.truthy (REMOTE.file_save_in_dictionary self)
           then "./" +:+ m +:+ "/./" +:+ m +:+ suffix +:+ ".pt.tar"
           else Spec.file_name m dated false now).
Proof.
  intros Hm dated suffix. rewrite (get_file_name_and_path_eq self now m Hm).
  unfold Spec.file_name. fold dated. fold suffix.
  destruct (Py.truthy (REMOTE.file_save_in_dictionary self)); simpl.
  - by rewrite ?append_assoc.
  - done.
Qed.

End FileNames.

Lemma file_name_and_path_witness :
  REMOTE.get_file_name_and_path (Examples.remote true true) Examples.now
  = Py.Ok "./model/./model_2024-03-02-090507.pt.tar".
Proof.
  exact (file_name_and_path (Examples.remote true true) Examples.now "model" eq_refl).
Defined.

(** C5 as stated fails with the directory flag: the code's name has a
    second ["./"] after the directory. *)
Lemma file_name_in_directory_differs :
  REMOTE.get_file_name_and_path (Examples.remote true false) Examples.now
  = Py.Ok "./model/./model.pt.tar" /\
  Spec.file_name "model" false true Examples.now = "./model/model.pt.tar" /\
  REMOTE.get_file_name_and_path (Examples.remote true false) Examples.now
  <> Py.Ok (Spec.file_name "model" false true Examples.now).
Proof. split; [done | split; [done | discriminate]]. Qed.


Section Strftime.

Lemma length_append (a b : string) :
  String.length (a +:+ b) = (String.length a + String.length b)%nat.
Proof.
  induction a as [|x a IH]; [done |].
  change (S (String.length (a +:+ b)) = S (String.length a + String.length b)).
  by rewrite IH.
Qed.

Lemma pad2_length (z : Z) : 0 <= z <= 99 -> String.length (REMOTE.pad2 z) = 2%nat.
Proof.
  intros Hz.
  assert (Hall : Forall (fun z => String.length (REMOTE.pad2 z) = 2%nat) (seqZ 0 100)).
  { apply (bool_decide_unpack _). by vm_compute. }
  rewrite Forall_seqZ in Hall. apply Hall. lia.
Qed.

Lemma year_length (z : Z) :
  1000 <= z <= 9999 -> String.length (Py.str_of_int z) = 4%nat.
Proof.
  intros Hz.
  assert (Hall : Forall (fun z => String.length (Py.str_of_int z) = 4%nat)
                   (seqZ 1000 9000)).
  { apply (bool_decide_unpack _). by vm_compute. }
  rewrite Forall_seqZ in Hall. apply Hall. lia.
Qed.

(** The suffix has the shape [YYYY-MM-DD-HHMMSS]: 17 characters for a
    four-digit year. *)
Lemma strftime_length (now : REMOTE.datetime) :
  1000 <= REMOTE.year now <= 9999 ->
  1 <= REMOTE.month now <= 12 -> 1 <= REMOTE.day now <= 31 ->
  0 <= REMOTE.hour now <= 23 -> 0 <= REMOTE.minute now <= 59 ->
  0 <= REMOTE.second now <= 59 ->
  String.length (REMOTE.strftime now) = 17%nat.
Proof.
  intros. unfold REMOTE.strftime.
  rewrite !length_append, year_length, !pad2_length by lia. done.
Qed.

End Strftime.


(** ** The Flusher *)

Section Flusher.

Implicit Types (self : REMOTE.REMOTE) (now : REMOTE.datetime).

Lemma setitem_insert {A : Type} (l : list A) (i : Z) (x : A) :
  0 <= i < Z.of_nat (length l) ->
  Py.setitem l i x = Py.Ok (<[Z.to_nat i := x]> l).
Proof.
  intros Hi. unfold Py.setitem.
  destruct (Z.ltb_spec i 0); [lia |]. simpl.
  destruct (Z.ltb_spec i 0); [lia |].
  destruct (Z.leb_spec (Z.of_nat (length l)) i); [lia | done].
Qed.

(** C4, as the code has it: in an iteration for slot [i] the Flusher
    first concatenates the slot's cells into its own byte sequence, then
    clears the dirty bit of slot [i], and only then names and writes the
    file: after the clear the bit is 0 and nothing has been written yet;
    the write stores the bytes concatenated before the clear. *)
Theorem flusher_iteration_order self now (i : Z) (rest : list Z) (n : nat)
    (cells : list REMOTE.cell) (data : bytes) (path : string) :
  REMOTE.flusher_iterations self = S n ->
  REMOTE.flusher_at self = REMOTE.AtGet ->
  REMOTE.flusher_queue self = i :: rest ->
  0 <= i < Z.of_nat (length (REMOTE.dirty_bits self)) ->
  REMOTE.remote_buffer self !! Z.to_nat i = Some cells ->
  REMOTE.join cells = Py.Ok data ->
  REMOTE.get_file_name_and_path self now = Py.Ok path ->
  exists s1 s2 s3 s4 s5,
    REMOTE.flusher_step now self = Some (Py.Ok s1) /\
    REMOTE.flusher_step now s1 = Some (Py.Ok s2) /\
    REMOTE.flusher_step now s2 = Some (Py.Ok s3) /\
    REMOTE.flusher_step now s3 = Some (Py.Ok s4) /\
    REMOTE.flusher_step now s4 = Some (Py.Ok s5) /\
    (* the slot is read while its dirty bit is untouched *)
    REMOTE.flusher_at s2 = REMOTE.AtClearDirty i data /\
    REMOTE.dirty_bits s2 = REMOTE.dirty_bits self /\
    REMOTE.files s2 = REMOTE.files self /\
    (* the dirty bit is cleared before anything is written *)
    REMOTE.flusher_at s3 = REMOTE.AtFileName data /\
    REMOTE.dirty_bits s3 = <[Z.to_nat i := 0]> (REMOTE.dirty_bits self) /\
    REMOTE.files s3 = REMOTE.files self /\
    (* the write ends the iteration *)
    REMOTE.flusher_at s5 = REMOTE.AtGet /\
    REMOTE.flusher_iterations s5 = n /\
    REMOTE.dirty_bits s5 = <[Z.to_nat i := 0]> (REMOTE.dirty_bits self) /\
    REMOTE.files s5 = <[path := data]> (REMOTE.files self).
Proof.
  intros Hn Hat Hq Hi Hcells Hjoin Hname.
  destruct self as [c sc K SS mn incl dict run bits buf idx q its at_ fs].
  simpl in *. subst its at_ q.
  do 5 eexists.
  split; [reflexivity |].
  split.
  { unfold REMOTE.flusher_step. simpl.
    rewrite (getitem_lookup buf i cells) by (done || lia).
    rewrite bind_Ok, Hjoin. reflexivity. }
  split.
  { unfold REMOTE.flusher_step, REMOTE.clear_dirty_bit. simpl.
    rewrite setitem_insert by done. reflexivity. }
  split.
  { unfold REMOTE.flusher_step. simpl.
    unfold REMOTE.get_file_name_and_path in *. simpl in *. rewrite Hname.
    reflexivity. }
  split; [reflexivity |].
  simpl. done.
Qed.

End Flusher.

Lemma flusher_iteration_order_witness :
  exists s3 s5,
    REMOTE.flusher_steps Examples.now 3 Examples.remote_handed_over = Some (Py.Ok s3) /\
    REMOTE.flusher_steps Examples.now 2 s3 = Some (Py.Ok s5) /\
    REMOTE.dirty_bits Examples.remote_handed_over = [1] /\
    REMOTE.flusher_at s3 = REMOTE.AtFileName [Byte.x01; Byte.x02] /\
    REMOTE.dirty_bits s3 = [0] /\ REMOTE.files s3 = ∅ /\
    REMOTE.dirty_bits s5 = [0] /\
    REMOTE.files s5 = {[ "./model.pt.tar" := [Byte.x01; Byte.x02] ]}.
Proof.
  destruct (flusher_iteration_order Examples.remote_handed_over Examples.now
              0 [] 0 [REMOTE.CellBytes [Byte.x01; Byte.x02]] [Byte.x01; Byte.x02]
              "./model.pt.tar")
    as (s1 & s2 & s3 & s4 & s5 & H1 & H2 & H3 & H4 & H5 & _ & _ & _ & Hat & Hd3 & Hf3
        & _ & _ & Hd5 & Hf5);
    [reflexivity | reflexivity | reflexivity | by vm_compute | reflexivity
    | reflexivity | reflexivity |].
  exists s3, s5. cbn [REMOTE.flusher_steps].
  rewrite H1, H2, H3, H4, H5.
  repeat split; done.
Defined.

(** C4 as stated fails: after the Master has handed slot 0 to the
    Flusher, three steps of the Flusher reach a state in which the dirty
    bit of slot 0 is 0 and no file has been written yet. *)
Lemma dirty_bit_cleared_before_write :
  exists s3,
    REMOTE.dirty_bits Examples.remote_handed_over = [1] /\
    REMOTE.flusher_queue Examples.remote_handed_over = [0] /\
    REMOTE.flusher_steps Examples.now 3 Examples.remote_handed_over = Some (Py.Ok s3) /\
    REMOTE.flusher_at s3 = REMOTE.AtFileName [Byte.x01; Byte.x02] /\
    REMOTE.dirty_bits s3 = [0] /\
    REMOTE.files s3 = ∅.
Proof. eexists. repeat split. Qed.


(** ** The Copier handshake *)

Section Copier.

Context {snapshot : Type} (torch_save : snapshot -> bytes).
Implicit Types (self : @TRAIN.CopierClass snapshot) (queue : list bytes).

(** No step of either thread makes [__copy_completed] false: [request]
    assigns [False] to another attribute, [__is_copy_complete]. *)
Lemma copy_completed_stays_true (save_count shard_rank shard_size : Z) self queue :
  TRAIN.reachable torch_save save_count shard_rank shard_size self queue ->
  TRAIN.copy_completed self = true.
Proof.
  induction 1 as [| self queue obj self' _ IH Hreq
                  | self queue self' queue' _ IH Hstep].
  - reflexivity.
  - unfold TRAIN.request, TRAIN.wait_copy_complete, TRAIN.is_copy_complete in Hreq.
    rewrite IH in Hreq. by injection Hreq as <-.
  - unfold TRAIN.method_step in Hstep.
    destruct (TRAIN.iterations self) as [|n]; [discriminate |].
    destruct (TRAIN.pc self) as [| bb | bb | dump].
    + destruct (TRAIN.buffer self); [| discriminate].
      by injection Hstep as <- <-.
    + by injection Hstep as <- <-.
    + by injection Hstep as <- <-.
    + destruct (TRAIN.shard_chunk self dump); [| discriminate].
      by injection Hstep as <- <-.
Qed.

(** C3 (the code departs from the claim): in every state the Copier can
    reach, [request] returns at once, and when it has returned the
    completion flag is still true while the snapshot sits in the handoff
    slot. *)
Theorem request_leaves_flag_set (save_count shard_rank shard_size : Z) self queue
    (obj : snapshot) :
  TRAIN.reachable torch_save save_count shard_rank shard_size self queue ->
  exists self',
    TRAIN.request self obj = Some self' /\
    TRAIN.copy_completed self' = true /\
    TRAIN.buffer self' = Some obj /\
    TRAIN.is_copy_complete_attr self' = Some false.
Proof.
  intros Hreach.
  pose proof (copy_completed_stays_true _ _ _ _ _ Hreach) as Hflag.
  unfold TRAIN.request, TRAIN.wait_copy_complete, TRAIN.is_copy_complete.
  rewrite Hflag. eexists. split; [reflexivity |]. done.
Qed.

End Copier.

Lemma request_leaves_flag_set_witness :
  exists self',
    TRAIN.request (TRAIN.CopierClass_init (snapshot := bytes) 2 0 1) [Byte.x01] = Some self' /\
    TRAIN.copy_completed self' = true /\
    TRAIN.buffer self' = Some [Byte.x01] /\
    TRAIN.is_copy_complete_attr self' = Some false.
Proof.
  apply (request_leaves_flag_set (fun b : bytes => b) 2 0 1 _ [] [Byte.x01]).
  apply TRAIN.reachable_init.
Defined.

(** A second [request] before the worker has run replaces the first
    snapshot, which is never serialized. *)
Example second_request_overwrites :
  match TRAIN.request (TRAIN.CopierClass_init (snapshot := bytes) 2 0 1) [Byte.x01] with
  | Some self =>
      match TRAIN.request self [Byte.x02] with
      | Some self' => TRAIN.buffer self'
      | None => None
      end
  | None => None
  end = Some [Byte.x02].
Proof. reflexivity. Qed.


(** ** Bootstrap: [init_ACUTE] *)

Section Overrides.

Implicit Types (d : gmap string Py.pyval) (overrides : list (string * Py.pyval)).

(** The key check passes exactly when every override names an option of
    [args]; otherwise it raises for the first key that does not. *)
Lemma check_keys_cases d overrides :
  (Init.check_keys (dom d) overrides = Py.Ok () /\
   forall k, k ∈ overrides.*1 -> is_Some (d !! k)) \/
  (exists k, Init.check_keys (dom d) overrides
             = Py.Raise (Py.ValueError ("Unexpected key: " +:+ k)) /\
             k ∈ overrides.*1 /\ d !! k = None).
Proof.
  induction overrides as [|[key v] rest IH]; simpl.
  - left. split; [done |]. by intros k ?%elem_of_nil.
  - destruct (decide (key ∈ dom d)) as [Hin | Hnot].
    + destruct IH as [[Hok Hall] | (k & Hraise & Hk & Hnone)].
      * left. split; [done |]. intros k [-> | Hk]%elem_of_cons; [| by apply Hall].
        by apply elem_of_dom.
      * right. exists k. split; [done |]. split; [by right | done].
    + right. exists key. split; [done |]. split; [by left |].
      by apply not_elem_of_dom.
Qed.

Lemma dict_update_notin d overrides (k : string) :
  k ∉ overrides.*1 -> Init.dict_update d overrides !! k = d !! k.
Proof.
  unfold Init.dict_update. revert d.
  induction overrides as [|[key v] rest IH]; intros d Hk; [done |].
  simpl in *. apply not_elem_of_cons in Hk as [Hne Hk].
  rewrite IH by done. by rewrite lookup_insert_ne.
Qed.

(** After [update] an override key reads back its override value. *)
Lemma dict_update_lookup d overrides (k : string) (v : Py.pyval) :
  NoDup overrides.*1 -> (k, v) ∈ overrides ->
  Init.dict_update d overrides !! k = Some v.
Proof.
  unfold Init.dict_update. revert d.
  induction overrides as [|[key v'] rest IH]; intros d Hnd Hin.
  - by apply elem_of_nil in Hin.
  - simpl in *. apply NoDup_cons in Hnd as [Hfresh Hnd].
    apply elem_of_cons in Hin as [[= -> ->] | Hin].
    + pose proof (dict_update_notin (<[key := v']> d) rest key Hfresh) as Hkeep.
      unfold Init.dict_update in Hkeep. rewrite Hkeep. apply lookup_insert_eq.
    + by apply IH.
Qed.

End Overrides.

Section Bootstrap.

Context {snapshot : Type} {machine : Py.Machine}.

(** [REMOTE(...)] returns the node of [__init__] when the machine has room
    for a ring of [K] slots and for [S] Receivers. *)
Lemma new_fits (comm : MPI.MPI) (save_count K S : Z)
    (model_name datetime_flag directory_flag : Py.pyval) :
  K <= Py.list_limit -> S <= Py.list_limit ->
  REMOTE.new comm save_count K S model_name datetime_flag directory_flag
  = Py.Ok (REMOTE.init comm save_count K S model_name datetime_flag directory_flag).
Proof.
  intros HK HS. unfold REMOTE.new, Py.list_repeat.
  pose proof list_limit_range as Hlimit.
  assert (Hmax : Py.maxsize / 8 < Py.maxsize) by done.
  destruct (Z.ltb_spec Py.maxsize K); [lia |].
  by rewrite !list_build_fits.
Qed.

(** [init_ACUTE] never touches [args] again after [update]. *)
Lemma init_ACUTE_args_dict (w : Init.world) (st : Init.state)
    (train_node_auto_start : bool) (overrides : list (string * Py.pyval)) :
  Init.check_keys (dom (Init.args_dict st)) overrides = Py.Ok () ->
  Init.args_dict (Init.init_ACUTE (snapshot := snapshot) w st
                    train_node_auto_start overrides).2
  = Init.dict_update (Init.args_dict st) overrides.
Proof.
  intros Hcheck. unfold Init.init_ACUTE. rewrite Hcheck.
  unfold Init.init_remote_node, Init.init_train_node.
  repeat (case_match; simpl; try done).
Qed.

(** The remote sink's run: the node, the directory if it is asked for and
    missing, the threads, and then either the Master's loop and [sys.exit()]
    or, on a ring without slots with a save to take, the [IndexError] of the
    first read of a dirty bit. *)
Lemma init_remote_node_run (w : Init.world) (tc : Spec.typed_config)
    (st1 : Init.state) (communicator : MPI.MPI) (save_count : Z) :
  Spec.remote_buffer_size tc <= Py.list_limit /\ Spec.shard_size tc <= Py.list_limit ->
  let dir := "./" +:+ Spec.model_name tc in
  let makedirs :=
    if Spec.file_save_in_dictionary tc && negb (bool_decide (is_Some (Init.fs w !! dir)))
    then [Init.Makedirs dir] else [] in
  let no_slot := (1 <=? save_count) && (Spec.remote_buffer_size tc <=? 0) in
  Init.init_remote_node (snapshot := snapshot) w st1 communicator save_count
    (Spec.remote_buffer_size tc) (Spec.shard_size tc) (Spec.to_config tc)
  = (Py.Raise (if no_slot then Py.IndexError else Py.SystemExit),
     Init.BuildState (Init.args_dict st1) (Init.environ st1)
       (Init.trace st1
        ++ [Init.RemoteNode save_count (Spec.remote_buffer_size tc)
              (Spec.shard_size tc)]
        ++ makedirs ++ Init.remote_threads (Spec.shard_size tc)
        ++ (if no_slot then [] else [Init.MasterLoop save_count; Init.Exit]))).
Proof.
  intros Hring dir makedirs no_slot.
  unfold Init.init_remote_node.
  cbn [Spec.to_config Init.file_save_in_dictionary Init.model_name
       Init.file_name_include_datetime].
  rewrite new_fits by apply Hring.
  assert (Hmk :
    (if Py.truthy (Py.VBool (Spec.file_save_in_dictionary tc))
     then dir ← REMOTE.str_add "./" (Py.VStr (Spec.model_name tc));
          Py.Ok (if decide (is_Some (Init.fs w !! dir)) then []
                 else [Init.Makedirs dir])
     else Py.Ok []) = Py.Ok makedirs).
  { unfold makedirs. cbn [Py.truthy REMOTE.str_add].
    destruct (Spec.file_save_in_dictionary tc); cbn [andb]; [| done].
    rewrite bind_Ok. fold dir.
    destruct (decide (is_Some (Init.fs w !! dir))) as [Hdir | Hdir].
    - by rewrite (bool_decide_eq_true_2 _ Hdir).
    - by rewrite (bool_decide_eq_false_2 _ Hdir). }
  rewrite Hmk.
  assert (Hwait :
    (if 1 <=? save_count
     then Py.getitem
            (REMOTE.dirty_bits
               (REMOTE.init communicator save_count (Spec.remote_buffer_size tc)
                  (Spec.shard_size tc) (Py.VStr (Spec.model_name tc))
                  (Py.VBool (Spec.file_name_include_datetime tc))
                  (Py.VBool (Spec.file_save_in_dictionary tc))))
            (REMOTE.remote_buffer_index
               (REMOTE.init communicator save_count (Spec.remote_buffer_size tc)
                  (Spec.shard_size tc) (Py.VStr (Spec.model_name tc))
                  (Py.VBool (Spec.file_name_include_datetime tc))
                  (Py.VBool (Spec.file_save_in_dictionary tc))))
     else Py.Ok 0)
    = if no_slot then Py.Raise Py.IndexError else Py.Ok 0).
  { unfold no_slot, REMOTE.init.
    cbn [REMOTE.dirty_bits REMOTE.remote_buffer_index].
    destruct (1 <=? save_count); cbn [andb]; [| done].
    destruct (Z.leb_spec (Spec.remote_buffer_size tc) 0) as [Hno | Hslots].
    - replace (Z.to_nat (Spec.remote_buffer_size tc)) with 0%nat by lia. done.
    - apply getitem_lookup; [done |]. apply lookup_replicate_2. lia. }
  rewrite Hwait. unfold Init.emit.
  cbn [Init.args_dict Init.environ Init.trace].
  destruct no_slot.
  - f_equal. f_equal. rewrite app_nil_r, <- !app_assoc. reflexivity.
  - f_equal. f_equal. rewrite <- !app_assoc. reflexivity.
Qed.

Lemma remote_threads_no_node (S : Z) :
  Init.node_save_counts (Init.remote_threads S) = [].
Proof.
  assert (Hthreads : forall n k,
    Init.node_save_counts
      ((fun r : nat => Init.ThreadStart ("Receiver" +:+ Py.str_of_int (Z.of_nat r)))
         <$> seq k n) = []).
  { induction n as [|n IH]; intros k; [done |]. apply IH. }
  unfold Init.remote_threads. apply (Hthreads _ 0%nat).
Qed.

End Bootstrap.

(** *** A validated configuration in a consistent launch *)

Section ValidatedLaunch.

Context {snapshot : Type} {machine : Py.Machine}.

Variables (w : Init.world) (st : Init.state) (train_node_auto_start : bool)
  (overrides : list (string * Py.pyval)) (tc : Spec.typed_config)
  (s : string) (lr : Z).

(** The options read after [update] are the typed record [tc]. *)
Hypothesis Hcfg :
  Init.read_config (Init.dict_update (Init.args_dict st) overrides)
  = Py.Ok (Spec.to_config tc).
(** A resume file that exists is a snapshot with an integer epoch. *)
Hypothesis Hfile : forall p f,
  Spec.snapshot_path tc = Some p -> Init.fs w !! p = Some f ->
  exists d ep, f = Init.Snapshot d /\ d !! "epoch" = Some (Py.VInt ep).
(** The launcher has exported the local rank [lr]. *)
Hypothesis Henv : Init.environ st !! "OMPI_COMM_WORLD_LOCAL_RANK" = Some s.
Hypothesis Hparse : Py.int_of_str s = Py.Ok lr.
(** The all-gather returns one entry per process, the caller's at its rank. *)
Hypothesis Hlen : Z.of_nat (length (Init.all_gather w lr)) = Init.mpi_size w.
Hypothesis Hrank : 0 <= Init.mpi_rank w < Init.mpi_size w.
Hypothesis Hown : Init.all_gather w lr !! Z.to_nat (Init.mpi_rank w) = Some lr.
(** The machine has room for the lists whose length the configuration
    sets: the save points up to the total, the ring and the Receivers. *)
Hypothesis Hpoints :
  Py.range_len 1 (Spec.total_epochs tc + 1) (Spec.save_period tc) <= Py.list_limit.
Hypothesis Hring :
  Spec.remote_buffer_size tc <= Py.list_limit /\ Spec.shard_size tc <= Py.list_limit.

(** The [if snapshot_path:] block: no path, a missing file, or the
    snapshot's epoch plus one. *)
Lemma resume_epoch_cases :
  (Init.resume_epoch w (Spec.to_config tc)
     = (Py.Ok (Py.VInt (Spec.starting_epoch tc)), []) /\
   (Spec.snapshot_path tc = None \/ Spec.snapshot_path tc = Some "")) \/
  (exists p, Spec.snapshot_path tc = Some p /\ p <> "" /\ Init.fs w !! p = None /\
     Init.resume_epoch w (Spec.to_config tc)
     = (Py.Raise (Py.AssertionError
          ("can't open file '" +:+ p +:+ "': No such file or directory")), [])) \/
  (exists p d ep, Spec.snapshot_path tc = Some p /\ p <> "" /\
     Init.fs w !! p = Some (Init.Snapshot d) /\ d !! "epoch" = Some (Py.VInt ep) /\
     Init.resume_epoch w (Spec.to_config tc)
     = (Py.Ok (Py.VInt (ep + 1)), [Init.TorchLoad p])).
Proof.
  unfold Init.resume_epoch, Spec.to_config. simpl.
  destruct (Spec.snapshot_path tc) as [p |] eqn:Hp; simpl; [| left; auto].
  destruct (String.eqb_spec p "") as [-> | Hne]; simpl; [left; auto |].
  right. destruct (Init.fs w !! p) as [f |] eqn:Hf.
  - right. destruct (Hfile p f) as (d & ep & -> & Hep); [done | done |].
    exists p, d, ep. unfold Init.next_epoch, Py.dict_get. rewrite Hep. done.
  - left. exists p. done.
Qed.

(** An unknown override key stops [init_ACUTE] before it changes anything. *)
Lemma init_ACUTE_unknown_key (e : Py.exn) :
  Init.check_keys (dom (Init.args_dict st)) overrides = Py.Raise e ->
  Init.init_ACUTE (snapshot := snapshot) w st train_node_auto_start overrides
  = (Py.Raise e, st).
Proof. intros Hcheck. unfold Init.init_ACUTE. by rewrite Hcheck. Qed.

(** A failure of the resume block stops [init_ACUTE] after [update]. *)
Lemma init_ACUTE_resume_fails (e : Py.exn) (evs : list Init.event) :
  Init.check_keys (dom (Init.args_dict st)) overrides = Py.Ok () ->
  Init.resume_epoch w (Spec.to_config tc) = (Py.Raise e, evs) ->
  Init.init_ACUTE (snapshot := snapshot) w st train_node_auto_start overrides
  = (Py.Raise e,
     Init.BuildState (Init.dict_update (Init.args_dict st) overrides)
       (Init.environ st) (Init.trace st ++ evs)).
Proof.
  intros Hcheck Hresume. unfold Init.init_ACUTE. rewrite Hcheck. cbn.
  rewrite Hcfg, Hresume. done.
Qed.

(** Past the resume block: the communicator is created, the leaders are
    elected, and [init_ACUTE] checks the shard size, computes the save count
    and builds the node of its role. *)
Lemma init_ACUTE_past_resume (e0 : Z) (evs0 : list Init.event) :
  Init.check_keys (dom (Init.args_dict st)) overrides = Py.Ok () ->
  Init.resume_epoch w (Spec.to_config tc) = (Py.Ok (Py.VInt e0), evs0) ->
  let leaders := Spec.shard_leaders (Init.all_gather w lr) (Init.mpi_size w) in
  let communicator := MPI.Build (Init.mpi_rank w) (Init.mpi_size w) (Some leaders) in
  let st1 := Init.BuildState (Init.dict_update (Init.args_dict st) overrides)
               (Init.environ st)
               (Init.trace st ++ evs0 ++ [Init.MPICreate; Init.AllGather]) in
  Init.init_ACUTE (snapshot := snapshot) w st train_node_auto_start overrides
  = if negb (Spec.shard_size tc <=? Z.of_nat (length leaders)) then
      (Py.Raise (Py.AssertionError
         ("The shard size is too large. (input: "
          +:+ Py.str_of_int (Spec.shard_size tc) +:+ ", max: "
          +:+ Py.str_of_int (Z.of_nat (length leaders)) +:+ ")")), st1)
    else
      match calculate_save_count e0 (Spec.total_epochs tc) (Spec.save_period tc) with
      | Py.Raise e => (Py.Raise e, st1)
      | Py.Ok save_count =>
          if Init.mpi_rank w =? Init.mpi_size w - 1 then
            Init.init_remote_node w st1 communicator save_count
              (Spec.remote_buffer_size tc) (Spec.shard_size tc) (Spec.to_config tc)
          else
            Init.init_train_node st1 communicator save_count
              (Spec.shard_size tc) (Spec.to_config tc) train_node_auto_start
      end.
Proof.
  intros Hcheck Hresume leaders communicator st1.
  unfold Init.init_ACUTE. rewrite Hcheck. cbn.
  rewrite Hcfg, Hresume. cbn.
  rewrite (make_sharding_rank_eq _ _ _ s lr) by (cbn; done). cbn.
  change (filter _ (seqZ 0 (Init.mpi_size w - 1))) with leaders.
  fold communicator.
  replace (Init.emit (Init.emit (Init.emit _ evs0) [Init.MPICreate]) [Init.AllGather])
    with st1.
  2:{ unfold st1, Init.emit. cbn. by rewrite <- !app_assoc. }
  destruct (negb (Spec.shard_size tc <=? Z.of_nat (length leaders))); [done |].
  change (Py.as_int (Py.VInt e0) ≫= _)
    with (calculate_save_count e0 (Spec.total_epochs tc) (Spec.save_period tc)).
  destruct (calculate_save_count e0 (Spec.total_epochs tc) (Spec.save_period tc));
    done.
Qed.

(** The remote sink builds its node, starts its threads, serves and
    exits. *)
(** Whichever way the remote sink's run ends, it raises, and the one node
    built on the way is the [REMOTE] node with the save count. *)
Lemma init_remote_node_eq (st1 : Init.state) (communicator : MPI.MPI)
    (save_count : Z) :
  exists e evs,
    Init.init_remote_node (snapshot := snapshot) w st1 communicator save_count
      (Spec.remote_buffer_size tc) (Spec.shard_size tc) (Spec.to_config tc)
    = (Py.Raise e,
       Init.BuildState (Init.args_dict st1) (Init.environ st1)
         (Init.trace st1
          ++ Init.RemoteNode save_count (Spec.remote_buffer_size tc)
               (Spec.shard_size tc) :: evs)) /\
    Init.node_save_counts evs = [].
Proof.
  rewrite (init_remote_node_run w tc st1 communicator save_count Hring).
  eexists _, _. split; [reflexivity |].
  unfold Init.node_save_counts. rewrite !omap_app.
  fold (Init.node_save_counts (Init.remote_threads (Spec.shard_size tc))).
  rewrite remote_threads_no_node.
  destruct (Spec.file_save_in_dictionary tc && _), ((1 <=? save_count) && _); done.
Qed.

Lemma dict_get_Some {V : Type} (d : gmap string V) (k : string) (v : V) :
  d !! k = Some v -> Py.dict_get d k = Py.Ok v.
Proof. intros H. unfold Py.dict_get. by rewrite H. Qed.

Lemma published_lookup (self : MPI.MPI) (environ : gmap string string)
    (s' addr port x : string) :
  let environ' := <["SHARD_RANK" := x]> (MPI.published self environ s' addr port) in
  environ' !! "RANK" = Some (Py.str_of_int (MPI.rank self)) /\
  environ' !! "WORLD_SIZE" = Some (Py.str_of_int (MPI.size self - 1)) /\
  environ' !! "LOCAL_RANK" = Some s' /\
  environ' !! "SHARD_RANK" = Some x.
Proof. unfold MPI.published. repeat split; by simplify_map_eq. Qed.

(** A trainer publishes its environment, joins the process group, builds
    its node with the save count and, when asked, starts its threads. *)
Lemma init_train_node_eq (st1 : Init.state) (save_count : Z) :
  Init.environ st1 = Init.environ st ->
  Init.mpi_rank w < Init.mpi_size w - 1 ->
  let leaders := Spec.shard_leaders (Init.all_gather w lr) (Init.mpi_size w) in
  let communicator := MPI.Build (Init.mpi_rank w) (Init.mpi_size w) (Some leaders) in
  exists (shard_rank : Z) (environ' : gmap string string)
         (train_node : @TRAIN.TRAIN snapshot) (threads : list TRAIN.thread),
    Init.init_train_node st1 communicator save_count (Spec.shard_size tc)
      (Spec.to_config tc) train_node_auto_start
    = (Py.Ok (communicator, Some train_node, None),
       Init.BuildState (Init.args_dict st1) environ'
         (Init.trace st1
          ++ [Init.InitProcessGroup (Init.mpi_rank w) (Init.mpi_size w - 1);
              Init.SetDevice lr;
              Init.TrainNode save_count shard_rank (Spec.shard_size tc)]
          ++ (Init.ThreadStart ∘ Init.thread_name <$> threads))) /\
    TRAIN.save_count (TRAIN.Copier train_node) = save_count.
Proof.
  intros Henv1 Htrainer leaders communicator.
  destruct (set_environ_eq communicator leaders (Init.environ st1) s lr
              (Spec.training_master_addr tc) (Spec.training_master_port tc))
    as (p & Hset & _); [done | by rewrite Henv1 | done | |].
  { intros Hlr. unfold leaders, Spec.shard_leaders.
    rewrite list_elem_of_filter, elem_of_seqZ. cbn.
    split; [congruence | clear - Hrank Htrainer; lia]. }
  unfold Init.init_train_node. cbn [Spec.to_config Init.training_master_address
    Init.training_master_port]. rewrite Hset.
  destruct (published_lookup communicator (Init.environ st1) s
              (Spec.training_master_addr tc) (Spec.training_master_port tc)
              (Py.str_of_int p)) as (Hr & Hws & Hlr & Hsr).
  rewrite (dict_get_Some _ _ _ Hr), (dict_get_Some _ _ _ Hws),
    (dict_get_Some _ _ _ Hlr), (dict_get_Some _ _ _ Hsr).
  repeat (rewrite ?bind_Ok, ?int_of_str_of_int, ?Hparse).
  cbn [MPI.rank MPI.size communicator].
  destruct train_node_auto_start.
  - unfold TRAIN.start, TRAIN.init. cbn.
    destruct ((0 <=? p) && (p <? Spec.shard_size tc)).
    + exists p. do 2 eexists. exists [TRAIN.SenderThread; TRAIN.CopierThread].
      unfold Init.emit. cbn. rewrite <- app_assoc. split; reflexivity.
    + exists p. do 2 eexists. exists [].
      unfold Init.emit. cbn. rewrite <- app_assoc. split; reflexivity.
  - exists p. do 2 eexists. exists [].
    unfold Init.emit. cbn. split; reflexivity.
Qed.

(** The save points fit, so the count is computed, whatever the start. *)
Lemma calculate_save_count_returns (E_start : Z) :
  Spec.save_period tc <> 0 ->
  exists c, calculate_save_count E_start (Spec.total_epochs tc) (Spec.save_period tc)
            = Py.Ok c.
Proof.
  intros HP. eexists. apply calculate_save_count_fits; [| exact Hpoints].
  unfold Py.range. by destruct (Z.eqb_spec (Spec.save_period tc) 0).
Qed.

(** With every override key known, a resume file in place or none asked
    for, and a shard size the leaders can serve, [init_ACUTE] builds the node
    of its role with the save count computed from [e0]: the trainer's call
    returns it, the remote sink's call serves and never returns. *)
Lemma init_ACUTE_builds_node (e0 : Z) (evs0 : list Init.event) :
  Init.check_keys (dom (Init.args_dict st)) overrides = Py.Ok () ->
  Init.resume_epoch w (Spec.to_config tc) = (Py.Ok (Py.VInt e0), evs0) ->
  Init.node_save_counts evs0 = [] ->
  Spec.shard_size tc
    <= Z.of_nat (length (Spec.shard_leaders (Init.all_gather w lr) (Init.mpi_size w))) ->
  Spec.save_period tc <> 0 ->
  exists c out evs,
    calculate_save_count e0 (Spec.total_epochs tc) (Spec.save_period tc) = Py.Ok c /\
    Init.init_ACUTE (snapshot := snapshot) w st train_node_auto_start overrides = out /\
    Init.trace out.2 = Init.trace st ++ evs /\
    Init.node_save_counts evs = [c] /\
    ((exists e, out.1 = Py.Raise e) /\ Init.mpi_rank w = Init.mpi_size w - 1 \/
     exists communicator train_node,
       out.1 = Py.Ok (communicator, Some train_node, None) /\
       TRAIN.save_count (TRAIN.Copier train_node) = c).
Proof.
  intros Hcheck Hresume Hquiet HS HP.
  destruct (calculate_save_count_returns e0 HP) as [c Hc].
  exists c.
  rewrite (init_ACUTE_past_resume e0 evs0 Hcheck Hresume).
  destruct (Z.leb_spec (Spec.shard_size tc)
              (Z.of_nat (length (Spec.shard_leaders (Init.all_gather w lr)
                                   (Init.mpi_size w))))); [| lia].
  cbn [negb]. rewrite Hc.
  destruct (Z.eqb_spec (Init.mpi_rank w) (Init.mpi_size w - 1)) as [Hremote | Htrainer].
  - match goal with |- context [Init.init_remote_node _ ?st1 ?comm _ _ _ _] =>
      destruct (init_remote_node_eq st1 comm c) as (e & evs & -> & Hevs) end.
    eexists _, _. split; [done |]. split; [reflexivity |]. cbn.
    split; [by rewrite <- !app_assoc |].
    split; [| left; eauto].
    unfold Init.node_save_counts in *. rewrite !omap_app, Hquiet. cbn.
    by rewrite Hevs.
  - match goal with |- context [Init.init_train_node ?st1 _ _ _ _ _] =>
      destruct (init_train_node_eq st1 c) as (p & env' & train & threads & -> & Hsc);
        [done | lia |] end.
    eexists _, _. split; [done |]. split; [reflexivity |]. cbn.
    split; [by rewrite <- !app_assoc |].
    split; [| right; eauto].
    assert (Hthreads : Init.node_save_counts
                         (Init.ThreadStart ∘ Init.thread_name <$> threads) = []).
    { clear. induction threads as [|t threads IH]; [done | exact IH]. }
    unfold Init.node_save_counts in *. rewrite !omap_app, Hquiet. cbn.
    by rewrite Hthreads.
Qed.

(** C6: for a validated configuration in a consistent launch, on a
    machine with room for the save points and the ring,
    [init_ACUTE] fails before any node is built or thread started exactly
    when an override key is unknown, the resume file is missing, or the
    shard size exceeds the number of shard leaders; the first raises
    [ValueError] before anything is done, the other two fail an [assert]. *)
Theorem init_fails_on_configuration_error :
  Spec.save_period tc <> 0 ->
  let unknown := exists k, k ∈ overrides.*1 /\ Init.args_dict st !! k = None in
  let missing := exists p, Spec.snapshot_path tc = Some p /\ p <> "" /\
                           Init.fs w !! p = None in
  let leaders := Spec.shard_leaders (Init.all_gather w lr) (Init.mpi_size w) in
  let too_large := Z.of_nat (length leaders) < Spec.shard_size tc in
  let out := Init.init_ACUTE (snapshot := snapshot) w st train_node_auto_start
               overrides in
  (unknown \/ missing \/ too_large <-> Spec.fails_before_start st out) /\
  (unknown ->
   exists k, out = (Py.Raise (Py.ValueError ("Unexpected key: " +:+ k)), st)) /\
  (~ unknown -> missing ->
   exists p, out.1 = Py.Raise (Py.AssertionError
     ("can't open file '" +:+ p +:+ "': No such file or directory"))) /\
  (~ unknown -> ~ missing -> too_large ->
   out.1 = Py.Raise (Py.AssertionError
     ("The shard size is too large. (input: "
      +:+ Py.str_of_int (Spec.shard_size tc) +:+ ", max: "
      +:+ Py.str_of_int (Z.of_nat (length leaders)) +:+ ")"))).
Proof.
  intros HP unknown missing leaders too_large out.
  destruct (check_keys_cases (Init.args_dict st) overrides)
    as [[Hcheck Hknown] | (k & Hcheck & Hk & Hnone)].
  2:{ (* an unknown key *)
    assert (Hout : out = (Py.Raise (Py.ValueError ("Unexpected key: " +:+ k)), st))
      by (by apply init_ACUTE_unknown_key).
    assert (Hunknown : unknown) by (by exists k).
    split; [| split; [| split]]; [| by eauto | done | done].
    split; [| by left]. intros _. rewrite Hout.
    exists (Py.ValueError ("Unexpected key: " +:+ k)), [].
    split; [done |]. split; [by rewrite app_nil_r | constructor]. }
  assert (Hnot_unknown : ~ unknown).
  { intros (k & Hk & Hnone). destruct (Hknown k Hk) as [v Hv]. congruence. }
  destruct resume_epoch_cases
    as [[Hresume Hpath] | [(p & Hp & Hne & Hfs & Hresume)
                          | (p & d & ep & Hp & Hne & Hfs & Hep & Hresume)]].
  2:{ (* the resume file is missing *)
    assert (Hout := init_ACUTE_resume_fails _ _ Hcheck Hresume). fold out in Hout.
    assert (Hmissing : missing) by (by exists p).
    split; [| split; [| split]]; [| done | | done].
    - split; [| auto]. intros _. rewrite Hout. eexists _, []. cbn.
      split; [done |]. split; [done | constructor].
    - intros _ _. exists p. by rewrite Hout. }
  all: assert (Hnot_missing : ~ missing)
    by (intros (p' & Hp' & Hne' & Hfs'); destruct_or?; simplify_eq).
  all: match type of Hresume with _ = (Py.Ok (Py.VInt ?e0), ?evs0) =>
         assert (Hquiet : Init.node_save_counts evs0 = []) by done;
         assert (Hquiet' : Forall (fun ev => Init.constructs_or_starts ev = false)
                             (evs0 ++ [Init.MPICreate; Init.AllGather]))
           by (repeat constructor);
         pose proof (init_ACUTE_past_resume e0 evs0 Hcheck Hresume) as Hout;
         pose proof (init_ACUTE_builds_node e0 evs0 Hcheck Hresume Hquiet) as Hbuilt
       end.
  all: cbv zeta in Hout; fold leaders out in Hout; fold leaders in Hbuilt.
  all: destruct (Z.leb_spec (Spec.shard_size tc) (Z.of_nat (length leaders)))
         as [Hfits | Hlarge]; cbn [negb] in Hout.
  all: try (
    (* the shard size is too large *)
    split; [| split; [| split]]; [| done | done | by rewrite Hout];
    split; [| auto]; intros _; rewrite Hout; eexists _, _; cbn;
    split; [done |]; split; [reflexivity | exact Hquiet']).
  all: (* no configuration error: a node is built *)
    destruct (Hbuilt Hfits HP) as (c & out' & evs & _ & Hrun & Htrace & Hnodes & Hrole);
    fold out in Hrun; subst out';
    split; [| split; [| split]]; [| done | done | intros _ _ ?; unfold too_large in *; lia];
    split; [intros [? | [? | ?]]; [done | done | unfold too_large in *; lia] |];
    intros (e & evs' & He & Htrace' & Hnone); exfalso;
    rewrite Htrace in Htrace'; apply app_inv_head in Htrace'; subst evs';
    assert (Init.node_save_counts evs = []) as Hempty
      by (clear - Hnone; induction Hnone as [|ev evs Hev _ IH]; [done |];
          destruct ev; try discriminate; exact IH);
    congruence.
Qed.

End ValidatedLaunch.

(** C9: [init_ACUTE] works on the caller's [args] itself: after a call
    that returns, every override key reads back its override value from
    [args]; and when an override key is unknown the call raises [ValueError]
    and leaves [args], like everything else, as it was. *)
Theorem init_ACUTE_updates_args {snapshot : Type} {machine : Py.Machine}
    (w : Init.world) (st : Init.state)
    (train_node_auto_start : bool) (overrides : list (string * Py.pyval)) :
  NoDup overrides.*1 ->
  let out := Init.init_ACUTE (snapshot := snapshot) w st train_node_auto_start
               overrides in
  (forall r, out.1 = Py.Ok r ->
     forall k v, (k, v) ∈ overrides -> Init.args_dict out.2 !! k = Some v) /\
  ((exists k, k ∈ overrides.*1 /\ Init.args_dict st !! k = None) ->
   exists k, k ∈ overrides.*1 /\ Init.args_dict st !! k = None /\
     out = (Py.Raise (Py.ValueError ("Unexpected key: " +:+ k)), st)).
Proof.
  intros Hnd out.
  destruct (check_keys_cases (Init.args_dict st) overrides)
    as [[Hcheck Hknown] | (k & Hcheck & Hk & Hnone)].
  - split.
    + intros r _ k v Hkv. unfold out.
      rewrite init_ACUTE_args_dict by done. by apply dict_update_lookup.
    + intros (k & Hk & Hnone). destruct (Hknown k Hk) as [v Hv]. congruence.
  - assert (Hout : out = (Py.Raise (Py.ValueError ("Unexpected key: " +:+ k)), st))
      by (by apply init_ACUTE_unknown_key).
    split.
    + intros r Hr. rewrite Hout in Hr. discriminate.
    + intros _. by exists k.
Qed.

Lemma init_ACUTE_updates_args_witness :
  Init.args_dict
    (Init.init_ACUTE (snapshot := unit) (machine := Examples.machine) (Examples.world 0) Examples.state true
       [("shard_size", Py.VInt 1)]).2 !! "shard_size" = Some (Py.VInt 1) /\
  Init.init_ACUTE (snapshot := unit) (machine := Examples.machine) (Examples.world 0) Examples.state true
    [("shard_count", Py.VInt 1)]
  = (Py.Raise (Py.ValueError "Unexpected key: shard_count"), Examples.state).
Proof.
  split.
  - destruct (init_ACUTE_updates_args (snapshot := unit) (machine := Examples.machine)
                (Examples.world 0)
                Examples.state true [("shard_size", Py.VInt 1)]) as [Hread _].
    { repeat constructor. by intros ?%elem_of_nil. }
    eapply Hread; [by vm_compute | by left].
  - destruct (init_ACUTE_updates_args (snapshot := unit) (machine := Examples.machine)
                (Examples.world 0)
                Examples.state true [("shard_count", Py.VInt 1)]) as [_ Hraise].
    { repeat constructor. by intros ?%elem_of_nil. }
    destruct Hraise as (k & Hk & _ & Hout).
    { exists "shard_count". split; [by left | by vm_compute]. }
    apply list_elem_of_singleton in Hk. by rewrite Hk in Hout.
Defined.

Lemma init_fails_on_configuration_error_witness :
  let out := Init.init_ACUTE (snapshot := unit) (machine := Examples.machine) (Examples.world 0) Examples.state
               true [("shard_size", Py.VInt 3)] in
  Spec.fails_before_start Examples.state out /\
  out.1 = Py.Raise (Py.AssertionError
                      "The shard size is too large. (input: 3, max: 2)").
Proof.
  intros out.
  destruct (init_fails_on_configuration_error (snapshot := unit)
              (machine := Examples.machine)
              (Examples.world 0) Examples.state true [("shard_size", Py.VInt 3)]
              (Examples.config 3) "0" 0)
    as (Hiff & _ & _ & Hlarge).
  - by vm_compute.
  - intros p f [= <-] Hf. vm_compute in Hf. injection Hf as <-. by eexists _, _.
  - reflexivity.
  - reflexivity.
  - reflexivity.
  - simpl. lia.
  - reflexivity.
  - by vm_compute.
  - split; by vm_compute.
  - discriminate.
  - assert (Hcount : Z.of_nat (length (Spec.shard_leaders
              (Init.all_gather (Examples.world 0) 0)
              (Init.mpi_size (Examples.world 0)))) < 3) by (by vm_compute).
    split.
    + apply Hiff. right. right. exact Hcount.
    + apply Hlarge; [| | exact Hcount].
      * intros (k & Hk%list_elem_of_singleton & Hnone). subst k.
        vm_compute in Hnone. discriminate.
      * intros (p & [= <-] & _ & Hfs). vm_compute in Hfs. discriminate.
Defined.

(** C2: for a save period of at least 1, what [calculate_save_count]
    returns is the number of save points [1, 1+P, 1+2P, ...] that are at most
    [E_total] and at least [E_start], and it returns when the save points up
    to [E_total] fit in a list; and when [init_ACUTE] is given a resume
    snapshot, the node it builds gets the count for the start epoch
    [snapshot epoch + 1], whatever [starting_epoch] is configured. *)
Theorem save_count_and_resume_epoch {machine : Py.Machine} (E_start E_total P : Z) :
  0 <= E_total -> 1 <= P ->
  (exists pts,
     NoDup pts /\
     (forall e, e ∈ pts <-> Spec.counted_save_point E_start E_total P e) /\
     (forall c, calculate_save_count E_start E_total P = Py.Ok c ->
        c = Z.of_nat (length pts)) /\
     (Py.range_len 1 (E_total + 1) P <= Py.list_limit ->
      calculate_save_count E_start E_total P = Py.Ok (Z.of_nat (length pts)))) /\
  (forall (snapshot : Type) (w : Init.world) (st : Init.state)
          (train_node_auto_start : bool) (overrides : list (string * Py.pyval))
          (tc : Spec.typed_config) (s : string) (lr : Z)
          (p : string) (d : gmap string Py.pyval) (ep : Z),
     Init.read_config (Init.dict_update (Init.args_dict st) overrides)
       = Py.Ok (Spec.to_config tc) ->
     Spec.total_epochs tc = E_total -> Spec.save_period tc = P ->
     (forall k, k ∈ overrides.*1 -> is_Some (Init.args_dict st !! k)) ->
     Init.environ st !! "OMPI_COMM_WORLD_LOCAL_RANK" = Some s ->
     Py.int_of_str s = Py.Ok lr ->
     Z.of_nat (length (Init.all_gather w lr)) = Init.mpi_size w ->
     0 <= Init.mpi_rank w < Init.mpi_size w ->
     Init.all_gather w lr !! Z.to_nat (Init.mpi_rank w) = Some lr ->
     Py.range_len 1 (E_total + 1) P <= Py.list_limit ->
     Spec.remote_buffer_size tc <= Py.list_limit /\
       Spec.shard_size tc <= Py.list_limit ->
     Spec.shard_size tc
       <= Z.of_nat (length (Spec.shard_leaders (Init.all_gather w lr)
                              (Init.mpi_size w))) ->
     Spec.snapshot_path tc = Some p -> p <> "" ->
     Init.fs w !! p = Some (Init.Snapshot d) -> d !! "epoch" = Some (Py.VInt ep) ->
     exists c evs,
       calculate_save_count (ep + 1) E_total P = Py.Ok c /\
       Init.trace (Init.init_ACUTE (snapshot := snapshot) w st
                     train_node_auto_start overrides).2
         = Init.trace st ++ evs /\
       Init.node_save_counts evs = [c]).
Proof.
  intros _ HP. split; [by apply calculate_save_count_cardinal |].
  intros snapshot w st auto overrides tc s lr p d ep
    Hcfg <- <- Hknown Henv Hparse Hlen Hrank Hown Hpoints Hring HS Hp Hne Hfs Hep.
  assert (Hcheck : Init.check_keys (dom (Init.args_dict st)) overrides = Py.Ok ()).
  { destruct (check_keys_cases (Init.args_dict st) overrides)
      as [[Hcheck _] | (k & _ & Hk & Hnone)]; [done |].
    destruct (Hknown k Hk) as [v Hv]. congruence. }
  assert (Hresume : Init.resume_epoch w (Spec.to_config tc)
                    = (Py.Ok (Py.VInt (ep + 1)), [Init.TorchLoad p])).
  { unfold Init.resume_epoch, Spec.to_config. cbn. rewrite Hp. cbn.
    destruct (String.eqb_spec p ""); [done |]. cbn. rewrite Hfs.
    unfold Init.next_epoch, Py.dict_get. by rewrite Hep. }
  destruct (init_ACUTE_builds_node (snapshot := snapshot) w st auto overrides tc s lr
              Hcfg Henv Hparse Hlen Hrank Hown Hpoints Hring (ep + 1)
              [Init.TorchLoad p])
    as (c & out & evs & Hc & <- & Htrace & Hnodes & _); [done | done | done | done | lia |].
  by exists c, evs.
Qed.

Lemma save_count_and_resume_epoch_witness :
  (exists pts,
     NoDup pts /\
     (forall e, e ∈ pts <-> Spec.counted_save_point 6 10 2 e) /\
     calculate_save_count (machine := Examples.machine) 6 10 2
     = Py.Ok (Z.of_nat (length pts))) /\
  exists c evs,
    calculate_save_count (machine := Examples.machine) (5 + 1) 10 2 = Py.Ok c /\
    Init.trace (Init.init_ACUTE (snapshot := unit) (machine := Examples.machine)
                  (Examples.world 2) Examples.state true []).2
      = Init.trace Examples.state ++ evs /\
    Init.node_save_counts evs = [c].
Proof.
  destruct (save_count_and_resume_epoch (machine := Examples.machine) 6 10 2)
    as [(pts & Hnd & Hpts & _ & Hcount) Hresume]; [lia | lia |].
  split; [exists pts; split; [exact Hnd |]; split; [exact Hpts |];
          apply Hcount; by vm_compute |].
  apply (Hresume unit (Examples.world 2) Examples.state true [] (Examples.config 2)
           "0" 0 "ckpt.pt" {[ "epoch" := Py.VInt 5 ]} 5).
  - by vm_compute.
  - reflexivity.
  - reflexivity.
  - by intros k ?%elem_of_nil.
  - reflexivity.
  - reflexivity.
  - reflexivity.
  - simpl. lia.
  - reflexivity.
  - by vm_compute.
  - split; by vm_compute.
  - by vm_compute.
  - reflexivity.
  - discriminate.
  - reflexivity.
  - reflexivity.
Defined.

Example resume_e5 :
  Init.node_save_counts
    (Init.trace (Init.init_ACUTE (snapshot := unit) (machine := Examples.machine) (Examples.world 2) Examples.state
                   true []).2) = [2].
Proof. by vm_compute. Qed.


(** ** More on sharding *)

Section ShardsBelow2_53.

Context {snapshot : Type}.
Implicit Types (self : @TRAIN.CopierClass snapshot) (dump : bytes).

(** X1: for a dump of fewer than [2^53] bytes and at least one shard, the
    locals [q] and [r] of [compute_shard] are the integer quotient and
    remainder of the length by the shard size; with a shard size of 0 the
    true division raises [ZeroDivisionError]. *)
Theorem compute_shard_q_r_below_2_53 (key_len compute_node_len : Z) :
  0 <= key_len < 2 ^ 53 ->
  (1 <= compute_node_len ->
   TRAIN.compute_shard_q_r key_len compute_node_len
   = Py.Ok (key_len / compute_node_len, key_len mod compute_node_len)) /\
  TRAIN.compute_shard_q_r key_len 0 = Py.Raise Py.ZeroDivisionError.
Proof.
  intros Hn. split; [intros HS; by apply compute_shard_q_r_exact | done].
Qed.

(** X2: for a dump of [n < 2^53] bytes, shard [rank] of [S] gets the
    inclusive range that starts at [rank * (n / S) + min rank (n mod S)] and
    holds [n / S] bytes, one more for the first [n mod S] shards; the range
    lies inside the dump and the next shard's range starts right after it. *)
Theorem compute_shard_balanced self dump :
  let n := Z.of_nat (length dump) in
  let S := TRAIN.shard_size self in
  let rank := TRAIN.shard_rank self in
  n < 2 ^ 53 -> 1 <= S -> 0 <= rank < S ->
  exists left_ right_,
    TRAIN.compute_shard self dump = Py.Ok (left_, right_) /\
    left_ = rank * (n / S) + Z.min rank (n mod S) /\
    right_ + 1 - left_ = n / S + (if rank <? n mod S then 1 else 0) /\
    0 <= left_ /\ right_ < n /\
    forall self', TRAIN.shard_size self' = S -> TRAIN.shard_rank self' = rank + 1 ->
      exists right', TRAIN.compute_shard self' dump = Py.Ok (right_ + 1, right').
Proof.
  intros n S rank Hn HS Hrank.
  rewrite compute_shard_spec by done. fold n S rank.
  eexists _, _. split; [reflexivity |].
  pose proof (Z.mod_pos_bound n S ltac:(lia)) as Hmod.
  pose proof (Z.div_pos n S ltac:(lia) ltac:(lia)) as Hdiv.
  pose proof (spec_hi_le_n n S rank ltac:(lia) HS Hrank) as Hhi.
  pose proof (spec_lo_nonneg n S rank ltac:(lia) HS ltac:(lia)) as Hlo.
  split; [| split; [| split; [| split]]].
  - unfold Spec.lo. destruct (Z.ltb_spec rank (n mod S)); lia.
  - unfold Spec.lo, Spec.hi. destruct (Z.ltb_spec rank (n mod S)); lia.
  - done.
  - lia.
  - intros self' HS' Hrank'. rewrite compute_shard_spec by (fold n; lia).
    fold n. rewrite HS', Hrank'. eexists. f_equal. f_equal.
    rewrite <- spec_hi_lo_succ. lia.
Qed.

(** X3: for a dump of fewer than [2^53] bytes, every one of the [S] shard
    leaders gets a chunk, and the chunks concatenated in shard order are the
    dump. *)
Theorem shard_chunks_rebuild_dump (copier : Z -> @TRAIN.CopierClass snapshot)
    (S : Z) dump :
  Z.of_nat (length dump) < 2 ^ 53 -> 1 <= S ->
  (forall r, TRAIN.shard_size (copier r) = S /\ TRAIN.shard_rank (copier r) = r) ->
  exists chunks : list bytes,
    Forall2 (fun (r : nat) c => TRAIN.shard_chunk (copier (Z.of_nat r)) dump = Py.Ok c)
      (seq 0 (Z.to_nat S)) chunks /\
    concat chunks = dump.
Proof.
  intros Hn HS Hcopier.
  set (n := Z.of_nat (length dump)) in *.
  set (chunk := fun r : nat =>
    take (Z.to_nat (Spec.hi n S (Z.of_nat r) - Spec.lo n S (Z.of_nat r)))
      (drop (Z.to_nat (Spec.lo n S (Z.of_nat r))) dump)).
  assert (Hall : Forall2
    (fun (r : nat) c => TRAIN.shard_chunk (copier (Z.of_nat r)) dump = Py.Ok c)
    (seq 0 (Z.to_nat S)) (chunk <$> seq 0 (Z.to_nat S))).
  { apply Forall2_fmap_r, Forall_Forall2_diag, Forall_forall.
    intros r Hr%elem_of_seq.
    destruct (Hcopier (Z.of_nat r)) as [HSr Hrr].
    rewrite shard_chunk_spec; rewrite ?HSr, ?Hrr; [done | done | lia | lia]. }
  exists (chunk <$> seq 0 (Z.to_nat S)). split; [exact Hall |].
  by apply (shard_chunks_reassemble copier S).
Qed.

End ShardsBelow2_53.

Lemma compute_shard_q_r_below_2_53_witness :
  (1 <= 2 -> TRAIN.compute_shard_q_r 5 2 = Py.Ok (5 / 2, 5 mod 2)) /\
  TRAIN.compute_shard_q_r 5 0 = Py.Raise Py.ZeroDivisionError.
Proof. apply (compute_shard_q_r_below_2_53 5 2). lia. Defined.

Lemma compute_shard_balanced_witness :
  let dump := [Byte.x61; Byte.x62; Byte.x63; Byte.x64; Byte.x65] in
  let self := TRAIN.CopierClass_init (snapshot := unit) 1 0 2 in
  exists left_ right_,
    TRAIN.compute_shard self dump = Py.Ok (left_, right_) /\
    left_ = 0 * (5 / 2) + Z.min 0 (5 mod 2) /\
    right_ + 1 - left_ = 5 / 2 + (if 0 <? 5 mod 2 then 1 else 0) /\
    0 <= left_ /\ right_ < 5 /\
    forall self' : @TRAIN.CopierClass unit,
      TRAIN.shard_size self' = 2 -> TRAIN.shard_rank self' = 0 + 1 ->
      exists right', TRAIN.compute_shard self' dump = Py.Ok (right_ + 1, right').
Proof.
  intros dump self.
  apply (compute_shard_balanced self dump); [by vm_compute | simpl; lia | simpl; lia].
Defined.

Lemma shard_chunks_rebuild_dump_witness :
  let dump := [Byte.x61; Byte.x62; Byte.x63; Byte.x64; Byte.x65] in
  exists chunks : list bytes,
    Forall2 (fun (r : nat) c =>
               TRAIN.shard_chunk (TRAIN.CopierClass_init (snapshot := unit) 1
                                    (Z.of_nat r) 2) dump = Py.Ok c)
      (seq 0 (Z.to_nat 2)) chunks /\
    concat chunks = dump.
Proof.
  intros dump.
  apply (shard_chunks_rebuild_dump
           (fun r => TRAIN.CopierClass_init (snapshot := unit) 1 r 2) 2 dump);
    [by vm_compute | lia | done].
Defined.

Example two_shards_uneven :
  let dump := [Byte.x61; Byte.x62; Byte.x63; Byte.x64; Byte.x65] in
  TRAIN.shard_chunk (TRAIN.CopierClass_init (snapshot := unit) 1 0 2) dump
    = Py.Ok [Byte.x61; Byte.x62; Byte.x63] /\
  TRAIN.shard_chunk (TRAIN.CopierClass_init (snapshot := unit) 1 1 2) dump
    = Py.Ok [Byte.x64; Byte.x65].
Proof. split; reflexivity. Qed.

Example empty_shard :
  TRAIN.shard_chunk (TRAIN.CopierClass_init (snapshot := unit) 1 2 3)
    [Byte.x61; Byte.x62] = Py.Ok [].
Proof. reflexivity. Qed.


(** ** The Copier's worker and the Sender *)

Section Worker.

Context {snapshot : Type} (torch_save : snapshot -> bytes).
Implicit Types (self : @TRAIN.CopierClass snapshot) (queue : list bytes).

(** X4: one iteration of the Copier's worker.  With an empty handoff slot
    the worker does not move.  With a snapshot in the slot it serializes it,
    empties the slot and sets the completion flag, all before anything is
    enqueued, and then appends this shard's chunk of the dump to the Sender's
    queue and has one iteration less to run. *)
Theorem method_iteration self queue (n : nat) (obj : snapshot) (chunk : bytes) :
  TRAIN.iterations self = S n ->
  TRAIN.pc self = TRAIN.AtWait ->
  TRAIN.shard_chunk self (torch_save obj) = Py.Ok chunk ->
  (TRAIN.buffer self = None -> TRAIN.method_step torch_save self queue = None) /\
  (TRAIN.buffer self = Some obj ->
   TRAIN.method_steps torch_save 3 self queue
   = Some (Py.Ok (TRAIN.BuildCopier (TRAIN.save_count self) (TRAIN.shard_rank self)
                    (TRAIN.shard_size self) true (TRAIN.is_copy_complete_attr self)
                    None (S n) (TRAIN.AtShard (torch_save obj)), queue)) /\
   TRAIN.method_steps torch_save 4 self queue
   = Some (Py.Ok (TRAIN.BuildCopier (TRAIN.save_count self) (TRAIN.shard_rank self)
                    (TRAIN.shard_size self) true (TRAIN.is_copy_complete_attr self)
                    None n TRAIN.AtWait, queue ++ [chunk]))).
Proof.
  intros Hn Hpc Hchunk.
  destruct self as [sc sr ss flag attr buf its pc_]. simpl in *. subst its pc_.
  split; [intros ->; reflexivity |].
  intros ->. split; [reflexivity |].
  cbn. unfold TRAIN.shard_chunk, TRAIN.compute_shard in *. cbn in *.
  rewrite Hchunk. reflexivity.
Qed.

(** X5: the worker's life is [save_count] iterations.  In every state the
    Copier can reach, its three parameters are the ones it was built with,
    the chunks enqueued so far and the iterations left add up to
    [save_count] (0 for a negative one), and once no iteration is left the
    worker never moves again. *)
Theorem worker_enqueues_save_count (save_count shard_rank shard_size : Z) self queue :
  TRAIN.reachable torch_save save_count shard_rank shard_size self queue ->
  TRAIN.save_count self = save_count /\
  TRAIN.shard_rank self = shard_rank /\
  TRAIN.shard_size self = shard_size /\
  (length queue + TRAIN.iterations self = Z.to_nat save_count)%nat /\
  (TRAIN.iterations self = 0%nat -> TRAIN.method_step torch_save self queue = None).
Proof.
  intros Hreach.
  assert (Hinv : TRAIN.save_count self = save_count /\
                 TRAIN.shard_rank self = shard_rank /\
                 TRAIN.shard_size self = shard_size /\
                 (length queue + TRAIN.iterations self = Z.to_nat save_count)%nat).
  { induction Hreach as [| self queue obj self' _ IH Hreq
                         | self queue self' queue' _ IH Hstep].
    - cbn. repeat split; lia.
    - unfold TRAIN.request in Hreq.
      destruct (TRAIN.wait_copy_complete self); [| discriminate].
      destruct (TRAIN.is_copy_complete self); by injection Hreq as <-.
    - unfold TRAIN.method_step in Hstep.
      destruct IH as (Hsc & Hsr & Hss & Hlen).
      destruct (TRAIN.iterations self) as [|n] eqn:Hn; [discriminate |].
      destruct (TRAIN.pc self) as [| bb | bb | dump].
      + destruct (TRAIN.buffer self); [| discriminate].
        injection Hstep as <- <-. cbn. done.
      + injection Hstep as <- <-. cbn. done.
      + injection Hstep as <- <-. cbn. done.
      + destruct (TRAIN.shard_chunk self dump); [| discriminate].
        injection Hstep as <- <-. cbn. rewrite length_app. cbn.
        repeat split; try done. lia. }
  destruct Hinv as (? & ? & ? & ?). repeat split; try done.
  intros Hzero. unfold TRAIN.method_step. by rewrite Hzero.
Qed.

End Worker.

Lemma method_iteration_witness :
  let self := TRAIN.BuildCopier 2 0 1 true None (Some [Byte.x01; Byte.x02]) 2
                TRAIN.AtWait in
  TRAIN.method_steps (fun b : bytes => b) 4 self []
  = Some (Py.Ok (TRAIN.BuildCopier 2 0 1 true None None 1 TRAIN.AtWait,
                 [[Byte.x01; Byte.x02]])).
Proof.
  intros self.
  destruct (method_iteration (fun b : bytes => b) self [] 1
              [Byte.x01; Byte.x02] [Byte.x01; Byte.x02]) as [_ Hrun];
    [reflexivity | reflexivity | reflexivity |].
  destruct Hrun as [_ Hrun]; [reflexivity |]. exact Hrun.
Defined.

(** A Copier built for one save, after the trainer's [request] and the
    worker's whole iteration: the chunk is queued and the worker is done. *)
Lemma worker_enqueues_save_count_witness :
  let obj := [Byte.x01; Byte.x02] in
  let self := TRAIN.BuildCopier (snapshot := bytes) 1 0 1 true (Some false) None 0
                TRAIN.AtWait in
  let queue := [obj] in
  TRAIN.request (TRAIN.CopierClass_init 1 0 1) obj
  = Some (TRAIN.BuildCopier 1 0 1 true (Some false) (Some obj) 1 TRAIN.AtWait) /\
  TRAIN.method_steps (fun b : bytes => b) 4
    (TRAIN.BuildCopier 1 0 1 true (Some false) (Some obj) 1 TRAIN.AtWait) []
  = Some (Py.Ok (self, queue)) /\
  TRAIN.save_count self = 1 /\ TRAIN.shard_rank self = 0 /\
  TRAIN.shard_size self = 1 /\
  (length queue + TRAIN.iterations self = Z.to_nat 1)%nat /\
  (TRAIN.iterations self = 0%nat ->
   TRAIN.method_step (fun b : bytes => b) self queue = None).
Proof.
  intros obj self queue.
  split; [reflexivity |]. split; [reflexivity |].
  apply (worker_enqueues_save_count (fun b : bytes => b) 1 0 1 self queue).
  pose proof (TRAIN.reachable_init (fun b : bytes => b) 1 0 1) as Hinit.
  pose proof (TRAIN.reachable_request (fun b : bytes => b) 1 0 1 _ _ obj
                (TRAIN.BuildCopier 1 0 1 true (Some false) (Some obj) 1 TRAIN.AtWait)
                Hinit eq_refl) as Hrequest.
  pose proof (TRAIN.reachable_method (fun b : bytes => b) 1 0 1 _ _
                (TRAIN.BuildCopier 1 0 1 true (Some false) (Some obj) 1
                   (TRAIN.AtClear obj)) []
                Hrequest eq_refl) as Hdump.
  pose proof (TRAIN.reachable_method (fun b : bytes => b) 1 0 1 _ _
                (TRAIN.BuildCopier 1 0 1 true (Some false) None 1
                   (TRAIN.AtRelease obj)) []
                Hdump eq_refl) as Hclear.
  pose proof (TRAIN.reachable_method (fun b : bytes => b) 1 0 1 _ _
                (TRAIN.BuildCopier 1 0 1 true (Some false) None 1
                   (TRAIN.AtShard obj)) []
                Hclear eq_refl) as Hrelease.
  exact (TRAIN.reachable_method (fun b : bytes => b) 1 0 1 _ _ self queue
           Hrelease eq_refl).
Defined.

Section Sender.

(** X6: the Sender is a FIFO to the remote sink.  Run for [k] steps it
    sends the first [m] chunks of its queue, in order, each to rank
    [size - 1] with tag 0, where [m] is the smallest of [k], the iterations it
    has left and the length of the queue; the other chunks stay queued. *)
Theorem sender_steps_fifo (comm : MPI.MPI) (k : nat) (self : TRAIN.SenderClass) :
  let m := (k `min` (TRAIN.sender_iterations self `min` length (TRAIN.queue self)))%nat in
  TRAIN.sender_steps comm k self
  = (TRAIN.BuildSender (drop m (TRAIN.queue self))
       (TRAIN.sender_iterations self - m),
     (fun data => (MPI.size comm - 1, 0, data)) <$> take m (TRAIN.queue self)).
Proof.
  revert self. induction k as [|k IH]; intros [q its]; cbn.
  { rewrite Nat.sub_0_r. done. }
  unfold TRAIN.sender_step. cbn.
  destruct its as [|its]; [done |].
  destruct q as [|data rest]; cbn; [done |].
  rewrite IH. cbn. done.
Qed.

End Sender.

(** ** The training node's protocol *)

Section Protocol.

Context {snapshot : Type}.

(** X7: misuse of a training node fails an assertion.  On a node as
    [TRAIN(...)] builds it, [save] before [start] raises [AssertionError];
    [start] succeeds and marks the node running; a second [start] raises
    [AssertionError]. *)
Theorem train_node_misuse (comm : MPI.MPI) (save_count shard_rank shard_size : Z)
    (obj : snapshot) :
  let node := TRAIN.init comm save_count shard_rank shard_size in
  TRAIN.save node obj
  = Some (Py.Raise (Py.AssertionError
      "You have not started the module yet. Please start the module first using init_ACUTE() or start().")) /\
  exists node' threads,
    TRAIN.start node = Py.Ok (node', threads) /\
    TRAIN.is_running node' = true /\
    TRAIN.start node'
    = Py.Raise (Py.AssertionError "This train node already started.").
Proof.
  intros node. split; [reflexivity |].
  unfold TRAIN.start, node. cbn.
  destruct ((0 <=? shard_rank) && (shard_rank <? shard_size));
    eexists _, _; done.
Qed.

(** X8: who takes part in checkpointing.  [start] starts the Sender and
    the Copier thread exactly when [0 <= shard_rank < shard_size].  On the
    started node, [save] leaves a node with a negative shard rank as it is;
    with any other shard rank it puts the snapshot into the Copier's slot,
    also when [shard_rank >= shard_size] and no thread runs to take it out. *)
Theorem train_node_roles (comm : MPI.MPI) (save_count shard_rank shard_size : Z)
    (obj : snapshot) :
  exists node threads,
    TRAIN.start (TRAIN.init comm save_count shard_rank shard_size)
      = Py.Ok (node, threads) /\
    (threads = [TRAIN.SenderThread; TRAIN.CopierThread]
       <-> 0 <= shard_rank < shard_size) /\
    (threads = [] <-> ~ 0 <= shard_rank < shard_size) /\
    (shard_rank < 0 -> TRAIN.save node obj = Some (Py.Ok node)) /\
    (0 <= shard_rank ->
     exists node', TRAIN.save node obj = Some (Py.Ok node') /\
       TRAIN.buffer (TRAIN.Copier node') = Some obj /\
       TRAIN.Sender node' = TRAIN.Sender node).
Proof.
  unfold TRAIN.start, TRAIN.init, TRAIN.save, TRAIN.request. cbn.
  destruct (Z.leb_spec 0 shard_rank) as [Hge | Hlt];
    destruct (Z.ltb_spec shard_rank shard_size) as [Hin | Hout]; cbn;
    eexists _, _; (split; [reflexivity |]); cbn.
  - destruct (Z.leb_spec 0 shard_rank); [| lia].
    split; [split; [lia | done] |]. split; [split; [done | lia] |].
    split; [lia |]. intros _. eexists. done.
  - destruct (Z.leb_spec 0 shard_rank); [| lia].
    split; [split; [done | lia] |]. split; [split; [lia | done] |].
    split; [lia |]. intros _. eexists. done.
  - destruct (Z.leb_spec 0 shard_rank); [lia |].
    split; [split; [done | lia] |]. split; [split; [lia | done] |].
    split; [done | lia].
  - destruct (Z.leb_spec 0 shard_rank); [lia |].
    split; [split; [done | lia] |]. split; [split; [lia | done] |].
    split; [done | lia].
Qed.

End Protocol.


(** ** The remote ring *)

Section Ring.

Implicit Types (self : REMOTE.REMOTE) (now : REMOTE.datetime).

Lemma join_bytes (bs : list bytes) :
  REMOTE.join (REMOTE.CellBytes <$> bs) = Py.Ok (concat bs).
Proof.
  induction bs as [|b bs IH]; [done |]. cbn. by rewrite IH.
Qed.

Lemma join_missing (cells : list REMOTE.cell) :
  REMOTE.CellInit ∈ cells -> REMOTE.join cells = Py.Raise Py.TypeError.
Proof.
  induction cells as [|c cells IH]; [by intros ?%elem_of_nil |].
  intros [<- | Hin]%elem_of_cons; [done |].
  destruct c; [done |]. cbn. by rewrite IH.
Qed.

(** X9: the Flusher never writes a slot with a shard missing.  Joining
    cells that all hold chunks gives their concatenation in shard order; if a
    cell still holds the constructor's [0], the join raises [TypeError], and
    so does the Flusher's step, which is before the dirty bit is cleared and
    before any write. *)
Theorem flusher_needs_every_shard self now (i : Z) (n : nat)
    (cells : list REMOTE.cell) :
  REMOTE.flusher_iterations self = S n ->
  REMOTE.flusher_at self = REMOTE.AtJoin i ->
  0 <= i -> REMOTE.remote_buffer self !! Z.to_nat i = Some cells ->
  (forall bs, cells = REMOTE.CellBytes <$> bs ->
     exists self', REMOTE.flusher_step now self = Some (Py.Ok self') /\
       REMOTE.flusher_at self' = REMOTE.AtClearDirty i (concat bs) /\
       REMOTE.dirty_bits self' = REMOTE.dirty_bits self /\
       REMOTE.files self' = REMOTE.files self) /\
  (REMOTE.CellInit ∈ cells ->
     REMOTE.flusher_step now self = Some (Py.Raise Py.TypeError)).
Proof.
  intros Hn Hat Hi Hcells. unfold REMOTE.flusher_step. rewrite Hn, Hat.
  rewrite (getitem_lookup _ i cells) by done. rewrite bind_Ok.
  split.
  - intros bs ->. rewrite join_bytes. eexists. split; [reflexivity |]. done.
  - intros Hin. by rewrite join_missing.
Qed.

(** The Receivers fill a slot cell by cell. *)
Lemma store_chunks_eq (chunks : list bytes) (slot : list REMOTE.cell) (r : nat) :
  (r + length chunks <= length slot)%nat ->
  REMOTE.store_chunks slot (Z.of_nat r) chunks
  = Py.Ok (take r slot ++ (REMOTE.CellBytes <$> chunks)
             ++ drop (r + length chunks) slot).
Proof.
  revert slot r. induction chunks as [|c chunks IH]; intros slot r Hlen; cbn.
  { rewrite Nat.add_0_r, take_drop. done. }
  cbn in Hlen. rewrite setitem_insert by lia. rewrite bind_Ok.
  replace (Z.of_nat r + 1) with (Z.of_nat (S r)) by lia.
  rewrite IH by (rewrite length_insert; lia).
  rewrite Nat2Z.id. f_equal.
  rewrite (take_S_r _ r (REMOTE.CellBytes c))
    by (apply list_lookup_insert_eq; lia).
  rewrite take_insert_ge by lia. rewrite drop_insert_lt by lia.
  rewrite <- app_assoc. cbn.
  by replace (S (r + length chunks)) with (r + S (length chunks))%nat by lia.
Qed.

(** One iteration of the Master's loop on a free slot. *)
Lemma master_cycle_eq self (chunks : list bytes) (slot : list REMOTE.cell) :
  let idx := REMOTE.remote_buffer_index self in
  REMOTE.remote_buffer_size self <> 0 ->
  0 <= idx ->
  REMOTE.dirty_bits self !! Z.to_nat idx = Some 0 ->
  REMOTE.remote_buffer self !! Z.to_nat idx = Some slot ->
  length slot = length chunks ->
  REMOTE.master_cycle chunks self
  = Some (Py.Ok (REMOTE.Build (REMOTE.comm self) (REMOTE.save_count self)
      (REMOTE.remote_buffer_size self) (REMOTE.SHARD_SIZE self)
      (REMOTE.model_name self) (REMOTE.file_name_include_datetime self)
      (REMOTE.file_save_in_dictionary self) (REMOTE.is_running self)
      (<[Z.to_nat idx := 1]> (REMOTE.dirty_bits self))
      (<[Z.to_nat idx := REMOTE.CellBytes <$> chunks]> (REMOTE.remote_buffer self))
      ((idx + 1) mod REMOTE.remote_buffer_size self)
      (REMOTE.flusher_queue self ++ [idx])
      (REMOTE.flusher_iterations self) (REMOTE.flusher_at self)
      (REMOTE.files self))).
Proof.
  intros idx HK Hidx Hbit Hslot Hlen.
  destruct self as [c sc K SS mn incl dict run bits buf i q its at_ fs].
  cbn in *. subst idx.
  pose proof (lookup_lt_Some _ _ _ Hbit) as Hb.
  pose proof (lookup_lt_Some _ _ _ Hslot) as Hs.
  unfold REMOTE.master_cycle. cbn.
  rewrite (getitem_lookup bits i 0) by done. cbn.
  unfold REMOTE.set_dirty_bit. cbn.
  rewrite setitem_insert by lia. rewrite bind_Ok. cbn.
  rewrite (getitem_lookup buf i slot) by done. rewrite bind_Ok.
  pose proof (store_chunks_eq chunks slot 0 ltac:(lia)) as Hstore.
  change (Z.of_nat 0) with 0 in Hstore. rewrite Hstore, bind_Ok.
  rewrite setitem_insert by lia. rewrite bind_Ok.
  unfold Py.mod_. destruct (Z.eqb_spec K 0); [done |]. rewrite bind_Ok.
  cbn. rewrite drop_ge by lia. rewrite app_nil_r. done.
Qed.

(** X10: one iteration of the Master's loop.  When the dirty bit of the
    current slot is set the Master spins.  When it is 0, the Master sets it,
    the Receivers replace the slot's cells by the chunks received, in shard
    order, the slot index is queued for the Flusher, and the current index
    moves to the next slot of the ring; the other slots and dirty bits, and
    the files, stay as they are. *)
Theorem master_cycle_claims_slot self (chunks : list bytes)
    (slot : list REMOTE.cell) (bit : Z) :
  let idx := REMOTE.remote_buffer_index self in
  REMOTE.remote_buffer_size self <> 0 ->
  0 <= idx ->
  REMOTE.dirty_bits self !! Z.to_nat idx = Some bit ->
  REMOTE.remote_buffer self !! Z.to_nat idx = Some slot ->
  length slot = length chunks ->
  (bit <> 0 -> REMOTE.master_cycle chunks self = None) /\
  (bit = 0 ->
   exists self',
     REMOTE.master_cycle chunks self = Some (Py.Ok self') /\
     REMOTE.dirty_bits self' = <[Z.to_nat idx := 1]> (REMOTE.dirty_bits self) /\
     REMOTE.remote_buffer self'
       = <[Z.to_nat idx := REMOTE.CellBytes <$> chunks]> (REMOTE.remote_buffer self) /\
     REMOTE.flusher_queue self' = REMOTE.flusher_queue self ++ [idx] /\
     REMOTE.remote_buffer_index self'
       = (idx + 1) mod REMOTE.remote_buffer_size self /\
     REMOTE.files self' = REMOTE.files self /\
     REMOTE.flusher_at self' = REMOTE.flusher_at self /\
     REMOTE.flusher_iterations self' = REMOTE.flusher_iterations self).
Proof.
  intros idx HK Hidx Hbit Hslot Hlen. split.
  - intros Hne. unfold REMOTE.master_cycle. fold idx.
    rewrite (getitem_lookup _ idx bit) by done.
    by rewrite (proj2 (Z.eqb_neq bit 0)).
  - intros ->. rewrite (master_cycle_eq self chunks slot) by done.
    eexists. split; [reflexivity |]. done.
Qed.

End Ring.

Lemma flusher_needs_every_shard_witness :
  let self := REMOTE.with_flusher Examples.remote_handed_over [] 1
                (REMOTE.AtJoin 0) ∅ in
  exists self', REMOTE.flusher_step Examples.now self = Some (Py.Ok self') /\
    REMOTE.flusher_at self' = REMOTE.AtClearDirty 0 (concat [[Byte.x01; Byte.x02]]) /\
    REMOTE.dirty_bits self' = REMOTE.dirty_bits self /\
    REMOTE.files self' = REMOTE.files self.
Proof.
  intros self.
  destruct (flusher_needs_every_shard self Examples.now 0 0
              [REMOTE.CellBytes [Byte.x01; Byte.x02]]) as [Hok _];
    [reflexivity | reflexivity | lia | reflexivity |].
  by apply (Hok [[Byte.x01; Byte.x02]]).
Defined.

Lemma master_cycle_claims_slot_witness :
  exists self',
    REMOTE.master_cycle [[Byte.x01; Byte.x02]] (Examples.remote false false)
      = Some (Py.Ok self') /\
    REMOTE.dirty_bits self' = [1] /\
    REMOTE.remote_buffer self' = [[REMOTE.CellBytes [Byte.x01; Byte.x02]]] /\
    REMOTE.flusher_queue self' = [0] /\
    REMOTE.remote_buffer_index self' = 0.
Proof.
  destruct (master_cycle_claims_slot (Examples.remote false false)
              [[Byte.x01; Byte.x02]] [REMOTE.CellInit] 0) as [_ Hfree];
    [discriminate | reflexivity | reflexivity | reflexivity | reflexivity |].
  destruct Hfree as (self' & Hrun & Hbits & Hbuf & Hq & Hidx & _); [reflexivity |].
  exists self'. rewrite Hrun, Hbits, Hbuf, Hq, Hidx. done.
Defined.

Section RingCycles.

Implicit Types (self : REMOTE.REMOTE) (now : REMOTE.datetime).

Lemma insert_at_boundary {A : Type} (l1 l2 : list A) (x y : A) (j : nat) :
  length l1 = j -> <[j := x]> (l1 ++ y :: l2) = (l1 ++ [x]) ++ l2.
Proof.
  intros <-. rewrite <- (Nat.add_0_r (length l1)), insert_app_r.
  by rewrite <- app_assoc.
Qed.

Lemma master_loop_nil (m : nat) self :
  REMOTE.master_loop m [] self = Some (Py.Ok (self, m)).
Proof. by destruct m. Qed.

(** The ring after [j] cycles of the Master and none of the Flusher: with
    room for them in the ring and in the loop, the next cycles fill the next
    slots. *)
Lemma ring_fill (comm : MPI.MPI) (sc K SS : Z) (mn incl dict : Py.pyval)
    (rest more filled : list (list bytes)) (j m : nat) :
  length filled = j ->
  (j + length rest <= Z.to_nat K)%nat ->
  Forall (fun chunks => length chunks = Z.to_nat SS) rest ->
  REMOTE.master_loop (length rest + m) (rest ++ more)
    (REMOTE.Build comm sc K SS mn incl dict false
       (replicate j 1 ++ replicate (Z.to_nat K - j) 0)
       (((fun chunks : list bytes => REMOTE.CellBytes <$> chunks) <$> filled)
        ++ replicate (Z.to_nat K - j) (replicate (Z.to_nat SS) REMOTE.CellInit))
       (Z.of_nat j mod K) (seqZ 0 (Z.of_nat j)) (Z.to_nat sc) REMOTE.AtGet ∅)
  = REMOTE.master_loop m more
    (REMOTE.Build comm sc K SS mn incl dict false
       (replicate (j + length rest) 1
        ++ replicate (Z.to_nat K - (j + length rest)) 0)
       (((fun chunks : list bytes => REMOTE.CellBytes <$> chunks) <$> (filled ++ rest))
        ++ replicate (Z.to_nat K - (j + length rest))
             (replicate (Z.to_nat SS) REMOTE.CellInit))
       (Z.of_nat (j + length rest) mod K) (seqZ 0 (Z.of_nat (j + length rest)))
       (Z.to_nat sc) REMOTE.AtGet ∅).
Proof.
  revert filled j. induction rest as [|chunks rest IH]; intros filled j Hj Hle Hall.
  { cbn [length app Nat.add]. rewrite Nat.add_0_r, app_nil_r. done. }
  apply Forall_cons in Hall as [Hchunks Hall].
  assert (Hlt : (j < Z.to_nat K)%nat) by (cbn in Hle; lia).
  replace (j + length (chunks :: rest))%nat with (S j + length rest)%nat
    by (cbn; lia).
  replace (filled ++ chunks :: rest) with ((filled ++ [chunks]) ++ rest)
    by (by rewrite <- app_assoc).
  rewrite <- (IH (filled ++ [chunks]) (S j));
    [| rewrite length_app; cbn; lia | cbn in Hle; lia | done].
  change (length (chunks :: rest) + m)%nat with (S (length rest + m)).
  change ((chunks :: rest) ++ more) with (chunks :: (rest ++ more)).
  cbn [REMOTE.master_loop].
  assert (Hmod : Z.of_nat j mod K = Z.of_nat j) by (apply Z.mod_small; lia).
  replace (Z.to_nat K - j)%nat with (S (Z.to_nat K - S j)) by lia.
  rewrite (master_cycle_eq _ chunks (replicate (Z.to_nat SS) REMOTE.CellInit)).
  2:{ cbn. lia. }
  2:{ cbn. lia. }
  2:{ cbn. rewrite Hmod, Nat2Z.id.
      rewrite lookup_app_r by (rewrite length_replicate; lia).
      rewrite length_replicate, Nat.sub_diag. done. }
  2:{ cbn. rewrite Hmod, Nat2Z.id.
      rewrite lookup_app_r by (rewrite !length_fmap; lia).
      rewrite !length_fmap, Hj, Nat.sub_diag. done. }
  2:{ by rewrite length_replicate. }
  cbn [REMOTE.comm REMOTE.save_count REMOTE.remote_buffer_size REMOTE.SHARD_SIZE
       REMOTE.model_name REMOTE.file_name_include_datetime
       REMOTE.file_save_in_dictionary REMOTE.is_running REMOTE.dirty_bits
       REMOTE.remote_buffer REMOTE.remote_buffer_index REMOTE.flusher_queue
       REMOTE.flusher_iterations REMOTE.flusher_at REMOTE.files].
  rewrite Hmod, Nat2Z.id.
  change (replicate (S (Z.to_nat K - S j)) 0)
    with (0 :: replicate (Z.to_nat K - S j) 0).
  change (replicate (S (Z.to_nat K - S j)) (replicate (Z.to_nat SS) REMOTE.CellInit))
    with (replicate (Z.to_nat SS) REMOTE.CellInit
          :: replicate (Z.to_nat K - S j) (replicate (Z.to_nat SS) REMOTE.CellInit)).
  rewrite insert_at_boundary by (by rewrite length_replicate).
  rewrite insert_at_boundary by (by rewrite !length_fmap).
  rewrite fmap_app.
  replace (replicate j 1 ++ [1]) with (replicate (S j) 1)
    by (by rewrite replicate_S_end).
  replace (seqZ 0 (Z.of_nat j) ++ [Z.of_nat j]) with (seqZ 0 (Z.of_nat (S j)))
    by (by rewrite seqZ_S).
  replace (Z.of_nat j + 1) with (Z.of_nat (S j)) by lia.
  done.
Qed.

Context {machine : Py.Machine}.

(** X11: back-pressure.  On a remote node as [REMOTE(...)] builds it, with
    a ring of [K >= 1] slots that the machine has room for and more than [K]
    saves to take, the Master can run [K] cycles of its loop before the
    Flusher has released anything: every dirty bit is then set, the slots
    hold the [K] cycles' chunks, the Flusher's queue lists the slots in
    order, the current index is back at 0, [save_count - K] iterations are
    left, and the Master spins in the next one whatever it would receive. *)
Theorem ring_back_pressure (comm : MPI.MPI) (save_count K S : Z)
    (model_name datetime_flag directory_flag : Py.pyval)
    (cycles : list (list bytes)) :
  1 <= K -> K < save_count ->
  K <= Py.list_limit -> S <= Py.list_limit ->
  length cycles = Z.to_nat K ->
  Forall (fun chunks => length chunks = Z.to_nat S) cycles ->
  exists node self,
    REMOTE.new comm save_count K S model_name datetime_flag directory_flag
      = Py.Ok node /\
    REMOTE.master_cycles cycles node
      = Some (Py.Ok (self, Z.to_nat (save_count - K))) /\
    REMOTE.dirty_bits self = replicate (Z.to_nat K) 1 /\
    REMOTE.remote_buffer self = ((fun chunks : list bytes => REMOTE.CellBytes <$> chunks) <$> cycles) /\
    REMOTE.flusher_queue self = seqZ 0 K /\
    REMOTE.remote_buffer_index self = 0 /\
    REMOTE.files self = ∅ /\
    forall chunks, REMOTE.master_cycles (cycles ++ [chunks]) node = None.
Proof.
  intros HK Hsaves HKfits HSfits Hlen Hall.
  rewrite new_fits by done.
  assert (Hrun : forall more,
    REMOTE.master_cycles (cycles ++ more)
      (REMOTE.init comm save_count K S model_name datetime_flag directory_flag)
    = REMOTE.master_loop (Z.to_nat (save_count - K)) more
        (REMOTE.Build comm save_count K S model_name datetime_flag directory_flag
           false (replicate (Z.to_nat K) 1)
           ((fun chunks : list bytes => REMOTE.CellBytes <$> chunks) <$> cycles)
           0 (seqZ 0 K) (Z.to_nat save_count) REMOTE.AtGet ∅)).
  { intros more.
    pose proof (ring_fill comm save_count K S model_name datetime_flag directory_flag
                  cycles more [] 0 (Z.to_nat (save_count - K))
                  eq_refl ltac:(lia) Hall) as Hfill.
    cbn [fmap list_fmap replicate app Nat.add] in Hfill.
    rewrite Nat.sub_0_r, Z.mod_0_l in Hfill by lia.
    change (seqZ 0 (Z.of_nat 0)) with (@nil Z) in Hfill.
    rewrite Hlen, Nat.sub_diag, Z2Nat.id, Z.mod_same in Hfill by lia.
    cbn [replicate] in Hfill. rewrite !app_nil_r in Hfill.
    replace (Z.to_nat K + Z.to_nat (save_count - K))%nat
      with (Z.to_nat save_count) in Hfill by lia.
    exact Hfill. }
  eexists _, _. split; [reflexivity |]. split.
  { rewrite <- (app_nil_r cycles) at 1. rewrite Hrun. apply master_loop_nil. }
  cbn [REMOTE.dirty_bits REMOTE.remote_buffer REMOTE.flusher_queue
       REMOTE.remote_buffer_index REMOTE.files].
  repeat split; try done.
  intros chunks. rewrite Hrun.
  destruct (Z.to_nat (save_count - K)) as [|m] eqn:Hm; [lia |].
  cbn [REMOTE.master_loop]. unfold REMOTE.master_cycle.
  cbn [REMOTE.dirty_bits REMOTE.remote_buffer_index].
  destruct (Z.to_nat K) as [|k] eqn:HkK; [lia |]. reflexivity.
Qed.

End RingCycles.

Lemma ring_back_pressure_witness :
  exists node self,
    REMOTE.new (machine := Examples.machine) (MPI.Build 1 2 (Some [0])) 5 2 1
      (Py.VStr "model") (Py.VBool false) (Py.VBool false) = Py.Ok node /\
    REMOTE.master_cycles [[[Byte.x01]]; [[Byte.x02]]] node = Some (Py.Ok (self, 3%nat)) /\
    REMOTE.dirty_bits self = [1; 1] /\
    REMOTE.flusher_queue self = [0; 1] /\
    forall chunks,
      REMOTE.master_cycles [[[Byte.x01]]; [[Byte.x02]]; chunks] node = None.
Proof.
  destruct (ring_back_pressure (machine := Examples.machine)
              (MPI.Build 1 2 (Some [0])) 5 2 1 (Py.VStr "model")
              (Py.VBool false) (Py.VBool false) [[[Byte.x01]]; [[Byte.x02]]])
    as (node & self & Hnew & Hrun & Hbits & _ & Hq & _ & _ & Hspin);
    [lia | lia | by vm_compute | by vm_compute | reflexivity | by repeat constructor |].
  exists node, self. rewrite Hnew, Hrun, Hbits, Hq. done.
Defined.


(** ** A checkpoint cycle, end to end *)

Section Cycle.

Implicit Types (self : REMOTE.REMOTE) (now : REMOTE.datetime).

(** The five steps of one Flusher iteration, run together. *)
Lemma flusher_iteration_run self now (i : Z) (rest : list Z) (n : nat)
    (cells : list REMOTE.cell) (data : bytes) (path : string) :
  REMOTE.flusher_iterations self = S n ->
  REMOTE.flusher_at self = REMOTE.AtGet ->
  REMOTE.flusher_queue self = i :: rest ->
  0 <= i < Z.of_nat (length (REMOTE.dirty_bits self)) ->
  REMOTE.remote_buffer self !! Z.to_nat i = Some cells ->
  REMOTE.join cells = Py.Ok data ->
  REMOTE.get_file_name_and_path self now = Py.Ok path ->
  REMOTE.flusher_steps now 5 self
  = Some (Py.Ok (REMOTE.Build (REMOTE.comm self) (REMOTE.save_count self)
      (REMOTE.remote_buffer_size self) (REMOTE.SHARD_SIZE self)
      (REMOTE.model_name self) (REMOTE.file_name_include_datetime self)
      (REMOTE.file_save_in_dictionary self) (REMOTE.is_running self)
      (<[Z.to_nat i := 0]> (REMOTE.dirty_bits self))
      (REMOTE.remote_buffer self) (REMOTE.remote_buffer_index self)
      rest n REMOTE.AtGet (<[path := data]> (REMOTE.files self)))).
Proof.
  intros Hn Hat Hq Hi Hcells Hjoin Hname.
  destruct self as [c sc K SS mn incl dict run bits buf idx q its at_ fs].
  cbn in *. subst its at_ q.
  unfold REMOTE.flusher_step. cbn.
  rewrite (getitem_lookup buf i cells) by (done || lia).
  rewrite bind_Ok, Hjoin. cbn.
  unfold REMOTE.clear_dirty_bit. cbn.
  rewrite setitem_insert by done. cbn.
  unfold REMOTE.get_file_name_and_path in *. cbn in *. rewrite Hname. cbn.
  reflexivity.
Qed.

End Cycle.

Section RoundTrip.

Context {snapshot : Type}.
Implicit Types (self : REMOTE.REMOTE) (now : REMOTE.datetime).

(** X12: a checkpoint arrives on disk as it was serialized.  Let [S >= 1]
    shard leaders cut their chunks from the same dump of fewer than [2^53]
    bytes, let the Master run one cycle on a free slot of [S] cells with
    these chunks, and let the Flusher, idle until then, run its five steps:
    the file the Flusher names then holds exactly the dump, the slot's dirty
    bit is 0 again, and the Flusher's queue is empty. *)
Theorem checkpoint_round_trip (copier : Z -> @TRAIN.CopierClass snapshot)
    (S : Z) (dump : bytes) (chunks : list bytes) self now
    (slot : list REMOTE.cell) (n : nat) (path : string) :
  Z.of_nat (length dump) < 2 ^ 53 -> 1 <= S ->
  (forall r, TRAIN.shard_size (copier r) = S /\ TRAIN.shard_rank (copier r) = r) ->
  Forall2 (fun (r : nat) c => TRAIN.shard_chunk (copier (Z.of_nat r)) dump = Py.Ok c)
    (seq 0 (Z.to_nat S)) chunks ->
  let idx := REMOTE.remote_buffer_index self in
  REMOTE.remote_buffer_size self <> 0 ->
  0 <= idx ->
  REMOTE.dirty_bits self !! Z.to_nat idx = Some 0 ->
  REMOTE.remote_buffer self !! Z.to_nat idx = Some slot ->
  length slot = Z.to_nat S ->
  REMOTE.flusher_iterations self = Datatypes.S n ->
  REMOTE.flusher_at self = REMOTE.AtGet ->
  REMOTE.flusher_queue self = [] ->
  REMOTE.get_file_name_and_path self now = Py.Ok path ->
  exists self1 self2,
    REMOTE.master_cycle chunks self = Some (Py.Ok self1) /\
    REMOTE.flusher_steps now 5 self1 = Some (Py.Ok self2) /\
    REMOTE.files self2 = <[path := dump]> (REMOTE.files self) /\
    REMOTE.dirty_bits self2 = REMOTE.dirty_bits self /\
    REMOTE.flusher_queue self2 = [] /\
    REMOTE.flusher_iterations self2 = n.
Proof.
  intros Hn HS Hcopier Hchunks idx HK Hidx Hbit Hslot Hlen Hits Hat Hq Hname.
  assert (Hconcat : concat chunks = dump)
    by (by apply (shard_chunks_reassemble copier S)).
  assert (Hcount : length chunks = Z.to_nat S).
  { apply Forall2_length in Hchunks. by rewrite length_seq in Hchunks. }
  pose proof (lookup_lt_Some _ _ _ Hbit) as Hb.
  pose proof (lookup_lt_Some _ _ _ Hslot) as Hs.
  rewrite (master_cycle_eq self chunks slot) by (done || congruence).
  eexists _, _. split; [reflexivity |].
  rewrite (flusher_iteration_run _ now idx [] n (REMOTE.CellBytes <$> chunks)
             dump path).
  - split; [reflexivity |]. cbn.
    rewrite list_insert_insert_eq, list_insert_id by done. done.
  - done.
  - done.
  - cbn. by rewrite Hq.
  - cbn. rewrite length_insert. fold idx. lia.
  - cbn. apply list_lookup_insert_eq. fold idx. lia.
  - by rewrite join_bytes, Hconcat.
  - exact Hname.
Qed.

End RoundTrip.

Lemma checkpoint_round_trip_witness :
  let dump := [Byte.x61; Byte.x62; Byte.x63; Byte.x64; Byte.x65] in
  let chunks := [[Byte.x61; Byte.x62; Byte.x63]; [Byte.x64; Byte.x65]] in
  let self := REMOTE.init (MPI.Build 2 3 (Some [0; 1])) 1 1 2 (Py.VStr "model")
                (Py.VBool false) (Py.VBool false) in
  exists self1 self2,
    REMOTE.master_cycle chunks self = Some (Py.Ok self1) /\
    REMOTE.flusher_steps Examples.now 5 self1 = Some (Py.Ok self2) /\
    REMOTE.files self2 = <["./model.pt.tar" := dump]> (REMOTE.files self) /\
    REMOTE.dirty_bits self2 = REMOTE.dirty_bits self /\
    REMOTE.flusher_queue self2 = [] /\
    REMOTE.flusher_iterations self2 = 0%nat.
Proof.
  intros dump chunks self.
  apply (checkpoint_round_trip
           (fun r => TRAIN.CopierClass_init (snapshot := unit) 1 r 2) 2 dump chunks
           self Examples.now [REMOTE.CellInit; REMOTE.CellInit] 0 "./model.pt.tar").
  - by vm_compute.
  - lia.
  - done.
  - repeat constructor.
  - discriminate.
  - reflexivity.
  - reflexivity.
  - reflexivity.
  - reflexivity.
  - reflexivity.
  - reflexivity.
  - reflexivity.
  - reflexivity.
Defined.

Section Overwrite.

Implicit Types (self : REMOTE.REMOTE) (now : REMOTE.datetime).

(** X13: without the datetime flag every cycle writes the same file.  If
    [file_name_include_datetime] is false and two slots are queued, the
    Flusher's two iterations, whenever they run, write to one path, and
    afterwards that file holds the second slot's data only. *)
Theorem undated_cycles_overwrite self now now' (i j : Z) (rest : list Z) (n : nat)
    (cells cells' : list REMOTE.cell) (data data' : bytes) (path : string) :
  Py.truthy (REMOTE.file_name_include_datetime self) = false ->
  REMOTE.flusher_iterations self = S (S n) ->
  REMOTE.flusher_at self = REMOTE.AtGet ->
  REMOTE.flusher_queue self = i :: j :: rest ->
  0 <= i < Z.of_nat (length (REMOTE.dirty_bits self)) ->
  0 <= j < Z.of_nat (length (REMOTE.dirty_bits self)) ->
  REMOTE.remote_buffer self !! Z.to_nat i = Some cells ->
  REMOTE.remote_buffer self !! Z.to_nat j = Some cells' ->
  REMOTE.join cells = Py.Ok data ->
  REMOTE.join cells' = Py.Ok data' ->
  REMOTE.get_file_name_and_path self now = Py.Ok path ->
  exists self1 self2,
    REMOTE.flusher_steps now 5 self = Some (Py.Ok self1) /\
    REMOTE.files self1 = <[path := data]> (REMOTE.files self) /\
    REMOTE.flusher_steps now' 5 self1 = Some (Py.Ok self2) /\
    REMOTE.files self2 = <[path := data']> (REMOTE.files self) /\
    REMOTE.files self2 !! path = Some data'.
Proof.
  intros Hflag Hits Hat Hq Hi Hj Hcells Hcells' Hjoin Hjoin' Hname.
  rewrite (flusher_iteration_run self now i (j :: rest) (S n) cells data path)
    by done.
  eexists _, _. split; [reflexivity |]. split; [reflexivity |].
  rewrite (flusher_iteration_run _ now' j rest n cells' data' path).
  - split; [reflexivity |]. cbn. rewrite insert_insert_eq.
    split; [done | apply lookup_insert_eq].
  - done.
  - done.
  - done.
  - cbn. by rewrite length_insert.
  - done.
  - done.
  - unfold REMOTE.get_file_name_and_path in *. cbn. rewrite Hflag in *. exact Hname.
Qed.

End Overwrite.

Lemma undated_cycles_overwrite_witness :
  let self := REMOTE.Build (MPI.Build 1 2 (Some [0])) 2 2 1 (Py.VStr "model")
                (Py.VBool false) (Py.VBool false) true [1; 1]
                [[REMOTE.CellBytes [Byte.x01]]; [REMOTE.CellBytes [Byte.x02]]]
                0 [0; 1] 2 REMOTE.AtGet ∅ in
  exists self1 self2,
    REMOTE.flusher_steps Examples.now 5 self = Some (Py.Ok self1) /\
    REMOTE.files self1 = <["./model.pt.tar" := [Byte.x01]]> (REMOTE.files self) /\
    REMOTE.flusher_steps Examples.now 5 self1 = Some (Py.Ok self2) /\
    REMOTE.files self2 = <["./model.pt.tar" := [Byte.x02]]> (REMOTE.files self) /\
    REMOTE.files self2 !! "./model.pt.tar" = Some [Byte.x02].
Proof.
  intros self.
  apply (undated_cycles_overwrite self Examples.now Examples.now 0 1 [] 0
           [REMOTE.CellBytes [Byte.x01]] [REMOTE.CellBytes [Byte.x02]]
           [Byte.x01] [Byte.x02] "./model.pt.tar");
    first [reflexivity | by vm_compute].
Defined.


(** ** More on the save count *)

Section SaveCountFormula.

Context {machine : Py.Machine}.

(** The count in closed form, for a positive period: what the call
    returns, and that it returns when the save points fit in a list. *)
Lemma save_count_formula (start_epoch total_epochs save_period : Z) :
  1 <= save_period ->
  let count := Z.max 0 ((total_epochs - 1) / save_period
                 - Z.max 0 ((start_epoch + save_period - 2) / save_period) + 1) in
  (Py.range_len 1 (total_epochs + 1) save_period <= Py.list_limit ->
   calculate_save_count start_epoch total_epochs save_period = Py.Ok count) /\
  (forall c, calculate_save_count start_epoch total_epochs save_period = Py.Ok c ->
     c = count).
Proof.
  intros HP count.
  destruct (calculate_save_count_cardinal start_epoch total_epochs save_period HP)
    as (pts & Hnd & Hpts & Hcount & Hfits).
  assert (Hlength : Z.of_nat (length pts) = count); [| by rewrite <- Hlength].
  unfold count. clear Hcount Hfits count.
  set (m := (total_epochs - 1) / save_period).
  set (k0 := (start_epoch + save_period - 2) / save_period).
  set (lo := Z.max 0 k0). set (cnt := Z.max 0 (m - lo + 1)).
  assert (Hm : forall k, 1 + k * save_period <= total_epochs <-> k <= m).
  { intros k. unfold m. split; intros H.
    - apply Z.div_le_lower_bound; lia.
    - pose proof (Z.mul_div_le (total_epochs - 1) save_period ltac:(lia)). nia. }
  assert (Hk0 : forall k, start_epoch <= 1 + k * save_period <-> k0 <= k).
  { intros k. unfold k0. split; intros H.
    - assert ((start_epoch + save_period - 2) / save_period < k + 1); [| lia].
      apply Z.div_lt_upper_bound; lia.
    - pose proof (Z.mul_succ_div_gt (start_epoch + save_period - 2) save_period
                    ltac:(lia)). nia. }
  assert (Hperm : pts ≡ₚ (fun k => 1 + k * save_period) <$> seqZ lo cnt).
  { apply NoDup_Permutation; [done | |].
    - apply NoDup_fmap_2; [| apply NoDup_seqZ]. intros i j Hij. nia.
    - intros e. rewrite Hpts, list_elem_of_fmap. unfold Spec.counted_save_point.
      setoid_rewrite elem_of_seqZ. split.
      + intros ((k & Hk & ->) & Htot & Hstart). exists k. split; [done |].
        apply Hm in Htot. apply Hk0 in Hstart. lia.
      + intros (k & -> & Hk). 
        assert (k0 <= k /\ k <= m /\ 0 <= k) as (Hs & Ht & H0) by lia.
        split; [by exists k |]. split; [by apply Hm | by apply Hk0]. }
  rewrite Hperm, length_fmap, length_seqZ. lia.
Qed.

(** X14: for a save period [P >= 1] the save count has a closed form:
    with [m = (E_total - 1) div P] the index of the last save point and
    [k0 = (E_start + P - 2) div P] the index of the first one not before
    [E_start], it is [m - max 0 k0 + 1], or 0 if that is negative.  The call
    returns it when the save points up to the total fit in a list, and
    returns nothing else. *)
Theorem calculate_save_count_closed_form (start_epoch total_epochs save_period : Z) :
  1 <= save_period ->
  let count := Z.max 0 ((total_epochs - 1) / save_period
                 - Z.max 0 ((start_epoch + save_period - 2) / save_period) + 1) in
  (Py.range_len 1 (total_epochs + 1) save_period <= Py.list_limit ->
   calculate_save_count start_epoch total_epochs save_period = Py.Ok count) /\
  (forall c, calculate_save_count start_epoch total_epochs save_period = Py.Ok c ->
     c = count).
Proof. apply save_count_formula. Qed.

(** X15: resuming later never schedules more saves.  For a save period of
    at least 1 and save points that fit in a list, the count for a later
    start epoch is at most the count for an earlier one; a start epoch of 1
    or less counts every save point up to the total; a start epoch beyond the
    total counts none. *)
Theorem calculate_save_count_monotone (start_epoch start_epoch' total_epochs
    save_period : Z) :
  1 <= save_period -> start_epoch <= start_epoch' ->
  Py.range_len 1 (total_epochs + 1) save_period <= Py.list_limit ->
  exists c c',
    calculate_save_count start_epoch total_epochs save_period = Py.Ok c /\
    calculate_save_count start_epoch' total_epochs save_period = Py.Ok c' /\
    0 <= c' <= c /\
    (start_epoch <= 1 -> c = Z.max 0 ((total_epochs - 1) / save_period + 1)) /\
    (total_epochs < start_epoch' -> c' = 0).
Proof.
  intros HP Hle Hfits.
  rewrite (proj1 (save_count_formula start_epoch total_epochs save_period HP) Hfits).
  rewrite (proj1 (save_count_formula start_epoch' total_epochs save_period HP) Hfits).
  eexists _, _. split; [reflexivity |]. split; [reflexivity |].
  assert (Hmono : (start_epoch + save_period - 2) / save_period
                  <= (start_epoch' + save_period - 2) / save_period)
    by (apply Z.div_le_mono; lia).
  split; [lia |]. split.
  - intros H1.
    assert ((start_epoch + save_period - 2) / save_period <= 0); [| lia].
    assert ((start_epoch + save_period - 2) / save_period < 1); [| lia].
    apply Z.div_lt_upper_bound; lia.
  - intros Hlate.
    replace (start_epoch' + save_period - 2)
      with (start_epoch' - 2 + 1 * save_period) by lia.
    rewrite Z.div_add by lia.
    assert ((total_epochs - 1) / save_period <= (start_epoch' - 2) / save_period)
      by (apply Z.div_le_mono; lia).
    lia.
Qed.

(** X16: a negative save period is not an error.  With a total of at
    least 0, [range(1, total_epochs + 1, save_period)] is empty for a negative
    period and the count is 0, whatever the start epoch. *)
Theorem calculate_save_count_negative_period (start_epoch total_epochs
    save_period : Z) :
  save_period < 0 -> 0 <= total_epochs ->
  calculate_save_count start_epoch total_epochs save_period = Py.Ok 0.
Proof.
  intros HP Htot.
  assert (Hempty : Py.range_len 1 (total_epochs + 1) save_period = 0).
  { unfold Py.range_len.
    destruct (Z.ltb_spec 0 save_period); [lia |].
    by destruct (Z.ltb_spec (total_epochs + 1) 1); [lia |]. }
  rewrite (calculate_save_count_fits start_epoch total_epochs save_period []).
  - done.
  - unfold Py.range. rewrite Hempty.
    by destruct (Z.eqb_spec save_period 0); [lia |].
  - rewrite Hempty. apply list_limit_range.
Qed.

End SaveCountFormula.

Lemma calculate_save_count_closed_form_witness :
  calculate_save_count (machine := Examples.machine) 6 10 2
  = Py.Ok (Z.max 0 ((10 - 1) / 2 - Z.max 0 ((6 + 2 - 2) / 2) + 1)).
Proof.
  apply (calculate_save_count_closed_form (machine := Examples.machine) 6 10 2);
    [lia | by vm_compute].
Defined.

Lemma calculate_save_count_monotone_witness :
  exists c c',
    calculate_save_count (machine := Examples.machine) 1 10 2 = Py.Ok c /\
    calculate_save_count (machine := Examples.machine) 11 10 2 = Py.Ok c' /\
    0 <= c' <= c /\
    (1 <= 1 -> c = Z.max 0 ((10 - 1) / 2 + 1)) /\
    (10 < 11 -> c' = 0).
Proof.
  apply (calculate_save_count_monotone (machine := Examples.machine) 1 11 10 2);
    [lia | lia | by vm_compute].
Defined.

Lemma calculate_save_count_negative_period_witness :
  calculate_save_count (machine := Examples.machine) 1 10 (-2) = Py.Ok 0.
Proof.
  apply (calculate_save_count_negative_period (machine := Examples.machine) 1 10 (-2));
    lia.
Defined.


(** ** More on role election *)

Section Environment.

Implicit Types (self : MPI.MPI) (environ : gmap string string).

Lemma list_index_not_elem_of (l : list Z) (x : Z) :
  x ∉ l ->
  Py.list_index l x = Py.Raise (Py.ValueError (Py.str_of_int x +:+ " is not in list")).
Proof.
  induction l as [|y l IH]; [done |].
  intros [Hne Hnot]%not_elem_of_cons. cbn.
  destruct (Z.eqb_spec y x); [congruence |]. by rewrite IH.
Qed.

Lemma filter_full_length {A} (P : A -> Prop) `{forall x, Decision (P x)} (l : list A) :
  length (filter P l) = length l -> Forall P l.
Proof.
  induction l as [|x l IH]; [by constructor |].
  rewrite filter_cons. destruct (decide (P x)) as [Hx | Hx]; cbn.
  - intros [= Hlen]. constructor; auto.
  - intros Hlen. pose proof (length_filter P l). lia.
Qed.

Lemma filter_all {A} (P : A -> Prop) `{forall x, Decision (P x)} (l : list A) :
  Forall P l -> filter P l = l.
Proof.
  induction 1 as [|x l Hx _ IH]; [done |].
  rewrite filter_cons, decide_True by done. by rewrite IH.
Qed.

(** X17: what [set_environ] publishes besides [WORLD_SIZE] and
    [SHARD_RANK], and what it leaves alone.  When it returns, [RANK] is the
    world rank, [LOCAL_RANK] is the launcher's local rank as given,
    [MASTER_ADDR] and [MASTER_PORT] are the two arguments, and every variable
    other than these six is as it was. *)
Theorem set_environ_publishes self environ (addr port : string)
    (environ' : gmap string string) :
  MPI.set_environ self environ (Py.VStr addr) (Py.VStr port) = (Py.Ok (), environ') ->
  environ' !! "RANK" = Some (Py.str_of_int (MPI.rank self)) /\
  environ' !! "LOCAL_RANK" = environ !! "OMPI_COMM_WORLD_LOCAL_RANK" /\
  environ' !! "MASTER_ADDR" = Some addr /\
  environ' !! "MASTER_PORT" = Some port /\
  forall k, k ∉ ["LOCAL_RANK"; "RANK"; "WORLD_SIZE"; "MASTER_ADDR"; "MASTER_PORT";
                 "SHARD_RANK"] ->
    environ' !! k = environ !! k.
Proof.
  unfold MPI.set_environ, Py.dict_get.
  destruct (environ !! "OMPI_COMM_WORLD_LOCAL_RANK") as [v |] eqn:Hv; [| done].
  rewrite lookup_insert_ne, lookup_insert_ne, lookup_insert_ne,
    lookup_insert_ne, lookup_insert_eq by done.
  rewrite bind_Ok.
  assert (Hframe : forall (x : string) k,
    k ∉ ["LOCAL_RANK"; "RANK"; "WORLD_SIZE"; "MASTER_ADDR"; "MASTER_PORT";
         "SHARD_RANK"] ->
    <["SHARD_RANK" := x]> (<["MASTER_PORT" := port]> (<["MASTER_ADDR" := addr]>
      (<["WORLD_SIZE" := Py.str_of_int (MPI.size self - 1)]>
        (<["RANK" := Py.str_of_int (MPI.rank self)]>
          (<["LOCAL_RANK" := v]> environ))))) !! k = environ !! k).
  { intros x k Hk. repeat (apply not_elem_of_cons in Hk as [? Hk]).
    by rewrite !lookup_insert_ne by done. }
  destruct (Py.int_of_str v) as [local_rank | e]; [| done].
  destruct (local_rank =? 0).
  - destruct (MPI.sharding_rank_list self) as [l |]; [| done].
    destruct (Py.list_index l (MPI.rank self)) as [i | e]; [| done].
    intros [= <-]. repeat split; try by simplify_map_eq. apply Hframe.
  - intros [= <-]. repeat split; try by simplify_map_eq. apply Hframe.
Qed.

(** X18: how [set_environ] fails.  Without the launcher's variable it
    raises [KeyError] and leaves the environment as it was.  With local rank 0
    it needs the caller among the shard leaders: before [make_sharding_rank]
    has run it raises [AttributeError], and for a rank that is not a leader,
    as the remote sink never is, it raises [ValueError]; in both cases the
    five other variables are already written and [SHARD_RANK] is not. *)
Theorem set_environ_failures self environ (s addr port : string) :
  (environ !! "OMPI_COMM_WORLD_LOCAL_RANK" = None ->
   MPI.set_environ self environ (Py.VStr addr) (Py.VStr port)
   = (Py.Raise (Py.KeyError "OMPI_COMM_WORLD_LOCAL_RANK"), environ)) /\
  (environ !! "OMPI_COMM_WORLD_LOCAL_RANK" = Some s -> Py.int_of_str s = Py.Ok 0 ->
   (MPI.sharding_rank_list self = None ->
    MPI.set_environ self environ (Py.VStr addr) (Py.VStr port)
    = (Py.Raise Py.AttributeError, MPI.published self environ s addr port)) /\
   (forall gathered,
      MPI.sharding_rank_list self = Some (Spec.shard_leaders gathered (MPI.size self)) ->
      (MPI.size self - 1 <= MPI.rank self \/
       gathered !! Z.to_nat (MPI.rank self) <> Some 0) ->
      MPI.set_environ self environ (Py.VStr addr) (Py.VStr port)
      = (Py.Raise (Py.ValueError (Py.str_of_int (MPI.rank self) +:+ " is not in list")),
         MPI.published self environ s addr port))).
Proof.
  split.
  - intros Hnone. unfold MPI.set_environ, Py.dict_get. by rewrite Hnone.
  - intros Henv Hparse.
    assert (Hhead : forall k : Py.result Z -> Py.result unit * gmap string string,
      MPI.set_environ self environ (Py.VStr addr) (Py.VStr port)
      = match Py.int_of_str s with
        | Py.Raise e => (Py.Raise e, MPI.published self environ s addr port)
        | Py.Ok local_rank =>
            if local_rank =? 0 then
              match MPI.sharding_rank_list self with
              | None => (Py.Raise Py.AttributeError,
                         MPI.published self environ s addr port)
              | Some l =>
                  match Py.list_index l (MPI.rank self) with
                  | Py.Raise e => (Py.Raise e, MPI.published self environ s addr port)
                  | Py.Ok i => (Py.Ok (), <["SHARD_RANK" := Py.str_of_int i]>
                                  (MPI.published self environ s addr port))
                  end
              end
            else (Py.Ok (), <["SHARD_RANK" := "-1"]>
                              (MPI.published self environ s addr port))
        end).
    { intros _. unfold MPI.set_environ, Py.dict_get, MPI.published. rewrite Henv.
      rewrite lookup_insert_ne, lookup_insert_ne, lookup_insert_ne,
        lookup_insert_ne, lookup_insert_eq by done.
      rewrite bind_Ok. reflexivity. }
    rewrite (Hhead (fun _ => (Py.Ok (), environ))), Hparse. cbn.
    split.
    + by intros ->.
    + intros gathered -> Hnot. rewrite list_index_not_elem_of; [done |].
      unfold Spec.shard_leaders. rewrite list_elem_of_filter, elem_of_seqZ.
      intros [Hzero Hin]. destruct Hnot as [Hsink | Hlocal]; [lia | done].
Qed.

(** X19: how many leaders [make_sharding_rank] can find, and how it
    fails.  Without the launcher's variable it raises [KeyError]; if the
    variable is not an integer numeral it raises [ValueError]; otherwise, for
    a gathered vector of [size] entries, the number it returns is the length
    of the list it stores and lies between 0 and [size - 1] (0 when [size]
    is at most 1), and it is [size - 1] exactly when every rank below the
    remote sink's has local rank 0. *)
Theorem make_sharding_rank_count self environ (all_gather : Z -> list Z) :
  (environ !! "OMPI_COMM_WORLD_LOCAL_RANK" = None ->
   MPI.make_sharding_rank self environ all_gather
   = Py.Raise (Py.KeyError "OMPI_COMM_WORLD_LOCAL_RANK")) /\
  (forall s e, environ !! "OMPI_COMM_WORLD_LOCAL_RANK" = Some s ->
     Py.int_of_str s = Py.Raise e ->
     MPI.make_sharding_rank self environ all_gather = Py.Raise e) /\
  (forall s lr, environ !! "OMPI_COMM_WORLD_LOCAL_RANK" = Some s ->
     Py.int_of_str s = Py.Ok lr ->
     Z.of_nat (length (all_gather lr)) = MPI.size self ->
     exists leaders count,
       MPI.make_sharding_rank self environ all_gather
       = Py.Ok (MPI.Build (MPI.rank self) (MPI.size self) (Some leaders), count) /\
       count = Z.of_nat (length leaders) /\
       0 <= count <= Z.max 0 (MPI.size self - 1) /\
       (count = Z.max 0 (MPI.size self - 1) <->
        forall i, 0 <= i < MPI.size self - 1 -> all_gather lr !! Z.to_nat i = Some 0)).
Proof.
  split; [| split].
  - intros Hnone. unfold MPI.make_sharding_rank, Py.dict_get. by rewrite Hnone.
  - intros s e Henv Hparse. unfold MPI.make_sharding_rank, Py.dict_get.
    by rewrite Henv, bind_Ok, Hparse.
  - intros s lr Henv Hparse Hlen.
    rewrite (make_sharding_rank_eq self environ all_gather s lr) by done.
    eexists _, _. split; [reflexivity |]. split; [reflexivity |].
    pose proof (length_filter (fun i : Z => all_gather lr !! Z.to_nat i = Some 0)
                  (seqZ 0 (MPI.size self - 1))) as Hle.
    rewrite length_seqZ in Hle.
    split; [lia |]. split.
    + intros Hfull i Hi.
      eapply (Forall_seqZ (fun i : Z => all_gather lr !! Z.to_nat i = Some 0));
        [| split; [| rewrite Z.add_0_l]; apply Hi].
      refine (filter_full_length _ _ _). rewrite length_seqZ. lia.
    + intros Hall. rewrite (filter_all _ _), length_seqZ; [lia |].
      apply Forall_seqZ. intros i Hi. apply Hall. lia.
Qed.

End Environment.

Lemma set_environ_publishes_witness :
  let self := MPI.Build 1 3 (Some [0; 1]) in
  let environ : gmap string string :=
    {[ "OMPI_COMM_WORLD_LOCAL_RANK" := "0"; "HOME" := "/root" ]} in
  let out := MPI.set_environ self environ (Py.VStr "10.0.0.1") (Py.VStr "29500") in
  out.1 = Py.Ok () /\
  out.2 !! "RANK" = Some "1" /\
  out.2 !! "LOCAL_RANK" = Some "0" /\
  out.2 !! "MASTER_ADDR" = Some "10.0.0.1" /\
  out.2 !! "MASTER_PORT" = Some "29500" /\
  out.2 !! "HOME" = Some "/root".
Proof.
  intros self environ out.
  assert (Hcall : out = (Py.Ok (), out.2)) by (vm_compute; reflexivity).
  destruct (set_environ_publishes self environ "10.0.0.1" "29500" out.2 Hcall)
    as (Hr & Hl & Ha & Hp & Hframe).
  split; [by rewrite Hcall |]. split; [exact Hr |]. split; [exact Hl |].
  split; [exact Ha |]. split; [exact Hp |].
  rewrite Hframe; [reflexivity |].
  repeat (apply not_elem_of_cons; split; [discriminate |]). apply not_elem_of_nil.
Defined.

Lemma set_environ_failures_witness :
  let sink := MPI.Build 2 3 (Some (Spec.shard_leaders [0; 0; 0] 3)) in
  let environ : gmap string string := {[ "OMPI_COMM_WORLD_LOCAL_RANK" := "0" ]} in
  MPI.set_environ sink environ (Py.VStr "10.0.0.1") (Py.VStr "29500")
  = (Py.Raise (Py.ValueError "2 is not in list"),
     MPI.published sink environ "0" "10.0.0.1" "29500").
Proof.
  intros sink environ.
  destruct (set_environ_failures sink environ "0" "10.0.0.1" "29500") as [_ Hfail].
  destruct (Hfail eq_refl eq_refl) as [_ Hsink].
  apply (Hsink [0; 0; 0] eq_refl). left. simpl. lia.
Defined.

Lemma make_sharding_rank_count_witness :
  exists leaders count,
    MPI.make_sharding_rank (MPI.Build 0 4 None)
      {[ "OMPI_COMM_WORLD_LOCAL_RANK" := "0" ]} (fun _ => [0; 1; 0; 0])
    = Py.Ok (MPI.Build 0 4 (Some leaders), count) /\
    count = Z.of_nat (length leaders) /\ 0 <= count <= 3.
Proof.
  destruct (make_sharding_rank_count (MPI.Build 0 4 None)
              {[ "OMPI_COMM_WORLD_LOCAL_RANK" := "0" ]} (fun _ => [0; 1; 0; 0]))
    as (_ & _ & Hok).
  destruct (Hok "0" 0 eq_refl eq_refl eq_refl) as (leaders & count & Hcall & Hc & Hb & _).
  exists leaders, count. split; [exact Hcall |]. split; [exact Hc |]. exact Hb.
Defined.


(** ** The two roles of a launch *)

Section Roles.

Context {snapshot : Type} {machine : Py.Machine}.

Variables (w : Init.world) (st : Init.state) (train_node_auto_start : bool)
  (overrides : list (string * Py.pyval)) (tc : Spec.typed_config)
  (s : string) (lr : Z) (e0 : Z) (evs0 : list Init.event) (c : Z).

Hypothesis Hcheck : Init.check_keys (dom (Init.args_dict st)) overrides = Py.Ok ().
Hypothesis Hcfg :
  Init.read_config (Init.dict_update (Init.args_dict st) overrides)
  = Py.Ok (Spec.to_config tc).
Hypothesis Hresume :
  Init.resume_epoch w (Spec.to_config tc) = (Py.Ok (Py.VInt e0), evs0).
Hypothesis Henv : Init.environ st !! "OMPI_COMM_WORLD_LOCAL_RANK" = Some s.
Hypothesis Hparse : Py.int_of_str s = Py.Ok lr.
Hypothesis Hlen : Z.of_nat (length (Init.all_gather w lr)) = Init.mpi_size w.
Hypothesis Hshards :
  Spec.shard_size tc
  <= Z.of_nat (length (Spec.shard_leaders (Init.all_gather w lr) (Init.mpi_size w))).
Hypothesis Hcount :
  calculate_save_count e0 (Spec.total_epochs tc) (Spec.save_period tc) = Py.Ok c.

Lemma init_ACUTE_role :
  let leaders := Spec.shard_leaders (Init.all_gather w lr) (Init.mpi_size w) in
  let communicator := MPI.Build (Init.mpi_rank w) (Init.mpi_size w) (Some leaders) in
  let st1 := Init.BuildState (Init.dict_update (Init.args_dict st) overrides)
               (Init.environ st)
               (Init.trace st ++ evs0 ++ [Init.MPICreate; Init.AllGather]) in
  Init.init_ACUTE (snapshot := snapshot) w st train_node_auto_start overrides
  = if Init.mpi_rank w =? Init.mpi_size w - 1 then
      Init.init_remote_node w st1 communicator c
        (Spec.remote_buffer_size tc) (Spec.shard_size tc) (Spec.to_config tc)
    else
      Init.init_train_node st1 communicator c
        (Spec.shard_size tc) (Spec.to_config tc) train_node_auto_start.
Proof.
  intros leaders communicator st1.
  rewrite (init_ACUTE_past_resume w st train_node_auto_start overrides tc s lr
             Hcfg Henv Hparse Hlen e0 evs0 Hcheck Hresume).
  destruct (Z.leb_spec (Spec.shard_size tc)
              (Z.of_nat (length (Spec.shard_leaders (Init.all_gather w lr)
                                   (Init.mpi_size w))))); [| lia].
  cbn [negb]. by rewrite Hcount.
Qed.

(** X20: a valid launch on the remote sink never returns.  The process of
    rank [size - 1], on a machine with room for the ring and the Receivers,
    builds the [REMOTE] node with the save count, creates the directory
    [./<model_name>] only when [file_save_in_dictionary] is on and the
    directory does not exist, and starts the Flusher and then one Receiver per
    shard.  With a ring of at least one slot, or no save to take, it then runs
    the Master's loop and leaves through [SystemExit]; with a ring without
    slots and a save to take, the first read of a dirty bit raises
    [IndexError] instead.  It never writes the environment. *)
Theorem init_ACUTE_remote_sink :
  Init.mpi_rank w = Init.mpi_size w - 1 ->
  Spec.remote_buffer_size tc <= Py.list_limit /\ Spec.shard_size tc <= Py.list_limit ->
  let dir := "./" +:+ Spec.model_name tc in
  let makedirs :=
    if Spec.file_save_in_dictionary tc && negb (bool_decide (is_Some (Init.fs w !! dir)))
    then [Init.Makedirs dir] else [] in
  let receivers :=
    (fun r => Init.ThreadStart ("Receiver" +:+ Py.str_of_int (Z.of_nat r)))
      <$> seq 0 (Z.to_nat (Spec.shard_size tc)) in
  let no_slot := (1 <=? c) && (Spec.remote_buffer_size tc <=? 0) in
  Init.init_ACUTE (snapshot := snapshot) w st train_node_auto_start overrides
  = (Py.Raise (if no_slot then Py.IndexError else Py.SystemExit),
     Init.BuildState (Init.dict_update (Init.args_dict st) overrides)
       (Init.environ st)
       (Init.trace st ++ evs0
        ++ [Init.MPICreate; Init.AllGather;
            Init.RemoteNode c (Spec.remote_buffer_size tc) (Spec.shard_size tc)]
        ++ makedirs ++ Init.ThreadStart "Flusher" :: receivers
        ++ (if no_slot then [] else [Init.MasterLoop c; Init.Exit]))).
Proof.
  intros Hsink Hring dir makedirs receivers no_slot.
  rewrite init_ACUTE_role. rewrite (proj2 (Z.eqb_eq _ _) Hsink).
  rewrite (init_remote_node_run w tc _ _ _ Hring).
  cbn [Init.args_dict Init.environ Init.trace].
  fold dir. fold makedirs. fold no_slot.
  unfold Init.remote_threads. fold receivers.
  f_equal. f_equal. rewrite <- !app_assoc. reflexivity.
Qed.

Hypothesis Hrank : 0 <= Init.mpi_rank w < Init.mpi_size w.
Hypothesis Hown : Init.all_gather w lr !! Z.to_nat (Init.mpi_rank w) = Some lr.

(** X21: a valid launch on a trainer.  A process of rank below [size - 1]
    publishes its environment, joins a process group of [size - 1] ranks and
    gets its node back, running exactly when [train_node_auto_start] is set.
    Its shard rank [p] is its position among the shard leaders if its local
    rank is 0, and -1 otherwise; the Sender and the Copier thread are started
    exactly when auto start is set and [0 <= p < shard_size]. *)
Theorem init_ACUTE_trainer :
  Init.mpi_rank w < Init.mpi_size w - 1 ->
  let leaders := Spec.shard_leaders (Init.all_gather w lr) (Init.mpi_size w) in
  let communicator := MPI.Build (Init.mpi_rank w) (Init.mpi_size w) (Some leaders) in
  exists p : Z,
    (if decide (lr = 0)
     then 0 <= p /\ leaders !! Z.to_nat p = Some (Init.mpi_rank w)
     else p = -1) /\
    let node := TRAIN.init communicator c p (Spec.shard_size tc) in
    let threads :=
      if train_node_auto_start && (0 <=? p) && (p <? Spec.shard_size tc)
      then [Init.ThreadStart "Sender"; Init.ThreadStart "Copier"] else [] in
    Init.init_ACUTE (snapshot := snapshot) w st train_node_auto_start overrides
    = (Py.Ok (communicator,
              Some (TRAIN.Build (TRAIN.comm node) (TRAIN.Sender node)
                      (TRAIN.Copier node) train_node_auto_start),
              None),
       Init.BuildState (Init.dict_update (Init.args_dict st) overrides)
         (<["SHARD_RANK" := Py.str_of_int p]>
            (MPI.published communicator (Init.environ st) s
               (Spec.training_master_addr tc) (Spec.training_master_port tc)))
         (Init.trace st ++ evs0
          ++ [Init.MPICreate; Init.AllGather;
              Init.InitProcessGroup (Init.mpi_rank w) (Init.mpi_size w - 1);
              Init.SetDevice lr;
              Init.TrainNode c p (Spec.shard_size tc)]
          ++ threads)).
Proof.
  intros Htrainer leaders communicator.
  destruct (set_environ_eq communicator leaders (Init.environ st) s lr
              (Spec.training_master_addr tc) (Spec.training_master_port tc))
    as (p & Hset & Hp); [done | done | done | |].
  { intros Hlr. unfold leaders, Spec.shard_leaders.
    rewrite list_elem_of_filter, elem_of_seqZ. cbn.
    split; [congruence | clear - Hrank Htrainer; lia]. }
  exists p. split; [exact Hp |]. intros node threads.
  rewrite init_ACUTE_role.
  destruct (Z.eqb_spec (Init.mpi_rank w) (Init.mpi_size w - 1)); [lia |].
  unfold Init.init_train_node.
  cbn [Spec.to_config Init.training_master_address Init.training_master_port
       Init.environ Init.args_dict Init.trace].
  fold leaders. fold communicator. rewrite Hset.
  destruct (published_lookup communicator (Init.environ st) s
              (Spec.training_master_addr tc) (Spec.training_master_port tc)
              (Py.str_of_int p)) as (Hr & Hws & Hlr & Hsr).
  rewrite (dict_get_Some _ _ _ Hr), (dict_get_Some _ _ _ Hws),
    (dict_get_Some _ _ _ Hlr), (dict_get_Some _ _ _ Hsr).
  repeat (rewrite ?bind_Ok, ?int_of_str_of_int, ?Hparse).
  cbn [MPI.rank MPI.size communicator].
  unfold threads, node.
  destruct train_node_auto_start.
  - unfold TRAIN.start, TRAIN.init. cbn.
    destruct ((0 <=? p) && (p <? Spec.shard_size tc)).
    + unfold Init.emit. cbn. by rewrite <- !app_assoc.
    + unfold Init.emit. cbn. by rewrite <- !app_assoc.
  - unfold Init.emit, TRAIN.init. cbn. by rewrite <- !app_assoc.
Qed.

End Roles.

(** ** Failures on the way *)

Section Failures.

Context {snapshot : Type} {machine : Py.Machine}.

Variables (w : Init.world) (st : Init.state) (train_node_auto_start : bool)
  (overrides : list (string * Py.pyval)).

Hypothesis Hcheck : Init.check_keys (dom (Init.args_dict st)) overrides = Py.Ok ().

Lemma dict_get_None {V : Type} (d : gmap string V) (k : string) :
  d !! k = None -> Py.dict_get d k = Py.Raise (Py.KeyError k).
Proof. intros H. unfold Py.dict_get. by rewrite H. Qed.

(** X22: a missing option is found after the overrides are written.
    [init_ACUTE] reads its eleven options in a fixed order; if the first one
    missing from [args] is [k], it raises [KeyError k], having done nothing
    but the update: [args] holds the overrides, the environment and the
    events are as before. *)
Theorem init_ACUTE_missing_option (present : list string) (k : string)
    (later : list string) :
  present ++ k :: later
  = ["training_master_addr"; "training_master_port"; "total_epochs"; "save_period";
     "starting_epoch"; "remote_buffer_size"; "shard_size";
     "file_name_include_datetime"; "file_save_in_dictionary"; "model_name";
     "snapshot_path"] ->
  Forall (fun k' => is_Some (Init.dict_update (Init.args_dict st) overrides !! k'))
    present ->
  Init.dict_update (Init.args_dict st) overrides !! k = None ->
  Init.init_ACUTE (snapshot := snapshot) w st train_node_auto_start overrides
  = (Py.Raise (Py.KeyError k),
     Init.BuildState (Init.dict_update (Init.args_dict st) overrides)
       (Init.environ st) (Init.trace st)).
Proof.
  intros Hkeys Hpresent Hmissing.
  unfold Init.init_ACUTE. rewrite Hcheck.
  cbn [Init.args_dict Init.environ Init.trace].
  set (d := Init.dict_update (Init.args_dict st) overrides) in *.
  assert (Hread : Init.read_config d = Py.Raise (Py.KeyError k)).
  { unfold Init.read_config.
    repeat (destruct present as [|k' present]; cbn [app] in Hkeys;
            [ injection Hkeys as Hk _; subst k;
              by rewrite (dict_get_None _ _ Hmissing)
            | injection Hkeys as Hk Hkeys; subst k';
              apply Forall_cons in Hpresent as [[? Hv] Hpresent];
              rewrite (dict_get_Some _ _ _ Hv), bind_Ok; clear Hv ]).
    destruct present; discriminate. }
  by rewrite Hread.
Qed.

Variable cfg : Init.config.
Hypothesis Hcfg :
  Init.read_config (Init.dict_update (Init.args_dict st) overrides) = Py.Ok cfg.

Lemma init_ACUTE_resume_raises (e : Py.exn) (evs : list Init.event) :
  Init.resume_epoch w cfg = (Py.Raise e, evs) ->
  Init.init_ACUTE (snapshot := snapshot) w st train_node_auto_start overrides
  = (Py.Raise e,
     Init.BuildState (Init.dict_update (Init.args_dict st) overrides)
       (Init.environ st) (Init.trace st ++ evs)).
Proof.
  intros Hresume. unfold Init.init_ACUTE. rewrite Hcheck. cbn.
  by rewrite Hcfg, Hresume.
Qed.

(** X23: a resume file that cannot be used stops [init_ACUTE] before MPI
    is touched.  With a non-empty [snapshot_path]: a file that is not a
    pickle raises [UnpicklingError], a snapshot without the key [epoch]
    raises [KeyError], and one whose epoch is a string or [None] raises
    [TypeError]; in each case the only event is the [torch.load], and the
    environment is as before. *)
Theorem init_ACUTE_bad_snapshot (path : string) (f : Init.file) :
  Init.snapshot_path cfg = Py.VStr path -> path <> "" ->
  Init.fs w !! path = Some f ->
  let fails (e : Py.exn) :=
    Init.init_ACUTE (snapshot := snapshot) w st train_node_auto_start overrides
    = (Py.Raise e,
       Init.BuildState (Init.dict_update (Init.args_dict st) overrides)
         (Init.environ st) (Init.trace st ++ [Init.TorchLoad path])) in
  match f with
  | Init.Garbage => fails Py.UnpicklingError
  | Init.Snapshot d =>
      match d !! "epoch" with
      | None => fails (Py.KeyError "epoch")
      | Some (Py.VStr _) | Some Py.VNone => fails Py.TypeError
      | Some _ => True
      end
  end.
Proof.
  intros Hpath Hne Hfile fails.
  assert (Htruthy : Py.truthy (Init.snapshot_path cfg) = true).
  { rewrite Hpath. cbn. by destruct (String.eqb_spec path ""). }
  assert (Hresume : forall r,
    (match f with
     | Init.Garbage => Py.Raise Py.UnpicklingError
     | Init.Snapshot d => e ← Init.next_epoch d; Py.Ok (Py.VInt e)
     end) = Py.Raise r -> fails r).
  { intros r Hr. apply init_ACUTE_resume_raises.
    unfold Init.resume_epoch. rewrite Htruthy, Hpath, Hfile.
    destruct f; by rewrite Hr. }
  destruct f as [d |]; [| by apply Hresume].
  unfold Init.next_epoch, Py.dict_get in Hresume.
  destruct (d !! "epoch") as [[| | |] |]; try done; by apply Hresume.
Qed.

End Failures.

Lemma init_ACUTE_remote_sink_witness :
  Init.init_ACUTE (snapshot := unit) (machine := Examples.machine)
    (Examples.world 2) Examples.state true []
  = (Py.Raise Py.SystemExit,
     Init.BuildState Examples.args {[ "OMPI_COMM_WORLD_LOCAL_RANK" := "0" ]}
       [Init.TorchLoad "ckpt.pt"; Init.MPICreate; Init.AllGather;
        Init.RemoteNode 2 2 2; Init.ThreadStart "Flusher";
        Init.ThreadStart "Receiver0"; Init.ThreadStart "Receiver1";
        Init.MasterLoop 2; Init.Exit]) /\
  Init.init_ACUTE (snapshot := unit) (machine := Examples.machine)
    (Examples.world 2) Examples.state true [("remote_buffer_size", Py.VInt 0)]
  = (Py.Raise Py.IndexError,
     Init.BuildState (<["remote_buffer_size" := Py.VInt 0]> Examples.args)
       {[ "OMPI_COMM_WORLD_LOCAL_RANK" := "0" ]}
       [Init.TorchLoad "ckpt.pt"; Init.MPICreate; Init.AllGather;
        Init.RemoteNode 2 0 2; Init.ThreadStart "Flusher";
        Init.ThreadStart "Receiver0"; Init.ThreadStart "Receiver1"]).
Proof.
  split.
  - apply (init_ACUTE_remote_sink (snapshot := unit) (machine := Examples.machine)
             (Examples.world 2) Examples.state
             true [] (Examples.config 2) "0" 0 6 [Init.TorchLoad "ckpt.pt"] 2).
    + reflexivity.
    + by vm_compute.
    + by vm_compute.
    + reflexivity.
    + reflexivity.
    + reflexivity.
    + by vm_compute.
    + by vm_compute.
    + reflexivity.
    + split; by vm_compute.
  - apply (init_ACUTE_remote_sink (snapshot := unit) (machine := Examples.machine)
             (Examples.world 2) Examples.state
             true [("remote_buffer_size", Py.VInt 0)]
             (Spec.BuildTyped "10.0.0.1" "29500" 10 2 1 0 2 false false "model"
                (Some "ckpt.pt"))
             "0" 0 6 [Init.TorchLoad "ckpt.pt"] 2).
    + by vm_compute.
    + by vm_compute.
    + by vm_compute.
    + reflexivity.
    + reflexivity.
    + reflexivity.
    + by vm_compute.
    + by vm_compute.
    + reflexivity.
    + split; by vm_compute.
Defined.

Lemma init_ACUTE_trainer_witness :
  exists p node st',
    Init.init_ACUTE (snapshot := unit) (machine := Examples.machine)
      (Examples.world 1) Examples.state true []
    = (Py.Ok (MPI.Build 1 3 (Some [0; 1]), Some node, None), st') /\
    [0; 1] !! Z.to_nat p = Some 1 /\
    TRAIN.is_running node = true /\
    TRAIN.shard_rank (TRAIN.Copier node) = p /\
    Init.environ st' !! "SHARD_RANK" = Some (Py.str_of_int p).
Proof.
  destruct (init_ACUTE_trainer (snapshot := unit) (machine := Examples.machine)
              (Examples.world 1) Examples.state
              true [] (Examples.config 2) "0" 0 6 [Init.TorchLoad "ckpt.pt"] 2)
    as (p & Hp & Hcall).
  - reflexivity.
  - by vm_compute.
  - by vm_compute.
  - reflexivity.
  - reflexivity.
  - reflexivity.
  - by vm_compute.
  - by vm_compute.
  - simpl. lia.
  - reflexivity.
  - simpl. lia.
  - exists p. eexists _, _. split; [exact Hcall |].
    split; [exact (proj2 Hp) |]. split; [reflexivity |]. split; [reflexivity |].
    cbn [Init.environ]. apply lookup_insert_eq.
Defined.

Lemma init_ACUTE_missing_option_witness :
  Init.init_ACUTE (snapshot := unit) (machine := Examples.machine) (Examples.world 0)
    (Init.BuildState (delete "model_name" Examples.args)
       {[ "OMPI_COMM_WORLD_LOCAL_RANK" := "0" ]} [])
    true [("shard_size", Py.VInt 1)]
  = (Py.Raise (Py.KeyError "model_name"),
     Init.BuildState
       (Init.dict_update (delete "model_name" Examples.args) [("shard_size", Py.VInt 1)])
       {[ "OMPI_COMM_WORLD_LOCAL_RANK" := "0" ]} []).
Proof.
  apply (init_ACUTE_missing_option (snapshot := unit) (machine := Examples.machine)
           (Examples.world 0)
           (Init.BuildState (delete "model_name" Examples.args)
              {[ "OMPI_COMM_WORLD_LOCAL_RANK" := "0" ]} [])
           true [("shard_size", Py.VInt 1)] ltac:(by vm_compute)
           ["training_master_addr"; "training_master_port"; "total_epochs";
            "save_period"; "starting_epoch"; "remote_buffer_size"; "shard_size";
            "file_name_include_datetime"; "file_save_in_dictionary"]
           "model_name" ["snapshot_path"]).
  - reflexivity.
  - repeat (apply Forall_cons; split; [eexists; vm_compute; reflexivity |]).
    constructor.
  - by vm_compute.
Defined.

Lemma init_ACUTE_bad_snapshot_witness :
  Init.init_ACUTE (snapshot := unit) (machine := Examples.machine)
    (Init.BuildWorld {[ "ckpt.pt" := Init.Garbage ]} 0 3 (fun _ => [0; 0; 0]))
    Examples.state true []
  = (Py.Raise Py.UnpicklingError,
     Init.BuildState Examples.args {[ "OMPI_COMM_WORLD_LOCAL_RANK" := "0" ]}
       [Init.TorchLoad "ckpt.pt"]).
Proof.
  apply (init_ACUTE_bad_snapshot (snapshot := unit) (machine := Examples.machine)
           (Init.BuildWorld {[ "ckpt.pt" := Init.Garbage ]} 0 3 (fun _ => [0; 0; 0]))
           Examples.state true [] eq_refl (Spec.to_config (Examples.config 2))
           ltac:(by vm_compute) "ckpt.pt" Init.Garbage).
  - reflexivity.
  - discriminate.
  - reflexivity.
Defined.


(** ** Dated file names *)

Section DatedNames.

Implicit Types (self : REMOTE.REMOTE) (now : REMOTE.datetime).

Lemma append_inj_length (s1 s2 t1 t2 : string) :
  String.length s1 = String.length s2 ->
  s1 +:+ t1 = s2 +:+ t2 -> s1 = s2 /\ t1 = t2.
Proof.
  revert s2. induction s1 as [|x s1 IH]; intros [|y s2] Hlen Heq; try discriminate.
  - done.
  - change (String x (s1 +:+ t1) = String y (s2 +:+ t2)) in Heq.
    injection Heq as -> Heq. injection Hlen as Hlen.
    destruct (IH s2 Hlen Heq) as [-> ->]. done.
Qed.

Lemma append_inv_head (a t1 t2 : string) : a +:+ t1 = a +:+ t2 -> t1 = t2.
Proof. intros Heq. by destruct (append_inj_length a a t1 t2 eq_refl Heq). Qed.

Lemma str_of_int_inj (a b : Z) : Py.str_of_int a = Py.str_of_int b -> a = b.
Proof.
  intros Heq. pose proof (int_of_str_of_int a) as Ha.
  rewrite Heq, int_of_str_of_int in Ha. congruence.
Qed.

Lemma pad2_inj (a b : Z) :
  0 <= a <= 99 -> 0 <= b <= 99 -> REMOTE.pad2 a = REMOTE.pad2 b -> a = b.
Proof.
  intros Ha Hb Heq.
  assert (Hall : forallb (fun z => match Py.int_of_str (REMOTE.pad2 z) with
                                   | Py.Ok z' => z' =? z
                                   | Py.Raise _ => false
                                   end) (seqZ 0 100) = true) by (by vm_compute).
  rewrite forallb_forall in Hall.
  assert (Hparse : forall z, 0 <= z <= 99 -> Py.int_of_str (REMOTE.pad2 z) = Py.Ok z).
  { intros z Hz. specialize (Hall z).
    destruct (Py.int_of_str (REMOTE.pad2 z)) as [z' |].
    - f_equal. apply Z.eqb_eq, Hall, list_elem_of_In, elem_of_seqZ. lia.
    - discriminate Hall. apply list_elem_of_In, elem_of_seqZ. lia. }
  pose proof (Hparse a Ha) as Hpa. rewrite Heq, (Hparse b Hb) in Hpa. congruence.
Qed.

Lemma strftime_length_year now :
  REMOTE.valid_datetime now ->
  String.length (REMOTE.strftime now)
  = (String.length (Py.str_of_int (REMOTE.year now)) + 13)%nat.
Proof.
  intros (Hy & Hm & Hd & HH & HM & HS). unfold REMOTE.strftime.
  rewrite !length_append, !pad2_length by lia. cbn [String.length]. lia.
Qed.

(** The timestamp determines the second it was taken in. *)
Lemma strftime_inj now now' :
  REMOTE.valid_datetime now -> REMOTE.valid_datetime now' ->
  REMOTE.strftime now = REMOTE.strftime now' -> now = now'.
Proof.
  intros Hnow Hnow' Heq.
  pose proof (f_equal String.length Heq) as Hlen.
  rewrite !strftime_length_year in Hlen by done.
  destruct Hnow as (Hy & Hm & Hd & HH & HM & HS),
    Hnow' as (Hy' & Hm' & Hd' & HH' & HM' & HS').
  destruct now as [y m d h mi sec], now' as [y' m' d' h' mi' sec'].
  unfold REMOTE.strftime in Heq. cbn [REMOTE.year REMOTE.month REMOTE.day
    REMOTE.hour REMOTE.minute REMOTE.second] in *.
  apply append_inj_length in Heq as [Hyear Heq]; [| lia].
  change ("-" +:+ ?x) with (String "-" x) in Heq. injection Heq as Heq.
  apply append_inj_length in Heq as [Hmonth Heq]; [| by rewrite !pad2_length by lia].
  change ("-" +:+ ?x) with (String "-" x) in Heq. injection Heq as Heq.
  apply append_inj_length in Heq as [Hday Heq]; [| by rewrite !pad2_length by lia].
  change ("-" +:+ ?x) with (String "-" x) in Heq. injection Heq as Heq.
  apply append_inj_length in Heq as [Hhour Heq]; [| by rewrite !pad2_length by lia].
  apply append_inj_length in Heq as [Hmin Hsec]; [| by rewrite !pad2_length by lia].
  apply str_of_int_inj in Hyear. apply pad2_inj in Hmonth, Hday, Hhour, Hmin, Hsec;
    try lia.
  congruence.
Qed.

Lemma dated_name_shape (fileName stamp : string) :
  (fileName +:+ "_" +:+ stamp) +:+ ".pt.tar" = fileName +:+ "_" +:+ stamp +:+ ".pt.tar".
Proof. by rewrite (append_assoc fileName). Qed.

(** With the datetime flag, the name is a prefix that does not depend on
    the time, the timestamp, and the extension. *)
Lemma get_file_name_and_path_dated self :
  Py.truthy (REMOTE.file_name_include_datetime self) = true ->
  (exists e, forall now, REMOTE.get_file_name_and_path self now = Py.Raise e) \/
  (exists fileName, forall now,
     REMOTE.get_file_name_and_path self now
     = Py.Ok (fileName +:+ "_" +:+ REMOTE.strftime now +:+ ".pt.tar")).
Proof.
  intros Hflag. unfold REMOTE.get_file_name_and_path. rewrite Hflag.
  destruct (Py.truthy (REMOTE.file_save_in_dictionary self)).
  - destruct (REMOTE.str_add "./" (REMOTE.model_name self)) as [prefix | e].
    + right.
      exists (prefix +:+ "/" +:+ "./" +:+ REMOTE.str (REMOTE.model_name self)).
      intros now. rewrite !bind_Ok. f_equal. apply dated_name_shape.
    + left. exists e. intros now. reflexivity.
  - right. exists ("./" +:+ REMOTE.str (REMOTE.model_name self)).
    intros now. rewrite !bind_Ok. f_equal. apply dated_name_shape.
Qed.

(** Two dated names of one node agree exactly when their timestamps do. *)
Lemma dated_names_by_second self now now' (path path' : string) :
  Py.truthy (REMOTE.file_name_include_datetime self) = true ->
  REMOTE.valid_datetime now -> REMOTE.valid_datetime now' ->
  REMOTE.get_file_name_and_path self now = Py.Ok path ->
  REMOTE.get_file_name_and_path self now' = Py.Ok path' ->
  path = path' <-> now = now'.
Proof.
  intros Hflag Hnow Hnow' Hpath Hpath'. split.
  - intros <-.
    destruct (get_file_name_and_path_dated self Hflag) as [[e He] | [fileName Hname]].
    { rewrite He in Hpath. discriminate. }
    rewrite Hname in Hpath, Hpath'. rewrite <- Hpath' in Hpath.
    injection Hpath as Heq.
    apply append_inv_head in Heq.
    change ("_" +:+ ?x) with (String "_" x) in Heq. injection Heq as Heq.
    apply strftime_inj; [done | done |].
    apply (append_inj_length _ _ ".pt.tar" ".pt.tar"); [| done].
    pose proof (f_equal String.length Heq) as Hlen.
    rewrite !length_append in Hlen. lia.
  - intros <-. congruence.
Qed.

(** X24: dated names identify the second.  With
    [file_name_include_datetime] on, the names [__get_file_name_and_path]
    gives at two times are equal exactly when the two times agree in year,
    month, day, hour, minute and second. *)
Theorem dated_names_injective self now now' (path path' : string) :
  Py.truthy (REMOTE.file_name_include_datetime self) = true ->
  REMOTE.valid_datetime now -> REMOTE.valid_datetime now' ->
  REMOTE.get_file_name_and_path self now = Py.Ok path ->
  REMOTE.get_file_name_and_path self now' = Py.Ok path' ->
  path = path' <-> now = now'.
Proof. apply dated_names_by_second. Qed.

(** X25: dated cycles are kept apart by the second.  If
    [file_name_include_datetime] is on and two slots are queued, the
    Flusher's two iterations at times [now] and [now'] write two files, and
    afterwards both hold their slot's data, when the times differ in some
    field down to the second; when they do not, the two iterations write one
    path and the file holds the second slot's data only. *)
Theorem dated_cycles_by_second self now now' (i j : Z) (rest : list Z) (n : nat)
    (cells cells' : list REMOTE.cell) (data data' : bytes) (path path' : string) :
  Py.truthy (REMOTE.file_name_include_datetime self) = true ->
  REMOTE.valid_datetime now -> REMOTE.valid_datetime now' ->
  REMOTE.flusher_iterations self = S (S n) ->
  REMOTE.flusher_at self = REMOTE.AtGet ->
  REMOTE.flusher_queue self = i :: j :: rest ->
  0 <= i < Z.of_nat (length (REMOTE.dirty_bits self)) ->
  0 <= j < Z.of_nat (length (REMOTE.dirty_bits self)) ->
  REMOTE.remote_buffer self !! Z.to_nat i = Some cells ->
  REMOTE.remote_buffer self !! Z.to_nat j = Some cells' ->
  REMOTE.join cells = Py.Ok data ->
  REMOTE.join cells' = Py.Ok data' ->
  REMOTE.get_file_name_and_path self now = Py.Ok path ->
  REMOTE.get_file_name_and_path self now' = Py.Ok path' ->
  exists self1 self2,
    REMOTE.flusher_steps now 5 self = Some (Py.Ok self1) /\
    REMOTE.flusher_steps now' 5 self1 = Some (Py.Ok self2) /\
    REMOTE.files self2 = <[path' := data']> (<[path := data]> (REMOTE.files self)) /\
    REMOTE.files self2 !! path' = Some data' /\
    (now <> now' -> path <> path' /\ REMOTE.files self2 !! path = Some data) /\
    (now = now' -> path = path' /\ REMOTE.files self2 !! path = Some data').
Proof.
  intros Hflag Hnow Hnow' Hits Hat Hq Hi Hj Hcells Hcells' Hjoin Hjoin' Hname Hname'.
  pose proof (dated_names_by_second self now now' path path' Hflag Hnow Hnow'
                Hname Hname') as Hinj.
  rewrite (flusher_iteration_run self now i (j :: rest) (S n) cells data path)
    by done.
  eexists _, _. split; [reflexivity |].
  rewrite (flusher_iteration_run _ now' j rest n cells' data' path').
  - split; [reflexivity |]. cbn [REMOTE.files].
    split; [reflexivity |]. split; [apply lookup_insert_eq |]. split.
    + intros Hne. assert (Hpaths : path <> path') by (intros Heq; by apply Hne, Hinj).
      split; [done |]. rewrite lookup_insert_ne by done. apply lookup_insert_eq.
    + intros Heq. apply Hinj in Heq as ->. split; [done | apply lookup_insert_eq].
  - done.
  - done.
  - done.
  - cbn. by rewrite length_insert.
  - done.
  - done.
  - exact Hname'.
Qed.

End DatedNames.

Lemma dated_names_injective_witness :
  "./model_2024-03-02-090507.pt.tar" = "./model_2024-03-02-090508.pt.tar"
  <-> Examples.now = REMOTE.BuildDatetime 2024 3 2 9 5 8.
Proof.
  apply (dated_names_injective (Examples.remote false true) Examples.now
           (REMOTE.BuildDatetime 2024 3 2 9 5 8)).
  - reflexivity.
  - unfold REMOTE.valid_datetime. simpl. lia.
  - unfold REMOTE.valid_datetime. simpl. lia.
  - by vm_compute.
  - by vm_compute.
Defined.

Lemma dated_cycles_by_second_witness :
  let self := REMOTE.Build (MPI.Build 1 2 (Some [0])) 2 2 1 (Py.VStr "model")
                (Py.VBool true) (Py.VBool false) true [1; 1]
                [[REMOTE.CellBytes [Byte.x01]]; [REMOTE.CellBytes [Byte.x02]]]
                0 [0; 1] 2 REMOTE.AtGet ∅ in
  let now' := REMOTE.BuildDatetime 2024 3 2 9 5 8 in
  exists self1 self2,
    REMOTE.flusher_steps Examples.now 5 self = Some (Py.Ok self1) /\
    REMOTE.flusher_steps now' 5 self1 = Some (Py.Ok self2) /\
    REMOTE.files self2 !! "./model_2024-03-02-090507.pt.tar" = Some [Byte.x01] /\
    REMOTE.files self2 !! "./model_2024-03-02-090508.pt.tar" = Some [Byte.x02].
Proof.
  intros self now'.
  destruct (dated_cycles_by_second self Examples.now now' 0 1 [] 0
              [REMOTE.CellBytes [Byte.x01]] [REMOTE.CellBytes [Byte.x02]]
              [Byte.x01] [Byte.x02] "./model_2024-03-02-090507.pt.tar"
              "./model_2024-03-02-090508.pt.tar")
    as (self1 & self2 & H1 & H2 & _ & Hsecond & Hdiff & _).
  - reflexivity.
  - unfold REMOTE.valid_datetime. simpl. lia.
  - unfold REMOTE.valid_datetime. simpl. lia.
  - reflexivity.
  - reflexivity.
  - reflexivity.
  - simpl. lia.
  - simpl. lia.
  - reflexivity.
  - reflexivity.
  - reflexivity.
  - reflexivity.
  - by vm_compute.
  - by vm_compute.
  - exists self1, self2. split; [exact H1 |]. split; [exact H2 |].
    split; [| exact Hsecond]. apply Hdiff. discriminate.
Defined.
